(** * AceFlow stage/state transition engine: embedding and checked properties

    The development follows the Python sources of the repository:
    - [aceflow-stage.py] (module [StageScript]),
    - [aceflow/scripts/core/state_engine.py] (module [StateEngine]),
    - [aceflow/scripts/core/state_engine_enhanced.py]
      (module [StateEngineEnhanced]),
    - [aceflow/scripts/core/multi_mode_state_engine.py] (module [MultiMode]),
    - [aceflow/scripts/cli/aceflow_cli_enhanced.py], the command
      [revert-stage] (module [EnhancedCli]).

    JSON documents are records and finite maps, functions that read and
    write the state file become functions from the loaded document to an
    outcome that carries the written document, and Python exceptions are an
    explicit error value. *)

From Stdlib Require Import ZArith Floats Uint63.
From stdpp Require Import base gmap strings list fin_maps pretty.

Open Scope string_scope.
Open Scope Z_scope.
Open Scope list_scope.

(** ** Python helpers shared by the engines *)

Module Py.

(** The exceptions that the modelled code can raise. *)
Inductive exn :=
| KeyError (key : string)
| ValueError (msg : string)
| ZeroDivisionError
| OverflowError
| FileNotFoundError.

(** A computation that returns a value or raises. *)
Inductive result (A : Type) :=
| Ok (a : A)
| Raise (e : exn).
Arguments Ok {A} a.
Arguments Raise {A} e.

Definition bind {A B} (r : result A) (k : A -> result B) : result B :=
  match r with
  | Ok a => k a
  | Raise e => Raise e
  end.

(** [x in l] for a list of strings. *)
Definition mem (x : string) (l : list string) : bool := bool_decide (x ∈ l).

(** [l.index(x)]: position of the first occurrence, [ValueError] if none. *)
Fixpoint index (l : list string) (x : string) : option nat :=
  match l with
  | [] => None
  | y :: l' => if bool_decide (y = x) then Some 0%nat
               else option_map S (index l' x)
  end.

(** Truth value of an optional string: [None] and [""] are false. *)
Definition truthy (o : option string) : option string :=
  match o with
  | Some "" => None
  | _ => o
  end.

(** [float(z)] for the small non-negative integers used as counts. *)
Definition float_of_int (z : Z) : float :=
  PrimFloat.of_uint63 (Uint63.of_Z z).

(** [int(f)]: truncation toward zero; infinities and NaN raise. *)
Definition int_of_float (f : float) : result Z :=
  match Prim2SF f with
  | S754_zero _ => Ok 0
  | S754_finite s m e =>
      let a := match e with
               | Z0 => Zpos m
               | Zpos p => Zpos m * 2 ^ Zpos p
               | Zneg p => Zpos m / 2 ^ Zpos p
               end in
      Ok (if s then - a else a)
  | S754_infinity _ => Raise OverflowError
  | S754_nan => Raise (ValueError "cannot convert float NaN to integer")
  end.

(** [a / b] on integers: true division in binary64. *)
Definition truediv (a b : Z) : result float :=
  if (b =? 0)%Z then Raise ZeroDivisionError
  else Ok (PrimFloat.div (float_of_int a) (float_of_int b)).

(** [len(l)] *)
Definition len {A} (l : list A) : Z := Z.of_nat (length l).

(** [int((completed_count / total_stages) * 100)], the expression the
    stage script uses for the percentage. *)
Definition percentage (completed_count total_stages : Z) : result Z :=
  bind (truediv completed_count total_stages)
       (fun q => int_of_float (PrimFloat.mul q (float_of_int 100))).

(** Checks [percentage c n = floor (100 * c / n)] for the [fuel] counts
    from [c] upwards. *)
Fixpoint percentage_is_floor_from (n c : Z) (fuel : nat) : bool :=
  match fuel with
  | O => true
  | S fuel' =>
      match percentage c n with
      | Ok r => (r =? 100 * c / n) && percentage_is_floor_from n (c + 1) fuel'
      | Raise _ => false
      end
  end.

(** The counts for which the binary64 computation is checked against the
    integer floor. *)
Definition count_bound : Z := 16384.

End Py.

Import Py.

(** ** aceflow-stage.py *)

Module StageScript.

(** Values stored under the keys of one entry of [progress['stages']]. *)
Inductive jval :=
| JNull
| JBool (b : bool)
| JInt (z : Z)
| JStr (s : string).

#[global] Instance jval_eq_dec : EqDecision jval.
Proof. solve_decision. Defined.

(** [state['project']] of current_state.json. *)
Record project := {
  name : string;
  mode : string;
  last_updated : string
}.

(** [state['flow']] of current_state.json. *)
Record flow := {
  current_stage : string;
  next_stage_of : option string;
  completed_stages : list string;
  progress_percentage : Z
}.

Record state := {
  st_project : project;
  st_flow : flow
}.

(** stage_progress.json: [progress['stages']] maps a stage id to a
    dictionary with the keys [status], [progress], [last_updated], ... *)
Record progress_doc := {
  stages : gmap string (gmap string jval)
}.

(** What a command leaves behind: both documents written and [True]
    returned, [True] returned with nothing written, [False] returned with
    nothing written, or an exception (caught in [run], nothing written). *)
Inductive outcome :=
| Saved (st : state) (pr : progress_doc)
| Unchanged
| Failed
| Raised (e : exn).

Definition get_stage_order (mode : string) : list string :=
  if bool_decide (mode = "minimal") then
    ["analysis"; "planning"; "implementation"; "validation"]
  else if bool_decide (mode = "standard") then
    ["user_stories"; "tasks_planning"; "test_design";
     "implementation"; "testing"; "review"]
  else if bool_decide (mode = "complete") then
    ["s1_user_story"; "s2_tasks_group"; "s3_testcases";
     "s4_implementation"; "s5_test_report"; "s6_codereview";
     "s7_demo_script"; "s8_summary_report"]
  else if bool_decide (mode = "smart") then
    ["analysis"; "planning"; "implementation"; "validation"]
  else [].

(** [save_current_state]: stamps [project.last_updated] before writing. *)
Definition save_current_state (t_save : string) (st : state) : state :=
  {| st_project := {| name := name (st_project st);
                      mode := mode (st_project st);
                      last_updated := t_save |};
     st_flow := st_flow st |}.

(** The stage that follows position [i] of the order, if any. *)
Definition successor_at (stage_order : list string) (i : nat)
  : option string :=
  if bool_decide (i + 1 < length stage_order)%nat
  then stage_order !! (i + 1)%nat else None.

(** The [try: ... index ... except ValueError] block of [next_stage] and
    [goto_stage]. *)
Definition compute_next (stage_order : list string) (stage : string)
  : option string :=
  match index stage_order stage with
  | Some i => successor_at stage_order i
  | None => None
  end.

(** [progress['stages'][stage]['status'] = 'in_progress'] with the
    time stamp, when the stage has an entry. *)
Definition mark_in_progress (t_stage : string) (stage : string)
    (pr : progress_doc) : progress_doc :=
  match stages pr !! stage with
  | Some info =>
      {| stages := <[stage := <["last_updated" := JStr t_stage]>
                                (<["status" := JStr "in_progress"]> info)]>
                     (stages pr) |}
  | None => pr
  end.

(** The confirmation question of [next_stage]: [Ok true] to go on,
    [Ok false] when the user declines. *)
Definition next_stage_confirmed (force confirm : bool) (current : string)
    (pr : progress_doc) : result bool :=
  if bool_decide (current ≠ "initialized") then
    match stages pr !! current with
    | Some info =>
        match info !! "status" with
        | Some current_status =>
            if bool_decide (current_status ≠ JStr "completed") && negb force
            then Ok confirm
            else Ok true
        | None => Raise (KeyError "status")
        end
    | None => Ok true
    end
  else Ok true.

Definition next_stage (t_stage t_save : string) (force confirm : bool)
    (st : state) (pr : progress_doc) : outcome :=
  let current := current_stage (st_flow st) in
  match truthy (next_stage_of (st_flow st)) with
  | None => Unchanged
  | Some nxt =>
      match next_stage_confirmed force confirm current pr with
      | Raise e => Raised e
      | Ok false => Failed
      | Ok true =>
          let old_stage := current in
          let stage_order := get_stage_order (mode (st_project st)) in
          let next' := compute_next stage_order nxt in
          let completed :=
            if bool_decide (old_stage ≠ "initialized")
               && negb (mem old_stage (completed_stages (st_flow st)))
            then completed_stages (st_flow st) ++ [old_stage]
            else completed_stages (st_flow st) in
          match percentage (len completed) (len stage_order) with
          | Raise e => Raised e
          | Ok pct =>
              let st' := {| st_project := st_project st;
                            st_flow := {| current_stage := nxt;
                                          next_stage_of := next';
                                          completed_stages := completed;
                                          progress_percentage := pct |} |} in
              Saved (save_current_state t_save st')
                    (mark_in_progress t_stage nxt pr)
          end
      end
  end.

Definition goto_stage (t_stage t_save : string) (force confirm : bool)
    (target_stage : string) (st : state) (pr : progress_doc) : outcome :=
  let stage_order := get_stage_order (mode (st_project st)) in
  if negb (mem target_stage stage_order) then Failed
  else if bool_decide (current_stage (st_flow st) = target_stage)
  then Unchanged
  else if negb force && negb confirm then Failed
  else
    let st' := {| st_project := st_project st;
                  st_flow := {| current_stage := target_stage;
                                next_stage_of :=
                                  compute_next stage_order target_stage;
                                completed_stages :=
                                  completed_stages (st_flow st);
                                progress_percentage :=
                                  progress_percentage (st_flow st) |} |} in
    Saved (save_current_state t_save st')
          (mark_in_progress t_stage target_stage pr).

Definition complete_stage (t_stage t_save : string) (force confirm : bool)
    (stage : string) (st : state) (pr : progress_doc) : outcome :=
  match stages pr !! stage with
  | None => Failed
  | Some info =>
      if negb force && negb confirm then Failed
      else
        let info' := <["last_updated" := JStr t_stage]>
                       (<["progress" := JInt 100]>
                          (<["status" := JStr "completed"]> info)) in
        let pr' := {| stages := <[stage := info']> (stages pr) |} in
        let completed :=
          if negb (mem stage (completed_stages (st_flow st)))
          then completed_stages (st_flow st) ++ [stage]
          else completed_stages (st_flow st) in
        let stage_order := get_stage_order (mode (st_project st)) in
        match percentage (len completed) (len stage_order) with
        | Raise e => Raised e
        | Ok pct =>
            let st' := {| st_project := st_project st;
                          st_flow := {| current_stage :=
                                          current_stage (st_flow st);
                                        next_stage_of :=
                                          next_stage_of (st_flow st);
                                        completed_stages := completed;
                                        progress_percentage := pct |} |} in
            Saved (save_current_state t_save st') pr'
        end
  end.

(** What the reset loop does to the dictionary of one stage. *)
Definition reset_entry (info : gmap string jval) : gmap string jval :=
  delete "last_updated"
    (<["progress" := JInt 0]> (<["status" := JStr "pending"]> info)).

(** One round of the loop that resets the stages after the target. *)
Definition reset_one (pr : progress_doc) (stage : string) : progress_doc :=
  match stages pr !! stage with
  | Some info => {| stages := <[stage := reset_entry info]> (stages pr) |}
  | None => pr
  end.

(** [[s for s in completed if stage_order.index(s) < target_index]]:
    [index] raises for a stage that is not in the order. *)
Fixpoint keep_before (stage_order : list string) (target_index : nat)
    (completed : list string) : result (list string) :=
  match completed with
  | [] => Ok []
  | s :: rest =>
      match index stage_order s with
      | None => Raise (ValueError (String.append s " is not in list"))
      | Some i =>
          bind (keep_before stage_order target_index rest)
               (fun kept => Ok (if bool_decide (i < target_index)%nat
                                then s :: kept else kept))
      end
  end.

Definition reset_stage (t_save : string) (force confirm : bool)
    (target_stage : string) (st : state) (pr : progress_doc) : outcome :=
  let stage_order := get_stage_order (mode (st_project st)) in
  match index stage_order target_stage with
  | None => Failed
  | Some target_index =>
      if negb force && negb confirm then Failed
      else
        let pr' := foldl reset_one pr (drop (S target_index) stage_order) in
        match keep_before stage_order target_index
                          (completed_stages (st_flow st)) with
        | Raise e => Raised e
        | Ok completed =>
            match percentage (len completed) (len stage_order) with
            | Raise e => Raised e
            | Ok pct =>
                let st' :=
                  {| st_project := st_project st;
                     st_flow := {| current_stage := target_stage;
                                   next_stage_of :=
                                     successor_at stage_order target_index;
                                   completed_stages := completed;
                                   progress_percentage := pct |} |} in
                Saved (save_current_state t_save st') pr'
            end
        end
  end.

End StageScript.

(** ** aceflow/scripts/core/state_engine.py *)

Module StateEngine.

(** One value of [self.stage_definitions]. *)
Record stage_definition := {
  name : string;
  next_stage : option string
}.

(** [self.stage_definitions], in insertion order. *)
Definition stage_definitions : list (string * stage_definition) :=
  [ ("S1", {| name := "用户故事细化"; next_stage := Some "S2" |});
    ("S2", {| name := "任务拆分"; next_stage := Some "S3" |});
    ("S3", {| name := "测试用例设计"; next_stage := Some "S4" |});
    ("S4", {| name := "功能实现"; next_stage := Some "S5" |});
    ("S5", {| name := "测试报告"; next_stage := Some "S6" |});
    ("S6", {| name := "代码评审"; next_stage := Some "S7" |});
    ("S7", {| name := "演示与反馈"; next_stage := Some "S8" |});
    ("S8", {| name := "进度汇总"; next_stage := None |}) ].

(** [self.stage_definitions[stage_id]]; [None] stands for [KeyError]. *)
Fixpoint definition_of (defs : list (string * stage_definition))
    (stage_id : string) : option stage_definition :=
  match defs with
  | [] => None
  | (k, d) :: defs' =>
      if bool_decide (k = stage_id) then Some d
      else definition_of defs' stage_id
  end.

(** An entry of [state['abnormalities']]. *)
Record abnormality := {
  abn_id : string;
  abn_stage_id : string;
  abn_description : string;
  abn_severity : string;
  abn_detected_at : string;
  abn_status : string;
  abn_resolved_at : option string
}.

(** The document .aceflow/current_state.json. *)
Record state := {
  current_stage : string;
  stage_status : gmap string string;
  progress : gmap string Z;
  memory_ids : list string;
  last_updated : string;
  abnormalities : list abnormality
}.

Definition initialize_state (now : string) : state :=
  {| current_stage := "S1";
     stage_status :=
       <["S1" := "in_progress"]>
         (list_to_map
            (map (fun kd => (fst kd, "not_started")) stage_definitions));
     progress := list_to_map (map (fun kd => (fst kd, 0)) stage_definitions);
     memory_ids := [];
     last_updated := now;
     abnormalities := [] |}.

Definition set_current_stage (v : string) (st : state) : state :=
  {| current_stage := v; stage_status := stage_status st;
     progress := progress st; memory_ids := memory_ids st;
     last_updated := last_updated st; abnormalities := abnormalities st |}.

Definition set_stage_status (k v : string) (st : state) : state :=
  {| current_stage := current_stage st;
     stage_status := <[k := v]> (stage_status st);
     progress := progress st; memory_ids := memory_ids st;
     last_updated := last_updated st; abnormalities := abnormalities st |}.

Definition set_progress (k : string) (v : Z) (st : state) : state :=
  {| current_stage := current_stage st; stage_status := stage_status st;
     progress := <[k := v]> (progress st); memory_ids := memory_ids st;
     last_updated := last_updated st; abnormalities := abnormalities st |}.

Definition set_memory_ids (v : list string) (st : state) : state :=
  {| current_stage := current_stage st; stage_status := stage_status st;
     progress := progress st; memory_ids := v;
     last_updated := last_updated st; abnormalities := abnormalities st |}.

(** [save_state]: stamps [last_updated] and writes the document. *)
Definition save_state (now : string) (st : state) : state :=
  {| current_stage := current_stage st; stage_status := stage_status st;
     progress := progress st; memory_ids := memory_ids st;
     last_updated := now; abnormalities := abnormalities st |}.

(** The loop that appends the memory ids that are not yet recorded. *)
Definition add_memory_ids (memory_ids : option (list string))
    (recorded : list string) : list string :=
  match memory_ids with
  | Some new_ids =>
      foldl (fun acc mem_id => if mem mem_id acc then acc else acc ++ [mem_id])
            recorded new_ids
  | None => recorded
  end.

(** The branch on [progress >= 100] of [update_stage_progress]. *)
Definition update_status (stage_id : string) (p : Z) (st : state)
  : result state :=
  if 100 <=? p then
    let st := set_stage_status stage_id "completed" st in
    match definition_of stage_definitions stage_id with
    | None => Raise (KeyError stage_id)
    | Some d =>
        match truthy (next_stage d) with
        | Some nxt =>
            Ok (set_stage_status nxt "in_progress" (set_current_stage nxt st))
        | None => Ok st
        end
    end
  else Ok (set_stage_status stage_id "in_progress" st).

(** [update_stage_progress]: the result is the document that was written;
    an exception leaves the file as it was. *)
Definition update_stage_progress (now : string) (stage_id : string) (p : Z)
    (new_memory_ids : option (list string)) (st : state) : result state :=
  match progress st !! stage_id with
  | None => Raise (ValueError (String.append "无效的阶段ID: " stage_id))
  | Some _ =>
      let st := set_current_stage stage_id (set_progress stage_id p st) in
      bind (update_status stage_id p st) (fun st =>
        Ok (save_state now
              (set_memory_ids (add_memory_ids new_memory_ids (memory_ids st))
                              st)))
  end.

(** A dictionary of the list that [get_navigation_suggestion] returns. *)
Record suggestion := {
  type : string;
  priority : string;
  message : string;
  action_suggestion : string;
  requires_confirmation : bool;
  rationale : option string
}.

Definition concat_strings (l : list string) : string :=
  foldr String.append "" l.

(** The abnormalities of the current stage that are still unresolved. *)
Definition unresolved_for (current : string) (l : list abnormality)
  : list abnormality :=
  filter (fun a => abn_status a = "unresolved" /\ abn_stage_id a = current) l.

Definition abnormality_suggestion (abn : abnormality) : suggestion :=
  {| type := "abnormality";
     priority := if bool_decide (abn_severity abn = "high")
                 then "high" else "medium";
     message := String.append "【状态提示】需要处理异常: " (abn_description abn);
     action_suggestion :=
       concat_strings ["resolve_abnormality('"; abn_id abn; "')"];
     requires_confirmation := true;
     rationale := None |}.

Definition progress_suggestion (current : string) (p : Z) : suggestion :=
  {| type := "progress";
     priority := "medium";
     message :=
       concat_strings ["【状态提示】当前阶段 "; current; " 进度: "; pretty p;
                       "%，还需完成 "; pretty (100 - p); "%"];
     action_suggestion :=
       concat_strings ["update_stage_progress('"; current; "', ";
                       pretty (Z.min (p + 10) 100); ")"];
     requires_confirmation := true;
     rationale := Some "建议逐步更新进度，每次增加不超过10%" |}.

Definition transition_suggestion (current nxt : string) : suggestion :=
  {| type := "transition";
     priority := "high";
     message :=
       concat_strings ["【状态提示】阶段 "; current; " 已完成，准备进入 "; nxt];
     action_suggestion :=
       concat_strings ["update_stage_progress('"; nxt; "', 0)"];
     requires_confirmation := true;
     rationale := Some "请确认是否已完成当前阶段所有工作" |}.

(** [get_navigation_suggestion]: reads the document and writes nothing. *)
Definition get_navigation_suggestion (st : state) : result (list suggestion) :=
  let current := current_stage st in
  let p := default 0 (progress st !! current) in
  match unresolved_for current (abnormalities st) with
  | (_ :: _) as abns => Ok (map abnormality_suggestion abns)
  | [] =>
      if p <? 100 then Ok [progress_suggestion current p]
      else
        match definition_of stage_definitions current with
        | None => Raise (KeyError current)
        | Some d =>
            match truthy (next_stage d) with
            | Some nxt => Ok [transition_suggestion current nxt]
            | None => Ok []
            end
        end
  end.

End StateEngine.

(** ** aceflow/scripts/core/state_engine_enhanced.py *)

Module StateEngineEnhanced.

Record stage_definition := {
  name : string;
  next_stage : option string;
  required_output : string;
  dependencies : list string
}.

Definition stage_definitions : list (string * stage_definition) :=
  [ ("S1", {| name := "用户故事细化"; next_stage := Some "S2";
              required_output := "s1_user_story.md"; dependencies := [] |});
    ("S2", {| name := "任务拆分"; next_stage := Some "S3";
              required_output := "s2_tasks.md"; dependencies := ["S1"] |});
    ("S3", {| name := "测试用例设计"; next_stage := Some "S4";
              required_output := "s3_testcases.md"; dependencies := ["S2"] |});
    ("S4", {| name := "功能实现"; next_stage := Some "S5";
              required_output := "s4_implementation.md";
              dependencies := ["S3"] |});
    ("S5", {| name := "测试报告"; next_stage := Some "S6";
              required_output := "s5_test_report.md"; dependencies := ["S4"] |});
    ("S6", {| name := "代码评审"; next_stage := Some "S7";
              required_output := "s6_codereview.md"; dependencies := ["S5"] |});
    ("S7", {| name := "演示与反馈"; next_stage := Some "S8";
              required_output := "s7_feedback.md"; dependencies := ["S6"] |});
    ("S8", {| name := "进度汇总"; next_stage := None;
              required_output := "s8_summary.md"; dependencies := ["S7"] |}) ].

Fixpoint definition_of (defs : list (string * stage_definition))
    (stage_id : string) : option stage_definition :=
  match defs with
  | [] => None
  | (k, d) :: defs' =>
      if bool_decide (k = stage_id) then Some d
      else definition_of defs' stage_id
  end.

(** [list(self.stage_definitions.keys())] *)
Definition stage_ids : list string := map fst stage_definitions.

Record abnormality := {
  abn_id : string;
  abn_stage_id : string;
  abn_description : string;
  abn_severity : string;
  abn_detected_at : string;
  abn_status : string;
  abn_resolved_at : option string
}.

(** The document .aceflow/current_state.json of the enhanced engine.
    [iterations] is only read, by [check_dependencies]; of the dictionary
    stored per iteration and stage only the [progress] entry is kept. *)
Record state := {
  current_stage : string;
  stage_status : gmap string string;
  progress : gmap string Z;
  memory_ids : list string;
  last_updated : string;
  abnormalities : list abnormality;
  associated_outputs : gmap string (list string);
  review_status : gmap string string;
  iterations : gmap string (gmap string Z)
}.

Definition initialize_state (now : string) : state :=
  {| current_stage := "S1";
     stage_status :=
       <["S1" := "in_progress"]>
         (list_to_map (map (fun k => (k, "not_started")) stage_ids));
     progress := list_to_map (map (fun k => (k, 0)) stage_ids);
     memory_ids := [];
     last_updated := now;
     abnormalities := [];
     associated_outputs := list_to_map (map (fun k => (k, [])) stage_ids);
     review_status := list_to_map (map (fun k => (k, "pending")) stage_ids);
     iterations := ∅ |}.

Definition set_current_stage (v : string) (st : state) : state :=
  {| current_stage := v; stage_status := stage_status st;
     progress := progress st; memory_ids := memory_ids st;
     last_updated := last_updated st; abnormalities := abnormalities st;
     associated_outputs := associated_outputs st;
     review_status := review_status st; iterations := iterations st |}.

Definition set_stage_status (k v : string) (st : state) : state :=
  {| current_stage := current_stage st;
     stage_status := <[k := v]> (stage_status st);
     progress := progress st; memory_ids := memory_ids st;
     last_updated := last_updated st; abnormalities := abnormalities st;
     associated_outputs := associated_outputs st;
     review_status := review_status st; iterations := iterations st |}.

Definition set_progress (k : string) (v : Z) (st : state) : state :=
  {| current_stage := current_stage st; stage_status := stage_status st;
     progress := <[k := v]> (progress st); memory_ids := memory_ids st;
     last_updated := last_updated st; abnormalities := abnormalities st;
     associated_outputs := associated_outputs st;
     review_status := review_status st; iterations := iterations st |}.

Definition set_memory_ids (v : list string) (st : state) : state :=
  {| current_stage := current_stage st; stage_status := stage_status st;
     progress := progress st; memory_ids := v;
     last_updated := last_updated st; abnormalities := abnormalities st;
     associated_outputs := associated_outputs st;
     review_status := review_status st; iterations := iterations st |}.

Definition save_state (now : string) (st : state) : state :=
  {| current_stage := current_stage st; stage_status := stage_status st;
     progress := progress st; memory_ids := memory_ids st;
     last_updated := now; abnormalities := abnormalities st;
     associated_outputs := associated_outputs st;
     review_status := review_status st; iterations := iterations st |}.

(** The directory aceflow_result/iterations as the engine sees it: [None]
    when it does not exist, otherwise its sub-directories, each with the
    sizes of the files it holds. *)
Record filesystem := {
  iteration_dirs : option (list (gmap string Z))
}.

Definition validate_stage_output (fs : filesystem) (stage_id : string)
  : result bool :=
  match definition_of stage_definitions stage_id with
  | None => Raise (KeyError stage_id)
  | Some d =>
      match iteration_dirs fs with
      | None => Raise FileNotFoundError
      | Some dirs =>
          Ok (existsb (fun dir => match dir !! required_output d with
                                  | Some size => 0 <? size
                                  | None => false
                                  end) dirs)
      end
  end.

(** [check_dependencies]: defined by the engine, its call in
    [update_stage_progress] is commented out. *)
Definition check_dependencies (st : state) (stage_id : string) : result bool :=
  match definition_of stage_definitions stage_id with
  | None => Raise (KeyError stage_id)
  | Some d =>
      Ok (forallb
            (fun dep =>
               let status := default "not_started" (stage_status st !! dep) in
               let p := default 0 (default ∅ (iterations st !! "1") !! dep) in
               negb (bool_decide (status ≠ "completed") || (p <? 100)))
            (dependencies d))
  end.

Definition add_memory_ids (memory_ids : option (list string))
    (recorded : list string) : list string :=
  match memory_ids with
  | Some new_ids =>
      foldl (fun acc mem_id => if mem mem_id acc then acc else acc ++ [mem_id])
            recorded new_ids
  | None => recorded
  end.

(** The output gate: asked only when [progress >= 100]. *)
Definition output_gate (fs : filesystem) (stage_id : string) (p : Z)
  : result unit :=
  if 100 <=? p then
    bind (validate_stage_output fs stage_id) (fun valid =>
      if valid then Ok tt
      else Raise (ValueError
                    (String.append "阶段 "
                       (String.append stage_id
                          " 的输出产物未通过校验，无法完成进度"))))
  else Ok tt.

Definition update_status (stage_id : string) (p : Z) (st : state)
  : result state :=
  if 100 <=? p then
    let st := set_stage_status stage_id "completed" st in
    match definition_of stage_definitions stage_id with
    | None => Raise (KeyError stage_id)
    | Some d =>
        match truthy (next_stage d) with
        | Some nxt =>
            Ok (set_stage_status nxt "in_progress" (set_current_stage nxt st))
        | None => Ok st
        end
    end
  else Ok (set_stage_status stage_id "in_progress" st).

Definition update_stage_progress (fs : filesystem) (now : string)
    (stage_id : string) (p : Z) (new_memory_ids : option (list string))
    (st : state) : result state :=
  match progress st !! stage_id with
  | None => Raise (ValueError (String.append "无效的阶段ID: " stage_id))
  | Some _ =>
      bind (output_gate fs stage_id p) (fun _ =>
        let st := set_current_stage stage_id (set_progress stage_id p st) in
        bind (update_status stage_id p st) (fun st =>
          Ok (save_state now
                (set_memory_ids (add_memory_ids new_memory_ids (memory_ids st))
                                st))))
  end.

Record suggestion := {
  type : string;
  priority : string;
  message : string;
  action_suggestion : string;
  requires_confirmation : bool;
  rationale : option string
}.

Definition concat_strings (l : list string) : string :=
  foldr String.append "" l.

Definition unresolved_for (current : string) (l : list abnormality)
  : list abnormality :=
  filter (fun a => abn_status a = "unresolved" /\ abn_stage_id a = current) l.

Definition abnormality_suggestion (abn : abnormality) : suggestion :=
  {| type := "abnormality";
     priority := if bool_decide (abn_severity abn = "high")
                 then "high" else "medium";
     message := String.append "【状态提示】需要处理异常: " (abn_description abn);
     action_suggestion :=
       concat_strings ["resolve_abnormality('"; abn_id abn; "')"];
     requires_confirmation := true;
     rationale := None |}.

Definition progress_suggestion (current : string) (p : Z) : suggestion :=
  {| type := "progress";
     priority := "medium";
     message :=
       concat_strings ["【状态提示】当前阶段 "; current; " 进度: "; pretty p;
                       "%，还需完成 "; pretty (100 - p); "%"];
     action_suggestion :=
       concat_strings ["update_stage_progress('"; current; "', ";
                       pretty (Z.min (p + 10) 100); ")"];
     requires_confirmation := true;
     rationale := Some "建议逐步更新进度，每次增加不超过10%" |}.

Definition transition_suggestion (current nxt : string) : suggestion :=
  {| type := "transition";
     priority := "high";
     message :=
       concat_strings ["【状态提示】阶段 "; current; " 已完成，准备进入 "; nxt];
     action_suggestion :=
       concat_strings ["update_stage_progress('"; nxt; "', 0)"];
     requires_confirmation := true;
     rationale := Some "请确认是否已完成当前阶段所有工作" |}.

Definition get_navigation_suggestion (st : state) : result (list suggestion) :=
  let current := current_stage st in
  let p := default 0 (progress st !! current) in
  match unresolved_for current (abnormalities st) with
  | (_ :: _) as abns => Ok (map abnormality_suggestion abns)
  | [] =>
      if p <? 100 then Ok [progress_suggestion current p]
      else
        match definition_of stage_definitions current with
        | None => Raise (KeyError current)
        | Some d =>
            match truthy (next_stage d) with
            | Some nxt => Ok [transition_suggestion current nxt]
            | None => Ok []
            end
        end
  end.

(** One round of the loop of [revert_to_stage] over the stages that
    follow the target. *)
Definition revert_one (st : state) (stage_id : string) : state :=
  set_progress stage_id 0 (set_stage_status stage_id "not_started" st).

Definition revert_to_stage (now : string) (target_stage : string)
    (st : state) : result state :=
  match definition_of stage_definitions target_stage with
  | None => Raise (ValueError (String.append "无效的阶段ID: " target_stage))
  | Some _ =>
      let st := set_stage_status target_stage "in_progress"
                  (set_current_stage target_stage st) in
      match index stage_ids target_stage with
      | None =>
          Raise (ValueError (String.append target_stage " is not in list"))
      | Some current_index =>
          Ok (save_state now
                (foldl revert_one st (drop (current_index + 1) stage_ids)))
      end
  end.

End StateEngineEnhanced.

(** ** aceflow/scripts/core/multi_mode_state_engine.py *)

Module MultiMode.

Inductive StageStatus := PENDING | IN_PROGRESS | COMPLETED | BLOCKED | SKIPPED.

#[global] Instance StageStatus_eq_dec : EqDecision StageStatus.
Proof. solve_decision. Defined.

(** [status.value] *)
Definition StageStatus_value (s : StageStatus) : string :=
  match s with
  | PENDING => "pending"
  | IN_PROGRESS => "in_progress"
  | COMPLETED => "completed"
  | BLOCKED => "blocked"
  | SKIPPED => "skipped"
  end.

(** [StageStatus(value)]: [ValueError] for a string that names no member. *)
Definition StageStatus_of_value (v : string) : result StageStatus :=
  if bool_decide (v = "pending") then Ok PENDING
  else if bool_decide (v = "in_progress") then Ok IN_PROGRESS
  else if bool_decide (v = "completed") then Ok COMPLETED
  else if bool_decide (v = "blocked") then Ok BLOCKED
  else if bool_decide (v = "skipped") then Ok SKIPPED
  else Raise (ValueError (String.append v " is not a valid StageStatus")).

Inductive FlowMode := MINIMAL | STANDARD | COMPLETE.

(** The dataclass [StageInfo]. *)
Record StageInfo := {
  id : string;
  name : string;
  display_name : string;
  description : string;
  duration_estimate : string;
  deliverables : list string;
  next_stage : option string;
  dependencies : list string
}.

(** The dataclass [StageState] that [get_stage_state] builds. *)
Record StageState := {
  stage_id : string;
  status : StageStatus;
  progress : Z;
  start_time : option Z;
  end_time : option Z;
  assignee : option string;
  notes : list string;
  deliverables_status : gmap string bool
}.

(** A dictionary stored in [state['stage_states']].  A field is [None] when
    the key is absent; for the keys that may hold [None] the inner option is
    the stored value.  Time stamps are seconds. *)
Record stage_dict := {
  d_status : option string;
  d_progress : option Z;
  d_start_time : option (option Z);
  d_end_time : option (option Z);
  d_assignee : option (option string);
  d_notes : option (list string);
  d_deliverables_status : option (gmap string bool)
}.

(** [{}] *)
Definition empty_dict : stage_dict :=
  {| d_status := None; d_progress := None; d_start_time := None;
     d_end_time := None; d_assignee := None; d_notes := None;
     d_deliverables_status := None |}.

(** Truth value of a dictionary: it has at least one key. *)
Definition dict_nonempty (d : stage_dict) : bool :=
  bool_decide (is_Some (d_status d)) || bool_decide (is_Some (d_progress d))
  || bool_decide (is_Some (d_start_time d))
  || bool_decide (is_Some (d_end_time d))
  || bool_decide (is_Some (d_assignee d)) || bool_decide (is_Some (d_notes d))
  || bool_decide (is_Some (d_deliverables_status d)).

Record metadata_dict := {
  created_at : Z;
  last_updated : Z;
  version : string
}.

(** [self.state] *)
Record state_dict := {
  flow_mode : string;
  current_stage : option string;
  stage_states : option (gmap string stage_dict);
  metadata : option metadata_dict
}.

(** The engine object together with the state file it writes.
    [flow_modes] is the stage list that [get_stages_for_mode] builds from
    the loaded configuration. *)
Record engine := {
  flow_modes : FlowMode -> list StageInfo;
  current_mode : FlowMode;
  state : state_dict;
  state_file : option state_dict
}.

Definition set_state (st : state_dict) (e : engine) : engine :=
  {| flow_modes := flow_modes e; current_mode := current_mode e;
     state := st; state_file := state_file e |}.

Definition get_stages_for_mode (e : engine) (mode : FlowMode)
  : list StageInfo := flow_modes e mode.

(** [_save_state]: the shallow copy shares [metadata] with [self.state];
    when the key is missing the [KeyError] is caught and nothing is
    written. *)
Definition _save_state (now : Z) (e : engine) : engine :=
  match metadata (state e) with
  | None => e
  | Some m =>
      let st := {| flow_mode := flow_mode (state e);
                   current_stage := current_stage (state e);
                   stage_states := stage_states (state e);
                   metadata := Some {| created_at := created_at m;
                                       last_updated := now;
                                       version := version m |} |} in
      {| flow_modes := flow_modes e; current_mode := current_mode e;
         state := st; state_file := Some st |}
  end.

(** [self.state.get('stage_states', {}).get(stage_id, {})] *)
Definition stage_state_data (e : engine) (stage_id : string) : stage_dict :=
  default empty_dict (default ∅ (stage_states (state e)) !! stage_id).

Definition get_stage_state (e : engine) (stage_id : string)
  : result StageState :=
  let data := stage_state_data e stage_id in
  bind (StageStatus_of_value
          (default (StageStatus_value PENDING) (d_status data)))
       (fun st =>
          Ok {| stage_id := stage_id;
                status := st;
                progress := default 0 (d_progress data);
                start_time := mjoin (d_start_time data);
                end_time := mjoin (d_end_time data);
                assignee := mjoin (d_assignee data);
                notes := default [] (d_notes data);
                deliverables_status :=
                  default ∅ (d_deliverables_status data) |}).

(** The keyword arguments of [update_stage_state]; [None] when the
    keyword is not passed. *)
Record kwargs := {
  kw_status : option StageStatus;
  kw_progress : option Z;
  kw_start_time : option (option Z);
  kw_end_time : option (option Z);
  kw_assignee : option (option string);
  kw_notes : option (list string);
  kw_deliverables_status : option (gmap string bool)
}.

(** [stage_state[key] = value] for every keyword that is passed. *)
Definition apply_kwargs (kw : kwargs) (d : stage_dict) : stage_dict :=
  {| d_status :=
       match kw_status kw with
       | Some s => Some (StageStatus_value s)
       | None => d_status d
       end;
     d_progress := from_option Some (d_progress d) (kw_progress kw);
     d_start_time := from_option Some (d_start_time d) (kw_start_time kw);
     d_end_time := from_option Some (d_end_time d) (kw_end_time kw);
     d_assignee := from_option Some (d_assignee d) (kw_assignee kw);
     d_notes := from_option Some (d_notes d) (kw_notes kw);
     d_deliverables_status :=
       from_option Some (d_deliverables_status d) (kw_deliverables_status kw) |}.

(** The automatic time stamps of [update_stage_state]. *)
Definition auto_timestamps (now : Z) (kw : kwargs) (d : stage_dict)
  : stage_dict :=
  match kw_status kw with
  | Some IN_PROGRESS =>
      match d_start_time d with
      | None =>
          {| d_status := d_status d; d_progress := d_progress d;
             d_start_time := Some (Some now); d_end_time := d_end_time d;
             d_assignee := d_assignee d; d_notes := d_notes d;
             d_deliverables_status := d_deliverables_status d |}
      | Some _ => d
      end
  | Some COMPLETED =>
      {| d_status := d_status d; d_progress := Some 100;
         d_start_time := d_start_time d; d_end_time := Some (Some now);
         d_assignee := d_assignee d; d_notes := d_notes d;
         d_deliverables_status := d_deliverables_status d |}
  | _ => d
  end.

Definition update_stage_state (now : Z) (stage_id : string) (kw : kwargs)
    (e : engine) : engine :=
  let all_states := default ∅ (stage_states (state e)) in
  let stage_state := default empty_dict (all_states !! stage_id) in
  let stage_state := auto_timestamps now kw (apply_kwargs kw stage_state) in
  let st := {| flow_mode := flow_mode (state e);
               current_stage := current_stage (state e);
               stage_states := Some (<[stage_id := stage_state]> all_states);
               metadata := metadata (state e) |} in
  _save_state now (set_state st e).

Definition _get_stage_info_by_id (e : engine) (stage_id : string)
  : option StageInfo :=
  list_find (fun stage => id stage = stage_id)
            (get_stages_for_mode e (current_mode e))
  ≫= fun found => Some (snd found).

(** The loop of [_check_dependencies] over the declared dependencies. *)
Fixpoint all_dependencies_completed (e : engine) (deps : list string)
  : result bool :=
  match deps with
  | [] => Ok true
  | dep_stage_id :: rest =>
      bind (get_stage_state e dep_stage_id) (fun dep_state =>
        if bool_decide (status dep_state ≠ COMPLETED) then Ok false
        else all_dependencies_completed e rest)
  end.

Definition _check_dependencies (e : engine) (stage_id : string)
  : result bool :=
  match _get_stage_info_by_id e stage_id with
  | None => Ok true
  | Some stage_info =>
      match dependencies stage_info with
      | [] => Ok true
      | deps => all_dependencies_completed e deps
      end
  end.

(** [start_stage]: the engine afterwards and the value returned (or the
    exception that escapes). *)
Definition start_stage (now : Z) (stage_id : string)
    (assignee : option string) (e : engine) : engine * result bool :=
  match _check_dependencies e stage_id with
  | Raise x => (e, Raise x)
  | Ok false => (e, Ok false)
  | Ok true =>
      let e := update_stage_state now stage_id
                 {| kw_status := Some IN_PROGRESS; kw_progress := None;
                    kw_start_time := Some (Some now); kw_end_time := None;
                    kw_assignee := Some assignee; kw_notes := None;
                    kw_deliverables_status := None |} e in
      let st := {| flow_mode := flow_mode (state e);
                   current_stage := Some stage_id;
                   stage_states := stage_states (state e);
                   metadata := metadata (state e) |} in
      (_save_state now (set_state st e), Ok true)
  end.

(** The local variables of [_merge_stage_states]. *)
Record merge_acc := {
  merged_state : stage_dict;
  all_completed : bool;
  total_progress : Z;
  valid_states : Z
}.

Definition merge_init : merge_acc :=
  {| merged_state :=
       {| d_status := Some (StageStatus_value PENDING);
          d_progress := Some 0;
          d_start_time := None; d_end_time := None; d_assignee := None;
          d_notes := Some [];
          d_deliverables_status := Some ∅ |};
     all_completed := true;
     total_progress := 0;
     valid_states := 0 |}.

(** The body of the loop of [_merge_stage_states] for a source state that
    is present and not empty. *)
Definition merge_one (acc : merge_acc) (stage_state : stage_dict)
  : merge_acc :=
  let m := merged_state acc in
  {| merged_state :=
       {| d_status := d_status m;
          d_progress := d_progress m;
          d_start_time :=
            match mjoin (d_start_time stage_state), mjoin (d_start_time m) with
            | Some t, None => Some (Some t)
            | _, _ => d_start_time m
            end;
          d_end_time :=
            match mjoin (d_end_time stage_state) with
            | Some t => Some (Some t)
            | None => d_end_time m
            end;
          d_assignee := d_assignee m;
          d_notes :=
            Some (default [] (d_notes m) ++ default [] (d_notes stage_state));
          d_deliverables_status :=
            Some (default ∅ (d_deliverables_status stage_state)
                  ∪ default ∅ (d_deliverables_status m)) |};
     all_completed :=
       if bool_decide (d_status stage_state
                       ≠ Some (StageStatus_value COMPLETED))
       then false else all_completed acc;
     total_progress := total_progress acc + default 0 (d_progress stage_state);
     valid_states := valid_states acc + 1 |}.

Definition merge_step (e : engine) (acc : merge_acc) (stage_id : string)
  : merge_acc :=
  match default ∅ (stage_states (state e)) !! stage_id with
  | Some stage_state =>
      if dict_nonempty stage_state then merge_one acc stage_state else acc
  | None => acc
  end.

(** The source states that the loop takes into account: present and not
    empty, in the order of [stage_ids]. *)
Definition present_states (e : engine) (stage_ids : list string)
  : list stage_dict :=
  omap (fun stage_id =>
          match default ∅ (stage_states (state e)) !! stage_id with
          | Some d => if dict_nonempty d then Some d else None
          | None => None
          end) stage_ids.

Definition merge_finish (acc : merge_acc) : stage_dict :=
  let m := merged_state acc in
  if all_completed acc && (0 <? valid_states acc) then
    {| d_status := Some (StageStatus_value COMPLETED);
       d_progress := Some 100;
       d_start_time := d_start_time m; d_end_time := d_end_time m;
       d_assignee := d_assignee m; d_notes := d_notes m;
       d_deliverables_status := d_deliverables_status m |}
  else if 0 <? valid_states acc then
    {| d_status := Some (StageStatus_value IN_PROGRESS);
       d_progress := Some (total_progress acc / valid_states acc);
       d_start_time := d_start_time m; d_end_time := d_end_time m;
       d_assignee := d_assignee m; d_notes := d_notes m;
       d_deliverables_status := d_deliverables_status m |}
  else m.

Definition _merge_stage_states (e : engine) (stage_ids : list string)
  : stage_dict :=
  merge_finish (foldl (merge_step e) merge_init stage_ids).

End MultiMode.

(** ** Concrete documents used to exercise the engines *)

Module Samples.

(** An entry of [progress['stages']] of the stage script. *)
Definition entry (status : string) (p : Z) (stamp : option string)
  : gmap string StageScript.jval :=
  let e := <["status" := StageScript.JStr status]>
             (<["progress" := StageScript.JInt p]> ∅) in
  match stamp with
  | Some t => <["last_updated" := StageScript.JStr t]> e
  | None => e
  end.

(** A project in mode [minimal]: two stages completed, the third under
    way. *)
Definition minimal_progress : StageScript.progress_doc :=
  {| StageScript.stages :=
       <["analysis" := entry "completed" 100 (Some "t0")]>
         (<["planning" := entry "completed" 100 (Some "t0")]>
            (<["implementation" := entry "in_progress" 40 (Some "t0")]>
               (<["validation" := entry "pending" 0 None]> ∅))) |}.

Definition minimal_state : StageScript.state :=
  {| StageScript.st_project :=
       {| StageScript.name := "demo"; StageScript.mode := "minimal";
          StageScript.last_updated := "t0" |};
     StageScript.st_flow :=
       {| StageScript.current_stage := "implementation";
          StageScript.next_stage_of := Some "validation";
          StageScript.completed_stages := ["analysis"; "planning"];
          StageScript.progress_percentage := 50 |} |}.

(** The plain engine after S1 and S2 were completed: S3 is current. *)
Definition engine_state : StateEngine.state :=
  {| StateEngine.current_stage := "S3";
     StateEngine.stage_status :=
       <["S1" := "completed"]>
         (<["S2" := "completed"]> (<["S3" := "in_progress"]> ∅));
     StateEngine.progress :=
       <["S1" := 100]> (<["S2" := 100]> (<["S3" := 40]> ∅));
     StateEngine.memory_ids := [];
     StateEngine.last_updated := "t0";
     StateEngine.abnormalities := [] |}.

(** The same situation for the enhanced engine. *)
Definition enhanced_state : StateEngineEnhanced.state :=
  {| StateEngineEnhanced.current_stage := "S3";
     StateEngineEnhanced.stage_status :=
       <["S1" := "completed"]>
         (<["S2" := "completed"]> (<["S3" := "in_progress"]> ∅));
     StateEngineEnhanced.progress :=
       <["S1" := 100]> (<["S2" := 100]> (<["S3" := 40]> ∅));
     StateEngineEnhanced.memory_ids := [];
     StateEngineEnhanced.last_updated := "t0";
     StateEngineEnhanced.abnormalities := [];
     StateEngineEnhanced.associated_outputs := ∅;
     StateEngineEnhanced.review_status := ∅;
     StateEngineEnhanced.iterations := ∅ |}.

(** A file system without any stage output. *)
Definition no_outputs : StateEngineEnhanced.filesystem :=
  {| StateEngineEnhanced.iteration_dirs := Some [] |}.

(** The last stage at progress 100 with two unresolved abnormalities. *)
Definition abnormal_state : StateEngine.state :=
  {| StateEngine.current_stage := "S8";
     StateEngine.stage_status := <["S8" := "completed"]> ∅;
     StateEngine.progress := <["S8" := 100]> ∅;
     StateEngine.memory_ids := [];
     StateEngine.last_updated := "t0";
     StateEngine.abnormalities :=
       [ {| StateEngine.abn_id := "ABN-1"; StateEngine.abn_stage_id := "S8";
            StateEngine.abn_description := "summary missing";
            StateEngine.abn_severity := "high";
            StateEngine.abn_detected_at := "t0";
            StateEngine.abn_status := "unresolved";
            StateEngine.abn_resolved_at := None |};
         {| StateEngine.abn_id := "ABN-2"; StateEngine.abn_stage_id := "S8";
            StateEngine.abn_description := "numbers differ";
            StateEngine.abn_severity := "low";
            StateEngine.abn_detected_at := "t0";
            StateEngine.abn_status := "unresolved";
            StateEngine.abn_resolved_at := None |} ] |}.

Definition stage_info (stage_id : string) (successor : option string)
    (deps : list string) : MultiMode.StageInfo :=
  {| MultiMode.id := stage_id; MultiMode.name := stage_id;
     MultiMode.display_name := stage_id; MultiMode.description := "";
     MultiMode.duration_estimate := ""; MultiMode.deliverables := [];
     MultiMode.next_stage := successor; MultiMode.dependencies := deps |}.

Definition stage_data (status : string) (p : Z) (started : option Z)
    (stage_notes : list string) : MultiMode.stage_dict :=
  {| MultiMode.d_status := Some status; MultiMode.d_progress := Some p;
     MultiMode.d_start_time := option_map Some started;
     MultiMode.d_end_time := None; MultiMode.d_assignee := None;
     MultiMode.d_notes := Some stage_notes;
     MultiMode.d_deliverables_status := None |}.

(** A multi-mode engine in mode minimal: [implementation] depends on
    [analysis] and on [planning]; [analysis] is completed, [planning] is
    still under way. *)
Definition multi_engine : MultiMode.engine :=
  {| MultiMode.flow_modes := fun m =>
       match m with
       | MultiMode.MINIMAL =>
           [ stage_info "analysis" (Some "planning") [];
             stage_info "planning" (Some "implementation") ["analysis"];
             stage_info "implementation" (Some "validation")
                        ["analysis"; "planning"];
             stage_info "validation" None ["implementation"] ]
       | _ => []
       end;
     MultiMode.current_mode := MultiMode.MINIMAL;
     MultiMode.state :=
       {| MultiMode.flow_mode := "minimal";
          MultiMode.current_stage := Some "planning";
          MultiMode.stage_states :=
            Some (<["analysis" := stage_data "completed" 100 (Some 10) ["a"]]>
                    (<["planning" :=
                         stage_data "in_progress" 50 (Some 5) ["b"]]> ∅));
          MultiMode.metadata :=
            Some {| MultiMode.created_at := 0; MultiMode.last_updated := 0;
                    MultiMode.version := "2.0" |} |};
     MultiMode.state_file := None |}.

(** The same engine with both prerequisites of [implementation] done. *)
Definition multi_engine_ready : MultiMode.engine :=
  MultiMode.set_state
    {| MultiMode.flow_mode := "minimal";
       MultiMode.current_stage := Some "planning";
       MultiMode.stage_states :=
         Some (<["analysis" := stage_data "completed" 100 (Some 10) ["a"]]>
                 (<["planning" :=
                      stage_data "completed" 100 (Some 5) ["b"]]> ∅));
       MultiMode.metadata := MultiMode.metadata (MultiMode.state multi_engine) |}
    multi_engine.

(** Two stages that were never worked on. *)
Definition multi_engine_idle : MultiMode.engine :=
  MultiMode.set_state
    {| MultiMode.flow_mode := "minimal";
       MultiMode.current_stage := Some "analysis";
       MultiMode.stage_states :=
         Some (<["analysis" := stage_data "pending" 0 None []]>
                 (<["planning" := stage_data "pending" 0 None []]> ∅));
       MultiMode.metadata := MultiMode.metadata (MultiMode.state multi_engine) |}
    multi_engine.

End Samples.

(** ** aceflow-stage.py: sessions of several commands *)

Module StageScriptSessions.
Import StageScript.

(** The command [complete STAGE --force] run for each stage of a list, one
    after the other, each on the documents the one before has written;
    [None] as soon as a command does not write. *)
Fixpoint complete_in_turn (t_stage t_save : string) (l : list string)
    (st : state) (pr : progress_doc) : option (state * progress_doc) :=
  match l with
  | [] => Some (st, pr)
  | stage :: rest =>
      match complete_stage t_stage t_save true false stage st pr with
      | Saved st' pr' => complete_in_turn t_stage t_save rest st' pr'
      | _ => None
      end
  end.

End StageScriptSessions.

(** ** aceflow/scripts/core/state_engine.py: abnormalities and sessions *)

Module StateEngineLog.
Import StateEngine.

Definition set_abnormalities (v : list abnormality) (st : state) : state :=
  {| current_stage := current_stage st; stage_status := stage_status st;
     progress := progress st; memory_ids := memory_ids st;
     last_updated := last_updated st; abnormalities := v |}.

(** [record_abnormality]: [stamp] is [datetime.now()] in the format
    [%Y%m%d%H%M%S], [detected_at] and [now] are the ISO time stamps taken
    for the entry and by [save_state].  The result is the document written
    and the entry returned. *)
Definition record_abnormality (stamp detected_at now : string)
    (stage_id issue_description severity : string) (st : state)
  : state * abnormality :=
  let abn := {| abn_id := String.append "ABN-" stamp;
                abn_stage_id := stage_id;
                abn_description := issue_description;
                abn_severity := severity;
                abn_detected_at := detected_at;
                abn_status := "unresolved";
                abn_resolved_at := None |} in
  (save_state now (set_abnormalities (abnormalities st ++ [abn]) st), abn).

(** What [resolve_abnormality] assigns to the entry it finds. *)
Definition resolved (resolved_at : string) (abn : abnormality)
  : abnormality :=
  {| abn_id := abn_id abn; abn_stage_id := abn_stage_id abn;
     abn_description := abn_description abn;
     abn_severity := abn_severity abn;
     abn_detected_at := abn_detected_at abn;
     abn_status := "resolved";
     abn_resolved_at := Some resolved_at |}.

(** The loop of [resolve_abnormality]: it stops at the first entry with
    the id; [None] when it runs to the end. *)
Fixpoint resolve_first (resolved_at abnormality_id : string)
    (l : list abnormality) : option (list abnormality) :=
  match l with
  | [] => None
  | abn :: rest =>
      if bool_decide (abn_id abn = abnormality_id)
      then Some (resolved resolved_at abn :: rest)
      else option_map (cons abn)
             (resolve_first resolved_at abnormality_id rest)
  end.

(** [resolve_abnormality]: [Some] of the document written when it returns
    [True], [None] when it returns [False] (nothing is written). *)
Definition resolve_abnormality (resolved_at now : string)
    (abnormality_id : string) (st : state) : option state :=
  match resolve_first resolved_at abnormality_id (abnormalities st) with
  | Some l => Some (save_state now (set_abnormalities l st))
  | None => None
  end.

(** [update_stage_progress (stage_id, 100)] for each stage of a list, one
    call after the other, each on the document the one before wrote. *)
Fixpoint update_in_turn (now : string) (l : list string) (st : state)
  : result state :=
  match l with
  | [] => Ok st
  | stage_id :: rest =>
      bind (update_stage_progress now stage_id 100 None st)
           (update_in_turn now rest)
  end.

End StateEngineLog.

(** ** aceflow/scripts/core/state_engine_enhanced.py: outputs and reviews *)

Module StateEngineEnhancedOutputs.
Import StateEngineEnhanced.

Definition set_associated_outputs (k : string) (v : list string) (st : state)
  : state :=
  {| current_stage := current_stage st; stage_status := stage_status st;
     progress := progress st; memory_ids := memory_ids st;
     last_updated := last_updated st; abnormalities := abnormalities st;
     associated_outputs := <[k := v]> (associated_outputs st);
     review_status := review_status st; iterations := iterations st |}.

Definition set_review_status (k v : string) (st : state) : state :=
  {| current_stage := current_stage st; stage_status := stage_status st;
     progress := progress st; memory_ids := memory_ids st;
     last_updated := last_updated st; abnormalities := abnormalities st;
     associated_outputs := associated_outputs st;
     review_status := <[k := v]> (review_status st);
     iterations := iterations st |}.

(** [associate_output_to_stage] returns [True] or raises; the result is
    [Some] of the document written, or [None] when nothing is written
    because the path is already associated. *)
Definition associate_output_to_stage (now : string)
    (stage_id output_path : string) (st : state) : result (option state) :=
  match associated_outputs st !! stage_id with
  | None => Raise (ValueError (String.append "无效的阶段ID: " stage_id))
  | Some outputs =>
      if negb (mem output_path outputs)
      then Ok (Some (save_state now
                       (set_associated_outputs stage_id
                          (outputs ++ [output_path]) st)))
      else Ok None
  end.

(** [record_stage_review]: the document written. *)
Definition record_stage_review (now : string) (stage_id review_result : string)
    (st : state) : result state :=
  match review_status st !! stage_id with
  | None => Raise (ValueError (String.append "无效的阶段ID: " stage_id))
  | Some _ => Ok (save_state now (set_review_status stage_id review_result st))
  end.

End StateEngineEnhancedOutputs.

(** ** multi_mode_state_engine.py: completion, deliverables, summaries *)

Module MultiModeActions.
Import MultiMode.

#[global] Instance FlowMode_eq_dec : EqDecision FlowMode.
Proof. solve_decision. Defined.

(** [mode.value] *)
Definition FlowMode_value (m : FlowMode) : string :=
  match m with
  | MINIMAL => "minimal"
  | STANDARD => "standard"
  | COMPLETE => "complete"
  end.

(** [stage_state.deliverables_status.get(deliverable, False)] *)
Definition deliverable_done (s : StageState) (deliverable : string) : bool :=
  default false (deliverables_status s !! deliverable).

(** [_check_deliverables]: the stage state is built before the stage is
    looked up, so a stored status that names no member raises here. *)
Definition _check_deliverables (e : engine) (stage_id : string)
  : result bool :=
  bind (get_stage_state e stage_id) (fun stage_state =>
    match _get_stage_info_by_id e stage_id with
    | None => Ok true
    | Some stage_info =>
        Ok (forallb (deliverable_done stage_state) (deliverables stage_info))
    end).

Definition set_current_stage (v : option string) (e : engine) : engine :=
  set_state {| flow_mode := flow_mode (state e);
               current_stage := v;
               stage_states := stage_states (state e);
               metadata := metadata (state e) |} e.

(** The keyword [notes] of [complete_stage]: passed on only when the
    argument is a list with an element. *)
Definition completion_notes (e : engine) (stage_id : string)
    (new_notes : option (list string)) : result (option (list string)) :=
  match new_notes with
  | Some ((_ :: _) as l) =>
      bind (get_stage_state e stage_id) (fun s => Ok (Some (notes s ++ l)))
  | _ => Ok None
  end.

(** [complete_stage]: the engine afterwards and the value returned (or
    the exception that escapes).  The result of [_check_deliverables] only
    decides whether a warning is logged. *)
Definition complete_stage (now : Z) (stage_id : string)
    (new_notes : option (list string)) (e : engine) : engine * result bool :=
  match _get_stage_info_by_id e stage_id with
  | None => (e, Ok false)
  | Some stage_info =>
      match _check_deliverables e stage_id with
      | Raise x => (e, Raise x)
      | Ok _ =>
          match completion_notes e stage_id new_notes with
          | Raise x => (e, Raise x)
          | Ok update_notes =>
              let e := update_stage_state now stage_id
                         {| kw_status := Some COMPLETED;
                            kw_progress := Some 100;
                            kw_start_time := None;
                            kw_end_time := Some (Some now);
                            kw_assignee := None;
                            kw_notes := update_notes;
                            kw_deliverables_status := None |} e in
              match truthy (next_stage stage_info) with
              | Some nxt =>
                  (_save_state now (set_current_stage (Some nxt) e), Ok true)
              | None => (e, Ok true)
              end
          end
      end
  end.

(** The keyword arguments [progress=p] and
    [deliverables_status=marks]. *)
Definition progress_kwargs (p : Z) : kwargs :=
  {| kw_status := None; kw_progress := Some p; kw_start_time := None;
     kw_end_time := None; kw_assignee := None; kw_notes := None;
     kw_deliverables_status := None |}.

Definition deliverables_kwargs (marks : gmap string bool) : kwargs :=
  {| kw_status := None; kw_progress := None; kw_start_time := None;
     kw_end_time := None; kw_assignee := None; kw_notes := None;
     kw_deliverables_status := Some marks |}.

(** [_update_stage_progress] *)
Definition _update_stage_progress (now : Z) (stage_id : string) (e : engine)
  : engine * result unit :=
  let stage_info := _get_stage_info_by_id e stage_id in
  match get_stage_state e stage_id with
  | Raise x => (e, Raise x)
  | Ok stage_state =>
      match stage_info with
      | None => (e, Ok tt)
      | Some stage_info =>
          match deliverables stage_info with
          | [] => (e, Ok tt)
          | (_ :: _) as ds =>
              let total_deliverables := len ds in
              let completed_deliverables :=
                len (List.filter (deliverable_done stage_state) ds) in
              match percentage completed_deliverables total_deliverables with
              | Raise x => (e, Raise x)
              | Ok p =>
                  (update_stage_state now stage_id (progress_kwargs p) e,
                   Ok tt)
              end
          end
      end
  end.

(** [update_deliverable_status] *)
Definition update_deliverable_status (now : Z) (stage_id deliverable : string)
    (completed : bool) (e : engine) : engine * result unit :=
  let stage_state_data := stage_state_data e stage_id in
  let deliverables_status :=
    <[deliverable := completed]>
      (default ∅ (d_deliverables_status stage_state_data)) in
  let e := update_stage_state now stage_id
             (deliverables_kwargs deliverables_status) e in
  _update_stage_progress now stage_id e.

(** One entry of the list ['stages'] of the summary. *)
Record stage_row := {
  row_id : string;
  row_name : string;
  row_status : string;
  row_progress : Z;
  row_assignee : option string
}.

(** The dictionary that [get_flow_summary] returns. *)
Record flow_summary := {
  mode : string;
  summary_current_stage : option string;
  overall_progress : Z;
  completed_stages : Z;
  total_stages : Z;
  stages : list stage_row
}.

(** The loop of [get_flow_summary] with its three accumulators. *)
Fixpoint summary_loop (e : engine) (l : list StageInfo)
    (rows : list stage_row) (total completed : Z)
  : result (list stage_row * Z * Z) :=
  match l with
  | [] => Ok (rows, total, completed)
  | stage :: rest =>
      bind (get_stage_state e (id stage)) (fun s =>
        summary_loop e rest
          (rows ++ [ {| row_id := id stage;
                        row_name := display_name stage;
                        row_status := StageStatus_value (status s);
                        row_progress := progress s;
                        row_assignee := assignee s |} ])
          (total + progress s)
          (if bool_decide (status s = COMPLETED) then completed + 1
           else completed))
  end.

Definition get_flow_summary (e : engine) : result flow_summary :=
  let l := get_stages_for_mode e (current_mode e) in
  bind (summary_loop e l [] 0 0) (fun '(rows, total, completed) =>
    Ok {| mode := FlowMode_value (current_mode e);
          summary_current_stage := current_stage (state e);
          overall_progress :=
            match l with
            | [] => 0
            | _ :: _ => total / len l
            end;
          completed_stages := completed;
          total_stages := len l;
          stages := rows |}).

(** One entry of the list that [get_next_actions] returns. *)
Record action := {
  action_type : string;
  title : string;
  action_description : string;
  priority : string
}.

Definition start_action (stage : StageInfo) : action :=
  {| action_type := "start_stage";
     title := String.append "开始 " (display_name stage);
     action_description := description stage;
     priority := "high" |}.

Definition deliverable_action (stage : StageInfo) (deliverable : string)
  : action :=
  {| action_type := "complete_deliverable";
     title := String.append "完成交付物: " deliverable;
     action_description :=
       String.append "在 "
         (String.append (display_name stage) " 阶段完成此交付物");
     priority := "medium" |}.

Definition complete_action (stage : StageInfo) : action :=
  {| action_type := "complete_stage";
     title := String.append "完成 " (display_name stage);
     action_description := "所有交付物已完成，可以结束当前阶段";
     priority := "high" |}.

Definition start_next_action (next : StageInfo) : action :=
  {| action_type := "start_next_stage";
     title := String.append "开始 " (display_name next);
     action_description := description next;
     priority := "high" |}.

Definition get_next_actions (e : engine) : result (list action) :=
  match truthy (current_stage (state e)) with
  | None => Ok []
  | Some current_stage_id =>
      let current_stage := _get_stage_info_by_id e current_stage_id in
      bind (get_stage_state e current_stage_id) (fun current_state =>
        match current_stage with
        | None => Ok []
        | Some current_stage =>
            match status current_state with
            | PENDING => Ok [start_action current_stage]
            | IN_PROGRESS =>
                let actions :=
                  map (deliverable_action current_stage)
                      (List.filter
                         (fun d => negb (deliverable_done current_state d))
                         (deliverables current_stage)) in
                bind (_check_deliverables e current_stage_id) (fun ok =>
                  Ok (if ok then actions ++ [complete_action current_stage]
                      else actions))
            | COMPLETED =>
                match truthy (next_stage current_stage) with
                | Some nxt =>
                    match _get_stage_info_by_id e nxt with
                    | Some next => Ok [start_next_action next]
                    | None => Ok []
                    end
                | None => Ok []
                end
            | _ => Ok []
            end
        end)
  end.

(** The engine together with the part of [self.config] that
    [switch_flow_mode] uses: the value of the key ['flow'], [None] when
    the key is absent, and the same part of the configuration file last
    written. *)
Record configured := {
  eng : engine;
  config_flow : option (gmap string string);
  config_file_flow : option (gmap string string)
}.

(** [_create_default_state]: it reads [self.current_mode]. *)
Definition _create_default_state (now : Z) (e : engine) : state_dict :=
  let l := get_stages_for_mode e (current_mode e) in
  {| flow_mode := FlowMode_value (current_mode e);
     current_stage := match l with
                      | stage :: _ => Some (id stage)
                      | [] => None
                      end;
     stage_states := Some ∅;
     metadata := Some {| created_at := now; last_updated := now;
                         version := "2.0" |} |}.

Definition set_mode (m : FlowMode) (e : engine) : engine :=
  {| flow_modes := flow_modes e; current_mode := m;
     state := {| flow_mode := FlowMode_value m;
                 current_stage := current_stage (state e);
                 stage_states := stage_states (state e);
                 metadata := metadata (state e) |};
     state_file := state_file e |}.

Section Switch.

(** [_migrate_state] is a parameter: the engine after the migration and
    the value returned. *)
Variable _migrate_state : FlowMode -> FlowMode -> engine -> engine * bool.

(** [switch_flow_mode]: the engine and configuration afterwards and the
    value returned (or the exception that escapes). *)
Definition switch_flow_mode (now : Z) (new_mode : FlowMode)
    (preserve_progress : bool) (c : configured)
  : configured * result bool :=
  let e := eng c in
  if bool_decide (new_mode = current_mode e) then (c, Ok true)
  else
    let old_mode := current_mode e in
    let migrated :=
      if preserve_progress then _migrate_state old_mode new_mode e
      else (set_state (_create_default_state now e) e, true) in
    if negb (snd migrated) then
      ({| eng := fst migrated; config_flow := config_flow c;
          config_file_flow := config_file_flow c |}, Ok false)
    else
      let e := set_mode new_mode (fst migrated) in
      match config_flow c with
      | None =>
          ({| eng := e; config_flow := None;
              config_file_flow := config_file_flow c |},
           Raise (KeyError "flow"))
      | Some flow =>
          let flow := <["mode" := FlowMode_value new_mode]> flow in
          ({| eng := _save_state now e; config_flow := Some flow;
              config_file_flow := Some flow |}, Ok true)
      end.

End Switch.

(** The percentage of [c] out of [n] as the binary64 expression may give
    it: the integer floor or one below it (29 of 50 gives 57), and 100 for
    [c = n]. *)
Definition near_floor (c n r : Z) : bool :=
  if c =? n then r =? 100
  else (100 * c / n - 1 <=? r) && (r <=? 100 * c / n).

(** Checks [near_floor] for the [fuel] counts from [c] upwards. *)
Fixpoint percentage_near_floor_from (n c : Z) (fuel : nat) : bool :=
  match fuel with
  | O => true
  | S fuel' =>
      match percentage c n with
      | Ok r => near_floor c n r && percentage_near_floor_from n (c + 1) fuel'
      | Raise _ => false
      end
  end.

(** Checks it for [0 <= c <= n], for the [fuel] totals from [n] upwards. *)
Fixpoint percentage_near_floor_upto (n : Z) (fuel : nat) : bool :=
  match fuel with
  | O => true
  | S fuel' =>
      percentage_near_floor_from n 0 (Z.to_nat (n + 1))
      && percentage_near_floor_upto (n + 1) fuel'
  end.

(** The numbers of deliverables of one stage for which the binary64
    computation is checked. *)
Definition deliverable_bound : Z := 64.

End MultiModeActions.

(** ** A multi-mode engine with deliverables *)

Module Deliveries.
Import MultiMode MultiModeActions.

(** A multi-mode engine in mode standard: [design] has two deliverables,
    one of them done, and is under way; [build] depends on [design]. *)
Definition design : StageInfo :=
  {| id := "design"; name := "design"; display_name := "Design";
     description := "write the design"; duration_estimate := "2d";
     deliverables := ["spec.md"; "plan.md"];
     next_stage := Some "build"; dependencies := [] |}.

Definition build : StageInfo :=
  {| id := "build"; name := "build"; display_name := "Build";
     description := "build it"; duration_estimate := "5d";
     deliverables := ["code"];
     next_stage := None; dependencies := ["design"] |}.

Definition design_data : stage_dict :=
  {| d_status := Some "in_progress"; d_progress := Some 50;
     d_start_time := Some (Some 3); d_end_time := None;
     d_assignee := Some (Some "ann"); d_notes := Some ["kickoff"];
     d_deliverables_status := Some (<["spec.md" := true]> ∅) |}.

Definition delivery_engine : engine :=
  {| flow_modes := fun m =>
       match m with
       | STANDARD => [design; build]
       | MINIMAL => [build]
       | COMPLETE => []
       end;
     current_mode := STANDARD;
     state :=
       {| flow_mode := "standard";
          current_stage := Some "design";
          stage_states := Some (<["design" := design_data]> ∅);
          metadata :=
            Some {| created_at := 0; last_updated := 0;
                    version := "2.0" |} |};
     state_file := None |}.

(** The same engine with a state that lacks the key [metadata]. *)
Definition delivery_engine_bare : engine :=
  set_state {| flow_mode := "standard";
               current_stage := Some "design";
               stage_states := Some (<["design" := design_data]> ∅);
               metadata := None |} delivery_engine.

(** The engine with a configuration that has a section [flow], and with
    one that has none. *)
Definition delivery_configured : configured :=
  {| eng := delivery_engine;
     config_flow := Some (<["mode" := "standard"]> ∅);
     config_file_flow := Some (<["mode" := "standard"]> ∅) |}.

Definition delivery_unconfigured : configured :=
  {| eng := delivery_engine; config_flow := None;
     config_file_flow := None |}.

End Deliveries.

(** ** aceflow/scripts/cli/aceflow_cli_enhanced.py: the command revert-stage *)

Module EnhancedCli.
Import StateEngineEnhanced.

(** [revert_stage]: the document that the command writes.  The target is
    the command-line argument as given; it is not looked up in the stage
    definitions. *)
Definition revert_stage (now : string) (target_stage : string) (st : state)
  : state :=
  save_state now
    (set_stage_status target_stage "in_progress"
       (set_current_stage target_stage st)).

End EnhancedCli.

(** * Properties *)

(** Normalises lookups through chains of [insert] and [delete]. *)
Ltac map_lookup :=
  repeat first
    [ rewrite lookup_insert_eq
    | rewrite lookup_delete_eq
    | rewrite lookup_insert_ne by done
    | rewrite lookup_delete_ne by done ].

(** Proves an equation between maps built by [insert] and [delete]: by
    cases on the key that is looked up. *)
Ltac map_eq_cases :=
  let k := fresh "k" in
  apply map_eq; intros k;
  repeat (map_lookup;
          match goal with
          | |- context [<[?a:=_]> _ !! ?j] =>
              destruct (decide (j = a)); [try subst |]
          | |- context [delete ?a _ !! ?j] =>
              destruct (decide (j = a)); [try subst |]
          end);
  map_lookup; done.

(** ** Facts about the Python helpers *)

Section PyFacts.

Lemma index_None (l : list string) (x : string) :
  index l x = None <-> x ∉ l.
Proof.
  induction l as [|y l IH]; simpl.
  - split; [intros _; apply not_elem_of_nil | done].
  - case_bool_decide as Hy.
    + subst. split; [done | intros H; exfalso; apply H; left].
    + destruct (index l x) eqn:E; simpl.
      * split; [done |]. intros H. exfalso.
        assert (x ∉ l) as Hx by (intros Hin; apply H; by right).
        apply IH in Hx. done.
      * split; [| done]. intros _ Hin.
        apply elem_of_cons in Hin as [-> | Hin]; [done |].
        by apply IH in Hin.
Qed.

Lemma index_Some_lookup (l : list string) (x : string) (i : nat) :
  index l x = Some i -> l !! i = Some x /\ x ∉ take i l.
Proof.
  revert i. induction l as [|y l IH]; simpl; intros i H; [done |].
  case_bool_decide as Hy.
  - inversion H; subst. split; [done | apply not_elem_of_nil].
  - destruct (index l x) as [j|] eqn:E; simpl in H; [| done].
    inversion H; subst. destruct (IH j eq_refl) as [Hl Hn].
    split; [done |]. simpl. intros Hin.
    apply elem_of_cons in Hin as [-> | Hin]; done.
Qed.

Lemma index_is_Some (l : list string) (x : string) :
  x ∈ l -> exists i, index l x = Some i.
Proof.
  intros Hin. destruct (index l x) as [i|] eqn:E; [by exists i |].
  by apply index_None in E.
Qed.

(** A stage comes before position [k] exactly when it occurs among the
    first [k] entries. *)
Lemma index_lt_take (l : list string) (x : string) (i k : nat) :
  index l x = Some i -> (i < k)%nat <-> x ∈ take k l.
Proof.
  intros H. destruct (index_Some_lookup _ _ _ H) as [Hl Hn]. split.
  - intros Hlt. apply elem_of_take. by exists i.
  - intros Hin. destruct (decide (i < k)%nat) as [|Hge]; [done |].
    exfalso. apply Hn. apply elem_of_take in Hin as (j & Hj & Hjk).
    apply elem_of_take. exists j. split; [done | lia].
Qed.

Lemma percentage_is_floor_from_sound (n : Z) (fuel : nat) :
  forall c0 c, percentage_is_floor_from n c0 fuel = true ->
    c0 <= c < c0 + Z.of_nat fuel ->
    percentage c n = Ok (100 * c / n).
Proof.
  induction fuel as [|fuel IH]; intros c0 c Hchk Hc; [lia |].
  simpl in Hchk. destruct (percentage c0 n) as [r|] eqn:E; [| done].
  apply andb_true_iff in Hchk as [Hr Hrest].
  destruct (decide (c = c0)) as [-> | Hne].
  - rewrite E. f_equal. by apply Z.eqb_eq.
  - apply (IH (c0 + 1)); [done | lia].
Qed.

(** For the stage counts of the four modes the binary64 expression is the
    integer floor. *)
Lemma percentage_floor (c n : Z) :
  n = 4 \/ n = 6 \/ n = 8 ->
  0 <= c < count_bound ->
  percentage c n = Ok (100 * c / n).
Proof.
  intros Hn Hc.
  assert (Z.of_nat (Z.to_nat count_bound) = count_bound) as Hb
    by (apply Z2Nat.id; unfold count_bound; lia).
  destruct Hn as [-> | [-> | ->]];
    apply (percentage_is_floor_from_sound _ (Z.to_nat count_bound) 0);
    try lia; vm_compute; reflexivity.
Qed.

Lemma percentage_zero_total (c : Z) : percentage c 0 = Raise ZeroDivisionError.
Proof. reflexivity. Qed.

End PyFacts.

(** ** aceflow-stage.py: percentage, reset, completion *)

Module StageScriptProps.
Import StageScript.

Lemma get_stage_order_len (m : string) :
  len (get_stage_order m) = 0 \/ len (get_stage_order m) = 4 \/
  len (get_stage_order m) = 6 \/ len (get_stage_order m) = 8.
Proof.
  unfold get_stage_order. repeat case_bool_decide; cbn; auto.
Qed.

(** Whenever the script's expression yields a percentage at all, it is the
    integer floor. *)
Lemma percentage_Ok_floor (l : list string) (m : string) (pct : Z) :
  len l < count_bound ->
  percentage (len l) (len (get_stage_order m)) = Ok pct ->
  pct = 100 * len l / len (get_stage_order m).
Proof.
  intros Hl Hp.
  destruct (get_stage_order_len m) as [H0 | Hn].
  - rewrite H0, percentage_zero_total in Hp. done.
  - rewrite percentage_floor in Hp; [by inversion Hp | done | unfold len in *; lia].
Qed.

Lemma keep_before_length (order : list string) (ti : nat) :
  forall completed kept,
    keep_before order ti completed = Ok kept ->
    (length kept <= length completed)%nat.
Proof.
  induction completed as [|s rest IH]; simpl; intros kept H.
  - inversion H. done.
  - destruct (index order s); [| done].
    destruct (keep_before order ti rest) as [kept'|]; simpl in H; [| done].
    specialize (IH kept' eq_refl). inversion H.
    case_bool_decide; simpl; lia.
Qed.

(** The comprehension keeps exactly the completed stages that occur among
    the first [ti] stages of the order. *)
Lemma keep_before_filter (order : list string) (ti : nat) :
  forall completed,
    (forall s, s ∈ completed -> s ∈ order) ->
    keep_before order ti completed
    = Ok (filter (fun s => s ∈ take ti order) completed).
Proof.
  induction completed as [|s rest IH]; simpl; intros Hin; [done |].
  destruct (index_is_Some order s) as [i Hi]; [apply Hin; left |].
  rewrite Hi, IH by (intros; apply Hin; by right). simpl.
  rewrite filter_cons. f_equal.
  pose proof (index_lt_take order s i ti Hi) as Hlt.
  case_bool_decide; case_decide; tauto.
Qed.

Lemma reset_entry_idemp (info : gmap string jval) :
  reset_entry (reset_entry info) = reset_entry info.
Proof.
  unfold reset_entry. apply map_eq. intros k.
  destruct (decide (k = "last_updated")) as [-> | H1]; [by map_lookup |].
  destruct (decide (k = "progress")) as [-> | H2]; [by map_lookup |].
  destruct (decide (k = "status")) as [-> | H3]; by map_lookup.
Qed.

Lemma reset_one_lookup (pr : progress_doc) (a s : string) :
  stages (reset_one pr a) !! s
  = if bool_decide (s = a) then reset_entry <$> stages pr !! s
    else stages pr !! s.
Proof.
  unfold reset_one. case_bool_decide as Hs.
  - subst. destruct (stages pr !! a) eqn:E; simpl.
    + by rewrite lookup_insert_eq.
    + by rewrite E.
  - destruct (stages pr !! a) eqn:E; simpl; [| done].
    by rewrite lookup_insert_ne.
Qed.

Lemma foldl_reset_lookup (l : list string) :
  forall (pr : progress_doc) (s : string),
    stages (foldl reset_one pr l) !! s
    = if bool_decide (s ∈ l) then reset_entry <$> stages pr !! s
      else stages pr !! s.
Proof.
  induction l as [|a l IH]; intros pr s; simpl; [done |].
  rewrite IH, reset_one_lookup.
  destruct (decide (s = a)) as [-> | Hne].
  - rewrite (bool_decide_eq_true_2 (a ∈ a :: l)) by left.
    rewrite (bool_decide_eq_true_2 (a = a)) by done.
    case_bool_decide; [| done].
    rewrite <- option_fmap_compose. apply option_fmap_ext.
    intros i. apply reset_entry_idemp.
  - rewrite (bool_decide_eq_false_2 (s = a)) by done.
    case_bool_decide as Hin.
    + rewrite bool_decide_eq_true_2; [done | by right].
    + rewrite bool_decide_eq_false_2; [done |].
      intros H. apply elem_of_cons in H as [? | ?]; done.
Qed.

(** Completing a stage a second time, right after the first: the state
    document is written again with nothing but a new time stamp. *)
Lemma complete_twice (t1 t2 t1' t2' : string) (force confirm : bool)
    (stage : string) (st st1 : state) (pr pr1 : progress_doc) :
  complete_stage t1 t2 force confirm stage st pr = Saved st1 pr1 ->
  complete_stage t1' t2' force confirm stage st1 pr1
  = Saved (save_current_state t2' st1)
          {| stages := alter (insert "last_updated" (JStr t1')) stage
                             (stages pr1) |}.
Proof.
  unfold complete_stage.
  destruct (stages pr !! stage) as [info|] eqn:Hs; [| done].
  destruct (negb force && negb confirm) eqn:Hc; [done |].
  destruct (percentage _ _) as [pct|] eqn:Hp; [| done].
  intros H; inversion H; subst; clear H. simpl.
  rewrite lookup_insert_eq.
  assert (mem stage
            (if negb (mem stage (completed_stages (st_flow st)))
             then completed_stages (st_flow st) ++ [stage]
             else completed_stages (st_flow st)) = true) as Hm.
  { destruct (mem stage (completed_stages (st_flow st))) eqn:E; simpl;
      [done |].
    unfold mem. apply bool_decide_eq_true_2, elem_of_app. right. left. }
  rewrite Hm. simpl. rewrite Hp. unfold save_current_state. simpl.
  f_equal. f_equal. apply map_eq. intros k.
  destruct (decide (k = stage)) as [-> | Hne].
  - rewrite lookup_alter_eq. map_lookup. simpl. f_equal.
    apply map_eq. intros j.
    destruct (decide (j = "last_updated")) as [-> | ?]; [by map_lookup |].
    destruct (decide (j = "progress")) as [-> | ?]; [by map_lookup |].
    destruct (decide (j = "status")) as [-> | ?]; by map_lookup.
  - rewrite lookup_alter_ne by done. by map_lookup.
Qed.

(** C1: whenever [next_stage], [complete_stage] or [reset_stage] writes the
    state document, the written [progress_percentage] is
    floor (100 * |completed_stages| / |stage order of the mode|), computed
    from the written list and the mode's stage count.  (The script computes
    it in binary64; the equality with the integer floor is checked for
    every count below [count_bound].) *)
Theorem progress_percentage_recomputed
    (t_stage t_save : string) (force confirm : bool) (stage : string)
    (st st' : state) (pr pr' : progress_doc) :
  len (completed_stages (st_flow st)) + 1 < count_bound ->
  next_stage t_stage t_save force confirm st pr = Saved st' pr' \/
  complete_stage t_stage t_save force confirm stage st pr = Saved st' pr' \/
  reset_stage t_save force confirm stage st pr = Saved st' pr' ->
  progress_percentage (st_flow st')
  = 100 * len (completed_stages (st_flow st'))
    / len (get_stage_order (mode (st_project st'))).
Proof.
  intros Hlen [H | [H | H]].
  - unfold next_stage in H.
    destruct (truthy _) as [nxt|]; [| done].
    destruct (next_stage_confirmed _ _ _ _) as [[|]|]; try done.
    destruct (percentage _ _) as [pct|] eqn:Hp; [| done].
    inversion H; subst; clear H. simpl.
    apply percentage_Ok_floor in Hp; [done |].
    unfold len in *. destruct (_ && _); [rewrite length_app; simpl |]; lia.
  - unfold complete_stage in H.
    destruct (stages pr !! stage); [| done].
    destruct (negb force && negb confirm); [done |].
    destruct (percentage _ _) as [pct|] eqn:Hp; [| done].
    inversion H; subst; clear H. simpl.
    apply percentage_Ok_floor in Hp; [done |].
    unfold len in *. destruct (negb _); [rewrite length_app; simpl |]; lia.
  - unfold reset_stage in H.
    destruct (index _ stage) as [ti|]; [| done].
    destruct (negb force && negb confirm); [done |].
    destruct (keep_before _ _ _) as [kept|] eqn:Hk; [| done].
    destruct (percentage _ _) as [pct|] eqn:Hp; [| done].
    inversion H; subst; clear H. simpl.
    apply percentage_Ok_floor in Hp; [done |].
    apply keep_before_length in Hk. unfold len in *. lia.
Qed.

Lemma progress_percentage_recomputed_witness :
  exists st' pr',
    complete_stage "t1" "t2" true false "implementation"
      Samples.minimal_state Samples.minimal_progress = Saved st' pr' /\
    progress_percentage (st_flow st') = 75.
Proof.
  eexists _, _. split; [vm_compute; reflexivity |].
  etransitivity.
  - eapply (progress_percentage_recomputed "t1" "t2" true false
              "implementation" Samples.minimal_state _
              Samples.minimal_progress);
      [vm_compute; reflexivity | right; left; vm_compute; reflexivity].
  - vm_compute; reflexivity.
Defined.

(** C5 (as amended): for a target at position [ti] of the mode's stage
    order, a confirmed [reset_stage] on a state whose completed stages all
    belong to the order writes: the target as current stage; as completed
    list the completed stages ordered strictly before the target; the
    recomputed percentage; every stage ordered strictly after the target, if
    it has an entry, with status [pending], progress 0 and no
    [last_updated]; and the entries of all other stages, the target
    included, untouched. *)
Theorem reset_stage_effect
    (t_save : string) (force confirm : bool) (target : string)
    (st : state) (pr : progress_doc) (ti : nat) :
  index (get_stage_order (mode (st_project st))) target = Some ti ->
  force || confirm = true ->
  (forall s, s ∈ completed_stages (st_flow st) ->
             s ∈ get_stage_order (mode (st_project st))) ->
  len (completed_stages (st_flow st)) < count_bound ->
  exists st' pr',
    reset_stage t_save force confirm target st pr = Saved st' pr' /\
    current_stage (st_flow st') = target /\
    completed_stages (st_flow st')
    = filter (fun s => s ∈ take ti (get_stage_order (mode (st_project st))))
             (completed_stages (st_flow st)) /\
    progress_percentage (st_flow st')
    = 100 * len (completed_stages (st_flow st'))
      / len (get_stage_order (mode (st_project st))) /\
    (forall s, s ∉ drop (S ti) (get_stage_order (mode (st_project st))) ->
               stages pr' !! s = stages pr !! s) /\
    (forall s info,
        s ∈ drop (S ti) (get_stage_order (mode (st_project st))) ->
        stages pr !! s = Some info ->
        exists info',
          stages pr' !! s = Some info' /\
          info' !! "status" = Some (JStr "pending") /\
          info' !! "progress" = Some (JInt 0) /\
          info' !! "last_updated" = None /\
          (forall k, k ≠ "status" -> k ≠ "progress" -> k ≠ "last_updated" ->
                     info' !! k = info !! k)) /\
    (forall s, stages pr !! s = None -> stages pr' !! s = None).
Proof.
  intros Hti Hconf Hin Hlen.
  set (order := get_stage_order (mode (st_project st))) in *.
  pose proof (keep_before_filter order ti _ Hin) as Hk.
  set (kept := filter _ _) in *.
  assert (length kept <= length (completed_stages (st_flow st)))%nat as Hkl
    by apply length_filter.
  assert (percentage (len kept) (len order) = Ok (100 * len kept / len order))
    as Hp.
  { destruct (get_stage_order_len (mode (st_project st))) as [H0 | Hn].
    - exfalso. apply index_Some_lookup in Hti as [Hl _].
      apply lookup_lt_Some in Hl. fold order in H0. unfold len in H0. lia.
    - apply percentage_floor; [done | unfold len in *; lia]. }
  assert (negb force && negb confirm = false) as Hnc
    by (destruct force, confirm; done).
  eexists _, _. split.
  { unfold reset_stage. fold order. rewrite Hti, Hnc, Hk, Hp. reflexivity. }
  simpl. repeat split; try done.
  - intros s Hs. rewrite foldl_reset_lookup.
    by rewrite bool_decide_eq_false_2.
  - intros s info Hs Hinfo. exists (reset_entry info).
    rewrite foldl_reset_lookup, bool_decide_eq_true_2, Hinfo by done.
    unfold reset_entry. repeat split; try by map_lookup.
    intros k H1 H2 H3. by map_lookup.
  - intros s Hs. rewrite foldl_reset_lookup, Hs. by case_bool_decide.
Qed.

Lemma reset_stage_effect_witness :
  exists st' pr',
    reset_stage "t1" true false "planning"
      Samples.minimal_state Samples.minimal_progress = Saved st' pr' /\
    current_stage (st_flow st') = "planning" /\
    completed_stages (st_flow st') = ["analysis"] /\
    progress_percentage (st_flow st') = 25.
Proof.
  destruct (reset_stage_effect "t1" true false "planning"
              Samples.minimal_state Samples.minimal_progress 1%nat)
    as (st' & pr' & Hr & Hc & Hl & Hp & _).
  - vm_compute; reflexivity.
  - reflexivity.
  - intros s Hs. vm_compute in Hs. vm_compute.
    apply elem_of_cons in Hs as [-> | Hs]; [left |].
    apply elem_of_cons in Hs as [-> | Hs]; [right; left |].
    by apply elem_of_nil in Hs.
  - vm_compute; reflexivity.
  - exists st', pr'. split; [done |]. split; [done |].
    rewrite Hp, Hl. split; vm_compute; reflexivity.
Defined.

(** C5, counterexample: resetting to [planning] leaves the entry of
    [planning] itself as it was (status [completed], progress 100), where
    the claim has it set to pending with progress 0. *)
Lemma reset_stage_keeps_target :
  exists st' pr',
    reset_stage "t1" true false "planning"
      Samples.minimal_state Samples.minimal_progress = Saved st' pr' /\
    stages pr' !! "planning" = Some (Samples.entry "completed" 100 (Some "t0")) /\
    Samples.entry "completed" 100 (Some "t0") !! "status"
    <> Some (JStr "pending") /\
    Samples.entry "completed" 100 (Some "t0") !! "progress" <> Some (JInt 0).
Proof.
  eexists _, _. split; [vm_compute; reflexivity |].
  split; [vm_compute; reflexivity |]. split; vm_compute; discriminate.
Qed.

End StageScriptProps.

(** ** state_engine.py and state_engine_enhanced.py *)

Module StateEngineProps.
Import StateEngine.

#[local] Arguments definition_of : simpl never.

(** Appending ids that are already recorded changes nothing. *)
Lemma add_recorded_ids (new_ids recorded : list string) :
  (forall x, x ∈ new_ids -> x ∈ recorded) ->
  add_memory_ids (Some new_ids) recorded = recorded.
Proof.
  unfold add_memory_ids. revert recorded.
  induction new_ids as [|x l IH]; intros recorded Hin; simpl; [done |].
  unfold mem. rewrite bool_decide_eq_true_2 by (apply Hin; left).
  apply IH. intros y Hy. apply Hin. by right.
Qed.

Lemma add_memory_ids_incl (new_ids : option (list string)) :
  forall recorded x, x ∈ recorded -> x ∈ add_memory_ids new_ids recorded.
Proof.
  destruct new_ids as [l|]; [| done]. unfold add_memory_ids.
  induction l as [|y l IH]; intros recorded x Hx; simpl; [done |].
  apply IH. destruct (mem y recorded); [done |]. apply elem_of_app. by left.
Qed.

Lemma add_memory_ids_all (new_ids : list string) :
  forall recorded x,
    x ∈ new_ids -> x ∈ add_memory_ids (Some new_ids) recorded.
Proof.
  induction new_ids as [|y l IH]; intros recorded x Hx;
    [by apply elem_of_nil in Hx |].
  apply elem_of_cons in Hx as [-> | Hx].
  - apply (add_memory_ids_incl (Some l)). unfold mem.
    case_bool_decide; [done |]. apply elem_of_app. right. left.
  - by apply IH.
Qed.

Lemma add_memory_ids_idemp (new_ids : option (list string))
    (recorded : list string) :
  add_memory_ids new_ids (add_memory_ids new_ids recorded)
  = add_memory_ids new_ids recorded.
Proof.
  destruct new_ids as [l|]; [| done].
  apply add_recorded_ids. intros x Hx. by apply add_memory_ids_all.
Qed.

(** Two updates in a row with the same progress value: the second writes
    what a single update at the later time writes. *)
Lemma state_eq (a b : state) :
  current_stage a = current_stage b ->
  stage_status a = stage_status b ->
  progress a = progress b ->
  memory_ids a = memory_ids b ->
  last_updated a = last_updated b ->
  abnormalities a = abnormalities b ->
  a = b.
Proof. destruct a, b; simpl; congruence. Qed.

Lemma update_twice (now1 now2 stage_id : string) (p : Z)
    (ids : option (list string)) (st st1 : state) :
  update_stage_progress now1 stage_id p ids st = Ok st1 ->
  update_stage_progress now2 stage_id p ids st1
  = update_stage_progress now2 stage_id p ids st.
Proof.
  unfold update_stage_progress, update_status.
  destruct (progress st !! stage_id) as [p0|] eqn:Hp; [| done].
  destruct (100 <=? p) eqn:Hge; simpl.
  - destruct (definition_of stage_definitions stage_id) as [d|]; [| done].
    destruct (truthy (next_stage d)) as [nxt|]; simpl;
      intros H; inversion H; subst; clear H; simpl;
      rewrite lookup_insert_eq; simpl;
      f_equal; apply state_eq; simpl; try done;
      try apply add_memory_ids_idemp;
      map_eq_cases.
  - intros H; inversion H; subst; clear H; simpl.
    rewrite lookup_insert_eq; simpl.
    f_equal; apply state_eq; simpl; try done;
      try apply add_memory_ids_idemp;
      map_eq_cases.
Qed.

(** The same update at another time differs in the time stamp only. *)
Lemma update_restamp (now1 now2 stage_id : string) (p : Z)
    (ids : option (list string)) (st st1 : state) :
  update_stage_progress now1 stage_id p ids st = Ok st1 ->
  update_stage_progress now2 stage_id p ids st = Ok (save_state now2 st1).
Proof.
  unfold update_stage_progress.
  destruct (progress st !! stage_id); [| done].
  destruct (update_status stage_id p _) as [st2|]; simpl; [| done].
  intros H; inversion H; subst; clear H. done.
Qed.

(** An update below 100 on any stage that has a progress entry. *)
Lemma update_below_100 (now stage_id : string) (p : Z)
    (ids : option (list string)) (st : state) :
  is_Some (progress st !! stage_id) -> p < 100 ->
  exists st',
    update_stage_progress now stage_id p ids st = Ok st' /\
    current_stage st' = stage_id /\
    stage_status st' = <[stage_id := "in_progress"]> (stage_status st) /\
    progress st' = <[stage_id := p]> (progress st).
Proof.
  intros [p0 Hp] Hlt. unfold update_stage_progress, update_status.
  rewrite Hp. assert ((100 <=? p) = false) as -> by lia. simpl.
  eexists. split; [reflexivity |]. done.
Qed.

Lemma definition_of_next (stage_id : string) (d : stage_definition) :
  definition_of stage_definitions stage_id = Some d ->
  next_stage d <> Some stage_id.
Proof.
  cbv [definition_of stage_definitions].
  repeat (case_bool_decide;
          [intros Hd; inversion Hd; subst; simpl; congruence |]).
  done.
Qed.

Lemma truthy_Some (o : option string) (s : string) :
  truthy o = Some s -> o = Some s.
Proof. destruct o as [[|a s']|]; simpl; intros H; by inversion H. Qed.

(** An update to 100 or more on a defined stage that has a progress
    entry. *)
Lemma update_from_100 (now stage_id : string) (p : Z)
    (ids : option (list string)) (st : state) (d : stage_definition) :
  is_Some (progress st !! stage_id) ->
  definition_of stage_definitions stage_id = Some d ->
  100 <= p ->
  exists st',
    update_stage_progress now stage_id p ids st = Ok st' /\
    current_stage st' = default stage_id (truthy (next_stage d)) /\
    stage_status st' !! stage_id = Some "completed" /\
    progress st' = <[stage_id := p]> (progress st).
Proof.
  intros [p0 Hp] Hd Hge. unfold update_stage_progress, update_status.
  rewrite Hp, Hd. assert ((100 <=? p) = true) as -> by lia.
  pose proof (definition_of_next _ _ Hd) as Hn.
  destruct (truthy (next_stage d)) as [nxt|] eqn:Ht; simpl.
  - eexists. split; [reflexivity |]. simpl. repeat split.
    apply truthy_Some in Ht.
    rewrite lookup_insert_ne by congruence. by rewrite lookup_insert_eq.
  - eexists. split; [reflexivity |]. simpl. repeat split.
    by rewrite lookup_insert_eq.
Qed.

(** The suggestions when the current stage has unresolved abnormalities. *)
Lemma suggestions_abnormal (st : state) :
  unresolved_for (current_stage st) (abnormalities st) <> [] ->
  get_navigation_suggestion st
  = Ok (map abnormality_suggestion
          (unresolved_for (current_stage st) (abnormalities st))).
Proof.
  unfold get_navigation_suggestion.
  destruct (unresolved_for _ _); [done |]. done.
Qed.

(** No abnormality, progress complete, no successor: nothing to suggest. *)
Lemma suggestions_finished (st : state) (d : stage_definition) :
  unresolved_for (current_stage st) (abnormalities st) = [] ->
  100 <= default 0 (progress st !! current_stage st) ->
  definition_of stage_definitions (current_stage st) = Some d ->
  truthy (next_stage d) = None ->
  get_navigation_suggestion st = Ok [].
Proof.
  intros Ha Hp Hd Hn. unfold get_navigation_suggestion.
  rewrite Ha, Hd, Hn.
  by assert ((default 0 (progress st !! current_stage st) <? 100) = false)
    as -> by lia.
Qed.

Lemma abnormality_suggestions_type (l : list abnormality) :
  Forall (fun s => type s = "abnormality") (map abnormality_suggestion l).
Proof. induction l; constructor; done. Qed.

End StateEngineProps.

Module StateEngineEnhancedProps.
Import StateEngineEnhanced.

#[local] Arguments definition_of : simpl never.

Lemma add_memory_ids_idemp_enhanced (new_ids : option (list string))
    (recorded : list string) :
  add_memory_ids new_ids (add_memory_ids new_ids recorded)
  = add_memory_ids new_ids recorded.
Proof. apply StateEngineProps.add_memory_ids_idemp. Qed.

Lemma state_eq_enhanced (a b : state) :
  current_stage a = current_stage b ->
  stage_status a = stage_status b ->
  progress a = progress b ->
  memory_ids a = memory_ids b ->
  last_updated a = last_updated b ->
  abnormalities a = abnormalities b ->
  associated_outputs a = associated_outputs b ->
  review_status a = review_status b ->
  iterations a = iterations b ->
  a = b.
Proof. destruct a, b; simpl; congruence. Qed.

Lemma update_twice_enhanced (fs : filesystem) (now1 now2 stage_id : string)
    (p : Z)
    (ids : option (list string)) (st st1 : state) :
  update_stage_progress fs now1 stage_id p ids st = Ok st1 ->
  update_stage_progress fs now2 stage_id p ids st1
  = update_stage_progress fs now2 stage_id p ids st.
Proof.
  unfold update_stage_progress, update_status.
  destruct (progress st !! stage_id) as [p0|] eqn:Hp; [| done].
  destruct (output_gate fs stage_id p) as [[]|]; [| done]. simpl.
  destruct (100 <=? p) eqn:Hge; simpl.
  - destruct (definition_of stage_definitions stage_id) as [d|]; [| done].
    destruct (truthy (next_stage d)) as [nxt|]; simpl;
      intros H; inversion H; subst; clear H; simpl;
      rewrite lookup_insert_eq; simpl;
      f_equal; apply state_eq_enhanced; simpl; try done;
      try apply add_memory_ids_idemp_enhanced;
      map_eq_cases.
  - intros H; inversion H; subst; clear H; simpl.
    rewrite lookup_insert_eq; simpl.
    f_equal; apply state_eq_enhanced; simpl; try done;
      try apply add_memory_ids_idemp_enhanced;
      map_eq_cases.
Qed.

(** Below 100 the output gate is not asked, whatever the file system. *)
Lemma update_below_100_enhanced (fs : filesystem) (now stage_id : string)
    (p : Z)
    (ids : option (list string)) (st : state) :
  is_Some (progress st !! stage_id) -> p < 100 ->
  exists st',
    update_stage_progress fs now stage_id p ids st = Ok st' /\
    current_stage st' = stage_id /\
    stage_status st' = <[stage_id := "in_progress"]> (stage_status st) /\
    progress st' = <[stage_id := p]> (progress st).
Proof.
  intros [p0 Hp] Hlt.
  unfold update_stage_progress, update_status, output_gate.
  rewrite Hp. assert ((100 <=? p) = false) as -> by lia. simpl.
  eexists. split; [reflexivity |]. done.
Qed.

Lemma definition_of_next_enhanced (stage_id : string) (d : stage_definition) :
  definition_of stage_definitions stage_id = Some d ->
  next_stage d <> Some stage_id.
Proof.
  cbv [definition_of stage_definitions].
  repeat (case_bool_decide;
          [intros Hd; inversion Hd; subst; simpl; congruence |]).
  done.
Qed.

(** At 100 or more the update goes through when the output gate passes. *)
Lemma update_from_100_enhanced (fs : filesystem) (now stage_id : string)
    (p : Z)
    (ids : option (list string)) (st : state) (d : stage_definition) :
  is_Some (progress st !! stage_id) ->
  definition_of stage_definitions stage_id = Some d ->
  validate_stage_output fs stage_id = Ok true ->
  100 <= p ->
  exists st',
    update_stage_progress fs now stage_id p ids st = Ok st' /\
    current_stage st' = default stage_id (truthy (next_stage d)) /\
    stage_status st' !! stage_id = Some "completed" /\
    progress st' = <[stage_id := p]> (progress st).
Proof.
  intros [p0 Hp] Hd Hv Hge.
  unfold update_stage_progress, update_status, output_gate.
  rewrite Hp, Hv, Hd. assert ((100 <=? p) = true) as -> by lia.
  pose proof (definition_of_next_enhanced _ _ Hd) as Hn.
  destruct (truthy (next_stage d)) as [nxt|] eqn:Ht; simpl.
  - eexists. split; [reflexivity |]. simpl. repeat split.
    apply StateEngineProps.truthy_Some in Ht.
    rewrite lookup_insert_ne by congruence. by rewrite lookup_insert_eq.
  - eexists. split; [reflexivity |]. simpl. repeat split.
    by rewrite lookup_insert_eq.
Qed.

Lemma suggestions_abnormal_enhanced (st : state) :
  unresolved_for (current_stage st) (abnormalities st) <> [] ->
  get_navigation_suggestion st
  = Ok (map abnormality_suggestion
          (unresolved_for (current_stage st) (abnormalities st))).
Proof.
  unfold get_navigation_suggestion.
  destruct (unresolved_for _ _); [done |]. done.
Qed.

Lemma suggestions_finished_enhanced (st : state) (d : stage_definition) :
  unresolved_for (current_stage st) (abnormalities st) = [] ->
  100 <= default 0 (progress st !! current_stage st) ->
  definition_of stage_definitions (current_stage st) = Some d ->
  truthy (next_stage d) = None ->
  get_navigation_suggestion st = Ok [].
Proof.
  intros Ha Hp Hd Hn. unfold get_navigation_suggestion.
  rewrite Ha, Hd, Hn.
  by assert ((default 0 (progress st !! current_stage st) <? 100) = false)
    as -> by lia.
Qed.

Lemma abnormality_suggestions_type_enhanced (l : list abnormality) :
  Forall (fun s => type s = "abnormality") (map abnormality_suggestion l).
Proof. induction l; constructor; done. Qed.

(** *** revert_to_stage *)

Lemma stage_ids_NoDup : NoDup stage_ids.
Proof. apply (bool_decide_unpack (NoDup stage_ids)). vm_compute. exact I. Qed.

Lemma definition_of_stage_ids (stage_id : string) :
  is_Some (definition_of stage_definitions stage_id) <-> stage_id ∈ stage_ids.
Proof.
  cbv [definition_of stage_definitions stage_ids map fst]. split.
  - repeat (case_bool_decide; [subst; intros _;
              repeat first [by left | right] |]).
    by intros [? ?].
  - intros H. repeat (case_bool_decide; [by eexists |]).
    repeat (apply elem_of_cons in H as [-> | H]; [done |]).
    by apply elem_of_nil in H.
Qed.

Lemma revert_one_fields (st : state) (a : string) :
  current_stage (revert_one st a) = current_stage st /\
  stage_status (revert_one st a) = <[a := "not_started"]> (stage_status st) /\
  progress (revert_one st a) = <[a := 0]> (progress st).
Proof. done. Qed.

Lemma foldl_revert_lookup (l : list string) :
  forall (st : state) (s : string),
    current_stage (foldl revert_one st l) = current_stage st /\
    stage_status (foldl revert_one st l) !! s
    = (if bool_decide (s ∈ l) then Some "not_started"
       else stage_status st !! s) /\
    progress (foldl revert_one st l) !! s
    = (if bool_decide (s ∈ l) then Some 0 else progress st !! s).
Proof.
  induction l as [|a l IH]; intros st s; simpl; [done |].
  destruct (IH (revert_one st a) s) as (Hc & Hs & Hp).
  rewrite Hc, Hs, Hp. split; [done |].
  destruct (decide (s = a)) as [-> | Hne].
  - rewrite (bool_decide_eq_true_2 (a ∈ a :: l)) by left. simpl.
    map_lookup. by case_bool_decide.
  - simpl. map_lookup. case_bool_decide as Hin.
    + rewrite bool_decide_eq_true_2; [done | by right].
    + rewrite bool_decide_eq_false_2; [done |].
      intros H. apply elem_of_cons in H as [? | ?]; done.
Qed.

Lemma NoDup_not_in_drop {A} (l : list A) (i : nat) (x : A) :
  NoDup l -> l !! i = Some x -> x ∉ drop (S i) l.
Proof.
  intros Hnd Hi Hin. apply list_elem_of_lookup in Hin as [j Hj].
  rewrite lookup_drop in Hj.
  pose proof (NoDup_lookup l i (S i + j) x Hnd Hi Hj). lia.
Qed.

(** What the engine method does: for a target at position [i] of the stage
    list, [revert_to_stage] makes the target the current stage with status
    [in_progress], keeps the target's progress and the status and progress
    of every earlier stage, and resets every stage ordered after the target
    to status [not_started] with progress 0. *)
Theorem revert_to_stage_effect (now target : string) (st : state) (i : nat) :
  index stage_ids target = Some i ->
  exists st',
    revert_to_stage now target st = Ok st' /\
    current_stage st' = target /\
    stage_status st' !! target = Some "in_progress" /\
    progress st' !! target = progress st !! target /\
    (forall s, s ∈ drop (S i) stage_ids ->
               stage_status st' !! s = Some "not_started" /\
               progress st' !! s = Some 0) /\
    (forall s, s ∉ drop i stage_ids ->
               stage_status st' !! s = stage_status st !! s /\
               progress st' !! s = progress st !! s).
Proof.
  intros Hi. destruct (index_Some_lookup _ _ _ Hi) as [Hl _].
  assert (target ∈ stage_ids) as Hin by (apply list_elem_of_lookup; eauto).
  apply definition_of_stage_ids in Hin as [d Hd].
  pose proof (NoDup_not_in_drop _ _ _ stage_ids_NoDup Hl) as Hnot.
  unfold revert_to_stage. rewrite Hd, Hi.
  replace (i + 1)%nat with (S i) by lia.
  eexists. split; [reflexivity |].
  set (st0 := set_stage_status target "in_progress"
                (set_current_stage target st)).
  set (l := drop (S i) stage_ids) in *.
  assert (forall s, s ∉ drop i stage_ids -> s <> target /\ s ∉ l) as Hbefore.
  { intros s Hs. split.
    - intros ->. apply Hs. apply list_elem_of_lookup. exists 0%nat.
      rewrite lookup_drop. by replace (i + 0)%nat with i by lia.
    - intros Hsl. apply Hs. rewrite <- (take_drop 1 (drop i stage_ids)).
      apply elem_of_app. right. rewrite drop_drop.
      by replace (i + 1)%nat with (S i) by lia. }
  unfold save_state; cbn [current_stage stage_status progress].
  repeat split.
  - by destruct (foldl_revert_lookup l st0 target) as (-> & _).
  - destruct (foldl_revert_lookup l st0 target) as (_ & -> & _).
    rewrite bool_decide_eq_false_2 by done.
    unfold st0, set_stage_status; cbn [stage_status]. by map_lookup.
  - destruct (foldl_revert_lookup l st0 target) as (_ & _ & ->).
    by rewrite bool_decide_eq_false_2 by done.
  - destruct (foldl_revert_lookup l st0 s) as (_ & -> & _).
    by rewrite bool_decide_eq_true_2 by done.
  - destruct (foldl_revert_lookup l st0 s) as (_ & _ & ->).
    by rewrite bool_decide_eq_true_2 by done.
  - destruct (foldl_revert_lookup l st0 s) as (_ & -> & _).
    destruct (Hbefore s) as [Hne Hnl]; [done |].
    rewrite bool_decide_eq_false_2 by done.
    unfold st0, set_stage_status; cbn [stage_status]. by map_lookup.
  - destruct (foldl_revert_lookup l st0 s) as (_ & _ & ->).
    destruct (Hbefore s) as [Hne Hnl]; [done |].
    by rewrite bool_decide_eq_false_2 by done.
Qed.

Lemma revert_to_stage_effect_witness :
  exists st',
    revert_to_stage "t1" "S1" Samples.enhanced_state = Ok st' /\
    current_stage st' = "S1" /\
    stage_status st' !! "S1" = Some "in_progress" /\
    progress st' !! "S1" = Some 100.
Proof.
  destruct (revert_to_stage_effect "t1" "S1" Samples.enhanced_state 0%nat
              eq_refl) as (st' & Hr & Hc & Hs & Hp & _).
  exists st'. split; [exact Hr |]. split; [exact Hc |]. split; [exact Hs |].
  rewrite Hp. reflexivity.
Defined.

(** What the command does: [revert_stage] makes the target the current
    stage with status [in_progress] and leaves the status of every other
    stage and all progress values, memory ids, abnormalities, outputs and
    reviews as they were. *)
Lemma revert_stage_keeps_other_stages (now target : string) (st : state) :
  let st' := EnhancedCli.revert_stage now target st in
  current_stage st' = target /\
  stage_status st' !! target = Some "in_progress" /\
  (forall s, s <> target -> stage_status st' !! s = stage_status st !! s) /\
  progress st' = progress st /\
  memory_ids st' = memory_ids st /\
  abnormalities st' = abnormalities st /\
  associated_outputs st' = associated_outputs st /\
  review_status st' = review_status st /\
  iterations st' = iterations st.
Proof.
  simpl. split; [done |]. split; [by rewrite lookup_insert_eq |].
  split; [| done]. intros s Hs. by rewrite lookup_insert_ne.
Qed.


End StateEngineEnhancedProps.

(** ** multi_mode_state_engine.py *)

Module MultiModeProps.
Import MultiMode.

(** *** start_stage and the dependency check *)

Lemma StageStatus_of_value_completed (v : string) (s : StageStatus) :
  StageStatus_of_value v = Ok s -> (s = COMPLETED <-> v = "completed").
Proof.
  unfold StageStatus_of_value.
  repeat case_bool_decide; subst; intros Hok; inversion Hok; subst; done.
Qed.

Lemma get_stage_state_completed (e : engine) (dep : string) (s : StageState) :
  get_stage_state e dep = Ok s ->
  (status s = COMPLETED <->
   d_status (stage_state_data e dep) = Some "completed").
Proof.
  unfold get_stage_state.
  destruct (StageStatus_of_value _) as [st|] eqn:E; simpl; [| done].
  intros H; inversion H; subst; clear H. simpl.
  apply StageStatus_of_value_completed in E. rewrite E.
  destruct (d_status (stage_state_data e dep)) as [v|]; simpl.
  - split; [by intros -> | by intros [= ->]].
  - split; [done | done].
Qed.

Lemma get_stage_state_of_completed (e : engine) (dep : string) :
  d_status (stage_state_data e dep) = Some "completed" ->
  exists s, get_stage_state e dep = Ok s /\ status s = COMPLETED.
Proof.
  intros H. unfold get_stage_state. rewrite H. simpl.
  eexists. split; [reflexivity | done].
Qed.

Lemma all_dependencies_completed_true (e : engine) (deps : list string) :
  all_dependencies_completed e deps = Ok true <->
  forall dep, dep ∈ deps ->
    d_status (stage_state_data e dep) = Some "completed".
Proof.
  induction deps as [|dep rest IH]; simpl.
  - split; [intros _ dep H; by apply elem_of_nil in H | done].
  - split.
    + destruct (get_stage_state e dep) as [s|] eqn:E; simpl; [| done].
      case_bool_decide as Hs; [done |].
      intros Hrest d Hd. apply elem_of_cons in Hd as [-> | Hd].
      * apply (get_stage_state_completed _ _ _ E).
        by destruct (decide (status s = COMPLETED)).
      * by apply IH.
    + intros Hall.
      destruct (get_stage_state_of_completed e dep) as (s & -> & Hs);
        [apply Hall; left |]. simpl.
      rewrite bool_decide_eq_false_2 by (intros Hn; done).
      apply IH. intros d Hd. apply Hall. by right.
Qed.

Lemma all_dependencies_completed_total (e : engine) (deps : list string) :
  (forall dep, dep ∈ deps -> exists s, get_stage_state e dep = Ok s) ->
  exists b, all_dependencies_completed e deps = Ok b.
Proof.
  induction deps as [|dep rest IH]; simpl; intros Hv; [by eexists |].
  destruct (Hv dep) as [s ->]; [left |]. simpl.
  case_bool_decide; [by eexists |].
  apply IH. intros d Hd. apply Hv. by right.
Qed.

Lemma _check_dependencies_deps (e : engine) (stage_id : string)
    (info : StageInfo) :
  _get_stage_info_by_id e stage_id = Some info ->
  _check_dependencies e stage_id
  = all_dependencies_completed e (dependencies info).
Proof.
  intros H. unfold _check_dependencies. rewrite H.
  by destruct (dependencies info).
Qed.


Lemma _save_state_fields (now : Z) (e : engine) :
  current_stage (state (_save_state now e)) = current_stage (state e) /\
  stage_states (state (_save_state now e)) = stage_states (state e) /\
  flow_modes (_save_state now e) = flow_modes e /\
  current_mode (_save_state now e) = current_mode e.
Proof. unfold _save_state. by destruct (metadata (state e)). Qed.

Lemma update_stage_state_fields (now : Z) (stage_id : string) (kw : kwargs)
    (e : engine) :
  current_stage (state (update_stage_state now stage_id kw e))
  = current_stage (state e) /\
  stage_states (state (update_stage_state now stage_id kw e))
  = Some (<[stage_id := auto_timestamps now kw
                          (apply_kwargs kw (stage_state_data e stage_id))]>
            (default ∅ (stage_states (state e)))).
Proof.
  unfold update_stage_state.
  match goal with
  | |- context [_save_state now ?x] =>
      destruct (_save_state_fields now x) as (-> & -> & _)
  end.
  done.
Qed.

(** After the final [_save_state] of [start_stage]. *)
Lemma start_stage_saved (now : Z) (st : state_dict) (e : engine) :
  current_stage (state (_save_state now (set_state st e))) = current_stage st
  /\ stage_state_data (_save_state now (set_state st e))
     = fun stage_id => default empty_dict (default ∅ (stage_states st) !! stage_id).
Proof.
  destruct (_save_state_fields now (set_state st e)) as (Hc & Hs & _).
  split; [done |]. unfold stage_state_data. by rewrite Hs.
Qed.

(** C4 (as amended): for a stage of the current mode, [start_stage] returns
    without touching the engine or the state file, and without success, as
    soon as one declared dependency has a status other than [completed],
    whichever position it has in the list.  No exception stands for the
    unmet dependency: the value returned is [False] when the stored
    statuses of the dependencies are legal status names.  When every
    declared dependency is [completed] it returns [True], the stage is
    [in_progress] and is the current stage. *)
Theorem start_stage_dependency_gate (now : Z) (stage_id : string)
    (assignee : option string) (e : engine) (info : StageInfo) :
  _get_stage_info_by_id e stage_id = Some info ->
  ((exists dep, dep ∈ dependencies info /\
                d_status (stage_state_data e dep) <> Some "completed") ->
     fst (start_stage now stage_id assignee e) = e /\
     snd (start_stage now stage_id assignee e) <> Ok true /\
     ((forall dep, dep ∈ dependencies info ->
                   exists s, get_stage_state e dep = Ok s) ->
      snd (start_stage now stage_id assignee e) = Ok false)) /\
  ((forall dep, dep ∈ dependencies info ->
                d_status (stage_state_data e dep) = Some "completed") ->
     exists e',
       start_stage now stage_id assignee e = (e', Ok true) /\
       current_stage (state e') = Some stage_id /\
       d_status (stage_state_data e' stage_id) = Some "in_progress").
Proof.
  intros Hinfo. unfold start_stage.
  rewrite (_check_dependencies_deps _ _ _ Hinfo). split.
  - intros (dep & Hdep & Hst).
    destruct (all_dependencies_completed e (dependencies info))
      as [[|]|x] eqn:E.
    + exfalso. apply Hst.
      by apply (proj1 (all_dependencies_completed_true _ _) E).
    + done.
    + repeat split; try done. intros Hv.
      apply all_dependencies_completed_total in Hv as [b Hb]. congruence.
  - intros Hall.
    rewrite (proj2 (all_dependencies_completed_true _ _) Hall).
    eexists. split; [reflexivity |].
    destruct (update_stage_state_fields now stage_id
                {| kw_status := Some IN_PROGRESS; kw_progress := None;
                   kw_start_time := Some (Some now); kw_end_time := None;
                   kw_assignee := Some assignee; kw_notes := None;
                   kw_deliverables_status := None |} e) as (_ & Hs).
    match goal with
    | |- context [_save_state now (set_state ?st ?e1)] =>
        destruct (start_stage_saved now st e1) as (-> & ->)
    end.
    split; [done |]. cbn [stage_states]. rewrite Hs. simpl.
    by rewrite lookup_insert_eq.
Qed.

Lemma start_stage_dependency_gate_witness :
  (fst (start_stage 7 "implementation" None Samples.multi_engine)
   = Samples.multi_engine /\
   snd (start_stage 7 "implementation" None Samples.multi_engine) = Ok false)
  /\ exists e',
       start_stage 7 "implementation" None Samples.multi_engine_ready
       = (e', Ok true) /\
       current_stage (state e') = Some "implementation".
Proof.
  split.
  - destruct (start_stage_dependency_gate 7 "implementation" None
                Samples.multi_engine
                (Samples.stage_info "implementation" (Some "validation")
                   ["analysis"; "planning"]) eq_refl) as [Hfail _].
    destruct Hfail as (Hsame & _ & Hfalse).
    + exists "planning". split; [right; left |].
      vm_compute. discriminate.
    + split; [exact Hsame |]. apply Hfalse. intros dep Hdep.
      apply elem_of_cons in Hdep as [-> | Hdep];
        [eexists; vm_compute; reflexivity |].
      apply elem_of_cons in Hdep as [-> | Hdep];
        [eexists; vm_compute; reflexivity |].
      by apply elem_of_nil in Hdep.
  - destruct (start_stage_dependency_gate 7 "implementation" None
                Samples.multi_engine_ready
                (Samples.stage_info "implementation" (Some "validation")
                   ["analysis"; "planning"]) eq_refl) as [_ Hok].
    destruct Hok as (e' & He' & Hc & _).
    + intros dep Hdep.
      apply elem_of_cons in Hdep as [-> | Hdep]; [vm_compute; reflexivity |].
      apply elem_of_cons in Hdep as [-> | Hdep]; [vm_compute; reflexivity |].
      by apply elem_of_nil in Hdep.
    + exists e'. split; [exact He' | exact Hc].
Defined.

(** C4, counterexample: with the dependency [planning] still in progress,
    [start_stage] on [implementation] raises nothing, it returns [False];
    and when the first dependency is stored with the status [done], which
    names no member of [StageStatus], the exception that escapes is the
    [ValueError] of the enumeration.  Neither is a dependency error. *)
Lemma start_stage_returns_false_not_error :
  start_stage 7 "implementation" None Samples.multi_engine
  = (Samples.multi_engine, Ok false) /\
  let e :=
    set_state
      {| flow_mode := "minimal";
         current_stage := Some "planning";
         stage_states :=
           Some (<["analysis" := Samples.stage_data "done" 100 (Some 10) []]>
                   ∅);
         metadata := metadata (state Samples.multi_engine) |}
      Samples.multi_engine in
  exists msg,
    start_stage 7 "implementation" None e = (e, Raise (ValueError msg)).
Proof.
  split; [reflexivity |]. simpl. eexists. reflexivity.
Qed.

(** *** _merge_stage_states *)

Lemma foldl_merge_step (e : engine) (stage_ids : list string) :
  forall acc,
    foldl (merge_step e) acc stage_ids
    = foldl merge_one acc (present_states e stage_ids).
Proof.
  induction stage_ids as [|i l IH]; intros acc; simpl; [done |].
  unfold merge_step at 2.
  destruct (default ∅ (stage_states (state e)) !! i) as [d|]; simpl;
    [destruct (dict_nonempty d); simpl |]; apply IH.
Qed.

Lemma merge_counters (srcs : list stage_dict) :
  forall acc,
    all_completed (foldl merge_one acc srcs)
    = all_completed acc
      && forallb (fun d => bool_decide (d_status d = Some "completed")) srcs
    /\ total_progress (foldl merge_one acc srcs)
       = total_progress acc
         + foldr Z.add 0 (map (fun d => default 0 (d_progress d)) srcs)
    /\ valid_states (foldl merge_one acc srcs) = valid_states acc + len srcs.
Proof.
  induction srcs as [|d l IH]; intros acc; simpl.
  - rewrite andb_true_r. unfold len. simpl. repeat split; lia.
  - destruct (IH (merge_one acc d)) as (-> & -> & ->). simpl.
    unfold len. simpl length. repeat split; try lia.
    case_bool_decide as H1; case_bool_decide as H2; simpl; try done.
    by rewrite andb_false_r.
Qed.

Lemma merge_status_progress (srcs : list stage_dict) :
  forall acc,
    d_status (merged_state (foldl merge_one acc srcs))
    = d_status (merged_state acc)
    /\ d_progress (merged_state (foldl merge_one acc srcs))
       = d_progress (merged_state acc)
    /\ d_assignee (merged_state (foldl merge_one acc srcs))
       = d_assignee (merged_state acc).
Proof.
  induction srcs as [|d l IH]; intros acc; simpl; [done |].
  destruct (IH (merge_one acc d)) as (-> & -> & ->). done.
Qed.

Lemma merge_notes (srcs : list stage_dict) :
  forall acc,
    default [] (d_notes (merged_state (foldl merge_one acc srcs)))
    = default [] (d_notes (merged_state acc))
      ++ concat (map (fun d => default [] (d_notes d)) srcs).
Proof.
  induction srcs as [|d l IH]; intros acc; simpl.
  - by rewrite app_nil_r.
  - rewrite IH. simpl. by rewrite app_assoc.
Qed.

Lemma merge_notes_present (srcs : list stage_dict) :
  forall acc,
    is_Some (d_notes (merged_state acc)) ->
    is_Some (d_notes (merged_state (foldl merge_one acc srcs))).
Proof.
  induction srcs as [|d l IH]; intros acc H; simpl; [done |].
  apply IH. simpl. by eexists.
Qed.

Lemma merge_deliverables (srcs : list stage_dict) (k : string) :
  forall acc,
    default ∅ (d_deliverables_status (merged_state (foldl merge_one acc srcs)))
      !! k
    = from_option Some
        (default ∅ (d_deliverables_status (merged_state acc)) !! k)
        (last (omap (fun d => default ∅ (d_deliverables_status d) !! k) srcs)).
Proof.
  induction srcs as [|d l IH]; intros acc; simpl; [done |].
  rewrite IH. simpl. rewrite lookup_union.
  destruct (default ∅ (d_deliverables_status d) !! k) as [v|] eqn:E; simpl.
  - rewrite last_cons.
    destruct (last _); simpl; [done |].
    by destruct (default ∅ (d_deliverables_status (merged_state acc)) !! k).
  - by destruct (default ∅ (d_deliverables_status (merged_state acc)) !! k).
Qed.

Lemma merge_start_time (srcs : list stage_dict) :
  forall acc,
    mjoin (d_start_time (merged_state (foldl merge_one acc srcs)))
    = match mjoin (d_start_time (merged_state acc)) with
      | Some t => Some t
      | None => head (omap (fun d => mjoin (d_start_time d)) srcs)
      end.
Proof.
  induction srcs as [|d l IH]; intros acc; simpl.
  - by destruct (mjoin _).
  - rewrite IH. simpl.
    destruct (mjoin (d_start_time d)) as [t|] eqn:Ed;
      destruct (mjoin (d_start_time (merged_state acc))) as [t0|] eqn:Ea;
      simpl; try rewrite Ea; done.
Qed.

Lemma merge_end_time (srcs : list stage_dict) :
  forall acc,
    mjoin (d_end_time (merged_state (foldl merge_one acc srcs)))
    = from_option Some (mjoin (d_end_time (merged_state acc)))
        (last (omap (fun d => mjoin (d_end_time d)) srcs)).
Proof.
  induction srcs as [|d l IH]; intros acc; simpl; [done |].
  rewrite IH. simpl.
  destruct (mjoin (d_end_time d)) as [t|] eqn:Ed; simpl.
  - rewrite last_cons. by destruct (last _).
  - done.
Qed.

Lemma merge_init_fields :
  d_status (merged_state merge_init) = Some "pending" /\
  d_progress (merged_state merge_init) = Some 0 /\
  d_notes (merged_state merge_init) = Some [] /\
  d_deliverables_status (merged_state merge_init) = Some ∅ /\
  d_start_time (merged_state merge_init) = None /\
  d_end_time (merged_state merge_init) = None /\
  all_completed merge_init = true /\
  total_progress merge_init = 0 /\
  valid_states merge_init = 0.
Proof. done. Qed.

Lemma merge_finish_fields (acc : merge_acc) :
  d_notes (merge_finish acc) = d_notes (merged_state acc) /\
  d_deliverables_status (merge_finish acc)
  = d_deliverables_status (merged_state acc) /\
  d_start_time (merge_finish acc) = d_start_time (merged_state acc) /\
  d_end_time (merge_finish acc) = d_end_time (merged_state acc).
Proof.
  unfold merge_finish.
  destruct (all_completed acc && (0 <? valid_states acc));
    [done | by destruct (0 <? valid_states acc)].
Qed.

Lemma merge_deliverables_present (srcs : list stage_dict) :
  forall acc,
    is_Some (d_deliverables_status (merged_state acc)) ->
    is_Some (d_deliverables_status (merged_state (foldl merge_one acc srcs))).
Proof.
  induction srcs as [|d l IH]; intros acc H; simpl; [done |].
  apply IH. simpl. by eexists.
Qed.

(** The merge of a list of source states, each present and not empty. *)
Lemma merge_sources_result (srcs : list stage_dict) :
  let all_done :=
    forallb (fun d => bool_decide (d_status d = Some "completed")) srcs in
  let m := merge_finish (foldl merge_one merge_init srcs) in
  (d_status m
   = Some (match srcs with
           | [] => "pending"
           | _ => if all_done then "completed" else "in_progress"
           end) /\
   d_progress m
   = Some (match srcs with
           | [] => 0
           | _ => if all_done then 100
                  else foldr Z.add 0
                         (map (fun d => default 0 (d_progress d)) srcs)
                       / len srcs
           end) /\
   d_notes m = Some (concat (map (fun d => default [] (d_notes d)) srcs)) /\
   (exists ds,
       d_deliverables_status m = Some ds /\
       forall k,
         ds !! k
         = last (omap (fun d => default ∅ (d_deliverables_status d) !! k)
                      srcs)) /\
   mjoin (d_start_time m) = head (omap (fun d => mjoin (d_start_time d)) srcs)
   /\ mjoin (d_end_time m)
      = last (omap (fun d => mjoin (d_end_time d)) srcs)) /\
  (forall X Y,
      srcs = [X; Y] ->
      d_status X = Some "completed" -> d_progress X = Some 100 ->
      d_status Y = Some "in_progress" -> d_progress Y = Some 50 ->
      d_status m = Some "in_progress" /\ d_progress m = Some 75 /\
      d_notes m = Some (default [] (d_notes X) ++ default [] (d_notes Y))).
Proof.
  intros all_done m.
  destruct (merge_counters srcs merge_init) as (Hall & Htot & Hval).
  destruct (merge_status_progress srcs merge_init) as (Hst & Hpr & _).
  pose proof (merge_notes srcs merge_init) as Hnotes.
  destruct (merge_notes_present srcs merge_init) as [ns Hns]; [by eexists |].
  destruct (merge_deliverables_present srcs merge_init) as [ds Hds];
    [by eexists |].
  pose proof (fun k => merge_deliverables srcs k merge_init) as Hdel.
  pose proof (merge_start_time srcs merge_init) as Hstart.
  pose proof (merge_end_time srcs merge_init) as Hend.
  destruct (merge_finish_fields (foldl merge_one merge_init srcs))
    as (Fn & Fd & Fs & Fe).
  fold m in Fn, Fd, Fs, Fe.
  assert (d_status m
          = Some (match srcs with
                  | [] => "pending"
                  | _ => if all_done then "completed" else "in_progress"
                  end) /\
          d_progress m
          = Some (match srcs with
                  | [] => 0
                  | _ => if all_done then 100
                         else foldr Z.add 0
                                (map (fun d => default 0 (d_progress d)) srcs)
                              / len srcs
                  end)) as [Hs Hp].
  { unfold m, merge_finish. rewrite Hall, Hval, Htot. cbn zeta.
    fold all_done. clear.
    destruct srcs as [|d l]; [done |].
    assert ((0 <? valid_states merge_init + len (d :: l)) = true) as ->
      by (apply Z.ltb_lt; unfold len; simpl; lia).
    rewrite andb_true_r. simpl.
    by destruct (all_done). }
  assert (d_notes m
          = Some (concat (map (fun d => default [] (d_notes d)) srcs)))
    as Hn.
  { rewrite Fn. rewrite Hns in Hnotes. simpl in Hnotes.
    by rewrite Hns, Hnotes. }
  split.
  - split; [exact Hs |]. split; [exact Hp |]. split; [exact Hn |].
    split; [| split].
    + exists ds. split; [by rewrite Fd |]. intros k.
      specialize (Hdel k). rewrite Hds in Hdel. simpl in Hdel.
      rewrite lookup_empty in Hdel. rewrite Hdel. by destruct (last _).
    + by rewrite Fs, Hstart.
    + rewrite Fe, Hend. simpl. by destruct (last _).
  - intros X Y Hsrc HsX HpX HsY HpY.
    rewrite Hs, Hp, Hn. unfold all_done. rewrite Hsrc. simpl.
    rewrite HsX, HsY, HpX, HpY. simpl. by rewrite app_nil_r.
Qed.

(** C6 (as amended): merging the source states that are present gives:
    status [completed] when there is a source and all sources are
    [completed], [in_progress] when there is a source and not all are
    [completed] (whatever their progress), [pending] when there is none;
    progress 100 in the first case, the floor of the average of the source
    progress values in the second, 0 in the third; the notes of the sources
    concatenated in source order; for every deliverable the entry of the
    last source that has one; as start time the first start time present
    in source order, as end time the last end time present in source
    order.  In particular sources X (completed, 100) and Y (in_progress, 50)
    give status [in_progress], progress 75 and the notes of X followed by
    those of Y. *)
Theorem merge_stage_states_result (e : engine) (stage_ids : list string) :
  let srcs := present_states e stage_ids in
  let all_done :=
    forallb (fun d => bool_decide (d_status d = Some "completed")) srcs in
  let m := _merge_stage_states e stage_ids in
  (d_status m
   = Some (match srcs with
           | [] => "pending"
           | _ => if all_done then "completed" else "in_progress"
           end) /\
   d_progress m
   = Some (match srcs with
           | [] => 0
           | _ => if all_done then 100
                  else foldr Z.add 0
                         (map (fun d => default 0 (d_progress d)) srcs)
                       / len srcs
           end) /\
   d_notes m = Some (concat (map (fun d => default [] (d_notes d)) srcs)) /\
   (exists ds,
       d_deliverables_status m = Some ds /\
       forall k,
         ds !! k
         = last (omap (fun d => default ∅ (d_deliverables_status d) !! k)
                      srcs)) /\
   mjoin (d_start_time m) = head (omap (fun d => mjoin (d_start_time d)) srcs)
   /\ mjoin (d_end_time m)
      = last (omap (fun d => mjoin (d_end_time d)) srcs)) /\
  (forall X Y,
      srcs = [X; Y] ->
      d_status X = Some "completed" -> d_progress X = Some 100 ->
      d_status Y = Some "in_progress" -> d_progress Y = Some 50 ->
      d_status m = Some "in_progress" /\ d_progress m = Some 75 /\
      d_notes m = Some (default [] (d_notes X) ++ default [] (d_notes Y))).
Proof.
  intros srcs all_done m. unfold m, _merge_stage_states.
  rewrite foldl_merge_step. apply merge_sources_result.
Qed.

Lemma merge_stage_states_result_witness :
  d_status (_merge_stage_states Samples.multi_engine ["analysis"; "planning"])
  = Some "in_progress" /\
  d_progress (_merge_stage_states Samples.multi_engine
                ["analysis"; "planning"]) = Some 75 /\
  d_notes (_merge_stage_states Samples.multi_engine ["analysis"; "planning"])
  = Some ["a"; "b"].
Proof.
  destruct (merge_stage_states_result Samples.multi_engine
              ["analysis"; "planning"]) as [_ Hxy].
  apply (Hxy (Samples.stage_data "completed" 100 (Some 10) ["a"])
             (Samples.stage_data "in_progress" 50 (Some 5) ["b"]));
    vm_compute; reflexivity.
Defined.

(** C6, counterexample: two sources that are [pending] with progress 0
    merge into a state with status [in_progress], where the claim gives
    [pending]; and with start times 10 and 5 in source order the merged
    start time is 10, the first one, not the earliest. *)
Lemma merge_stage_states_not_as_claimed :
  d_status (_merge_stage_states Samples.multi_engine_idle
              ["analysis"; "planning"]) = Some "in_progress" /\
  mjoin (d_start_time (_merge_stage_states Samples.multi_engine
                         ["analysis"; "planning"])) = Some 10 /\
  Z.min 10 5 <> 10.
Proof. repeat split; vm_compute; try reflexivity; discriminate. Qed.

End MultiModeProps.

(** ** Properties that hold of several engines *)

Module EngineProps.

(** C2 (as amended): marking a stage complete twice in a row is idempotent
    up to the time stamps.  After a [complete_stage] that wrote the
    documents, a second [complete_stage] of the same stage writes the same
    state document (same completed list, same percentage, same current
    stage) and the same progress document, with new time stamps only; after
    an [update_stage_progress (stage, 100)] that wrote the state, a second
    one writes the same state (same current stage, statuses and progress
    values) with a new [last_updated] only. *)
Theorem completion_twice_in_a_row :
  (forall (t1 t2 t1' t2' : string) (force confirm : bool) (stage : string)
          (st st1 : StageScript.state) (pr pr1 : StageScript.progress_doc),
      StageScript.complete_stage t1 t2 force confirm stage st pr
      = StageScript.Saved st1 pr1 ->
      StageScript.complete_stage t1' t2' force confirm stage st1 pr1
      = StageScript.Saved
          (StageScript.save_current_state t2' st1)
          {| StageScript.stages :=
               alter (insert "last_updated" (StageScript.JStr t1')) stage
                     (StageScript.stages pr1) |}) /\
  (forall (now1 now2 stage_id : string) (ids : option (list string))
          (st st1 : StateEngine.state),
      StateEngine.update_stage_progress now1 stage_id 100 ids st = Ok st1 ->
      StateEngine.update_stage_progress now2 stage_id 100 ids st1
      = Ok (StateEngine.save_state now2 st1)).
Proof.
  split.
  - apply StageScriptProps.complete_twice.
  - intros now1 now2 stage_id ids st st1 H.
    rewrite (StateEngineProps.update_twice now1 now2 _ _ _ _ _ H).
    by apply (StateEngineProps.update_restamp now1).
Qed.

Lemma completion_twice_in_a_row_witness :
  exists st1,
    StateEngine.update_stage_progress "t1" "S3" 100 None Samples.engine_state
    = Ok st1 /\
    StateEngine.update_stage_progress "t2" "S3" 100 None st1
    = Ok (StateEngine.save_state "t2" st1) /\
    StateEngine.current_stage st1 = "S4".
Proof.
  eexists. split; [reflexivity |]. split; [| reflexivity].
  apply (proj2 completion_twice_in_a_row "t1" "t2" "S3" None
           Samples.engine_state).
  reflexivity.
Defined.

(** C2, counterexample: S1 is completed and the work has moved on to S3
    (S2 completed as well); updating S1 to 100 again moves the current
    stage back to S2 and turns S2 from [completed] into [in_progress]: the
    state is not left as it was and the advance happens again. *)
Lemma completed_stage_update_changes_state :
  StateEngine.stage_status Samples.engine_state !! "S1" = Some "completed" /\
  StateEngine.current_stage Samples.engine_state = "S3" /\
  StateEngine.stage_status Samples.engine_state !! "S2" = Some "completed" /\
  exists st',
    StateEngine.update_stage_progress "t1" "S1" 100 None Samples.engine_state
    = Ok st' /\
    StateEngine.current_stage st' = "S2" /\
    StateEngine.stage_status st' !! "S2" = Some "in_progress".
Proof.
  split; [vm_compute; reflexivity |]. split; [reflexivity |].
  split; [vm_compute; reflexivity |].
  eexists. split; [reflexivity |]. split; vm_compute; reflexivity.
Qed.

(** C3 (as amended): an update with a value below 100 on a stage whose
    status is [completed] is accepted by both engines, whatever the file
    system: no error is raised, the stage becomes [in_progress] with the
    new progress value and becomes the current stage. *)
Theorem regress_completed_stage_accepted :
  (forall (now stage_id : string) (p : Z) (ids : option (list string))
          (st : StateEngine.state),
      StateEngine.stage_status st !! stage_id = Some "completed" ->
      is_Some (StateEngine.progress st !! stage_id) ->
      p < 100 ->
      exists st',
        StateEngine.update_stage_progress now stage_id p ids st = Ok st' /\
        StateEngine.stage_status st' !! stage_id = Some "in_progress" /\
        StateEngine.progress st' !! stage_id = Some p /\
        StateEngine.current_stage st' = stage_id) /\
  (forall (fs : StateEngineEnhanced.filesystem) (now stage_id : string)
          (p : Z) (ids : option (list string))
          (st : StateEngineEnhanced.state),
      StateEngineEnhanced.stage_status st !! stage_id = Some "completed" ->
      is_Some (StateEngineEnhanced.progress st !! stage_id) ->
      p < 100 ->
      exists st',
        StateEngineEnhanced.update_stage_progress fs now stage_id p ids st
        = Ok st' /\
        StateEngineEnhanced.stage_status st' !! stage_id = Some "in_progress"
        /\ StateEngineEnhanced.progress st' !! stage_id = Some p /\
        StateEngineEnhanced.current_stage st' = stage_id).
Proof.
  split.
  - intros now stage_id p ids st _ Hin Hp.
    destruct (StateEngineProps.update_below_100 now stage_id p ids st Hin Hp)
      as (st' & Hu & Hc & Hs & Hpr).
    exists st'. rewrite Hs, Hpr. by map_lookup.
  - intros fs now stage_id p ids st _ Hin Hp.
    destruct (StateEngineEnhancedProps.update_below_100_enhanced fs now stage_id p ids
                st Hin Hp) as (st' & Hu & Hc & Hs & Hpr).
    exists st'. rewrite Hs, Hpr. by map_lookup.
Qed.

Lemma regress_completed_stage_accepted_witness :
  exists st',
    StateEngine.update_stage_progress "t1" "S1" 50 None Samples.engine_state
    = Ok st' /\
    StateEngine.stage_status st' !! "S1" = Some "in_progress" /\
    StateEngine.progress st' !! "S1" = Some 50 /\
    StateEngine.current_stage st' = "S1".
Proof.
  apply (proj1 regress_completed_stage_accepted "t1" "S1" 50 None
           Samples.engine_state).
  - vm_compute; reflexivity.
  - eexists; vm_compute; reflexivity.
  - lia.
Defined.

(** C3, counterexample: S1 is completed with progress 100; the update
    (S1, 50) returns normally and writes S1 as [in_progress] with progress
    50, in both engines. *)
Lemma regress_completed_stage_not_rejected :
  StateEngine.stage_status Samples.engine_state !! "S1" = Some "completed" /\
  (exists st',
      StateEngine.update_stage_progress "t1" "S1" 50 None Samples.engine_state
      = Ok st' /\
      StateEngine.stage_status st' !! "S1" = Some "in_progress" /\
      StateEngine.progress st' !! "S1" = Some 50) /\
  (exists st',
      StateEngineEnhanced.update_stage_progress Samples.no_outputs "t1" "S1" 50
        None Samples.enhanced_state = Ok st' /\
      StateEngineEnhanced.stage_status st' !! "S1" = Some "in_progress" /\
      StateEngineEnhanced.progress st' !! "S1" = Some 50).
Proof.
  split; [vm_compute; reflexivity |].
  split; eexists; (split; [reflexivity |]); split; vm_compute; reflexivity.
Qed.

(** C7 (as amended): a progress value outside [0,100] is not rejected;
    neither engine checks the range.  For a stage id with a progress entry
    a value below 0 is stored as given, and the stage becomes [in_progress]
    and the current stage.  For a defined stage with a progress entry a
    value above 100 is stored as given and treated as completion: the stage
    becomes [completed] and the flow advances, its successor becoming the
    current stage with status [in_progress] (a stage without successor
    stays current); the enhanced engine does so when the output check
    passes.  A stage id without a progress entry raises [ValueError],
    whatever the value. *)
Theorem out_of_range_progress_stored :
  (forall (now stage_id : string) (p : Z) (ids : option (list string))
          (st : StateEngine.state),
      is_Some (StateEngine.progress st !! stage_id) -> p < 0 ->
      exists st',
        StateEngine.update_stage_progress now stage_id p ids st = Ok st' /\
        StateEngine.progress st' !! stage_id = Some p /\
        StateEngine.stage_status st' !! stage_id = Some "in_progress" /\
        StateEngine.current_stage st' = stage_id) /\
  (forall (now stage_id : string) (p : Z) (ids : option (list string))
          (st : StateEngine.state) (d : StateEngine.stage_definition),
      is_Some (StateEngine.progress st !! stage_id) ->
      StateEngine.definition_of StateEngine.stage_definitions stage_id
      = Some d ->
      100 < p ->
      exists st',
        StateEngine.update_stage_progress now stage_id p ids st = Ok st' /\
        StateEngine.progress st' !! stage_id = Some p /\
        StateEngine.stage_status st' !! stage_id = Some "completed" /\
        match truthy (StateEngine.next_stage d) with
        | Some nxt =>
            StateEngine.current_stage st' = nxt /\
            StateEngine.stage_status st' !! nxt = Some "in_progress"
        | None => StateEngine.current_stage st' = stage_id
        end) /\
  (forall (fs : StateEngineEnhanced.filesystem) (now stage_id : string)
          (p : Z) (ids : option (list string))
          (st : StateEngineEnhanced.state),
      is_Some (StateEngineEnhanced.progress st !! stage_id) -> p < 0 ->
      exists st',
        StateEngineEnhanced.update_stage_progress fs now stage_id p ids st
        = Ok st' /\
        StateEngineEnhanced.progress st' !! stage_id = Some p /\
        StateEngineEnhanced.stage_status st' !! stage_id
        = Some "in_progress" /\
        StateEngineEnhanced.current_stage st' = stage_id) /\
  (forall (fs : StateEngineEnhanced.filesystem) (now stage_id : string)
          (p : Z) (ids : option (list string))
          (st : StateEngineEnhanced.state)
          (d : StateEngineEnhanced.stage_definition),
      is_Some (StateEngineEnhanced.progress st !! stage_id) ->
      StateEngineEnhanced.definition_of StateEngineEnhanced.stage_definitions
        stage_id = Some d ->
      StateEngineEnhanced.validate_stage_output fs stage_id = Ok true ->
      100 < p ->
      exists st',
        StateEngineEnhanced.update_stage_progress fs now stage_id p ids st
        = Ok st' /\
        StateEngineEnhanced.progress st' !! stage_id = Some p /\
        StateEngineEnhanced.stage_status st' !! stage_id = Some "completed" /\
        match truthy (StateEngineEnhanced.next_stage d) with
        | Some nxt =>
            StateEngineEnhanced.current_stage st' = nxt /\
            StateEngineEnhanced.stage_status st' !! nxt = Some "in_progress"
        | None => StateEngineEnhanced.current_stage st' = stage_id
        end) /\
  (forall (now stage_id : string) (p : Z) (ids : option (list string))
          (st : StateEngine.state),
      StateEngine.progress st !! stage_id = None ->
      exists msg,
        StateEngine.update_stage_progress now stage_id p ids st
        = Raise (ValueError msg)) /\
  (forall (fs : StateEngineEnhanced.filesystem) (now stage_id : string)
          (p : Z) (ids : option (list string))
          (st : StateEngineEnhanced.state),
      StateEngineEnhanced.progress st !! stage_id = None ->
      exists msg,
        StateEngineEnhanced.update_stage_progress fs now stage_id p ids st
        = Raise (ValueError msg)).
Proof.
  split; [| split; [| split; [| split; [| split]]]].
  - intros now stage_id p ids st Hin Hp.
    destruct (StateEngineProps.update_below_100 now stage_id p ids st Hin)
      as (st' & Hu & Hc & Hs & Hpr); [lia |].
    exists st'. rewrite Hs, Hpr. split; [done |]. by map_lookup.
  - intros now stage_id p ids st d [p0 Hin] Hd Hp.
    pose proof (StateEngineProps.definition_of_next _ _ Hd) as Hn.
    unfold StateEngine.update_stage_progress, StateEngine.update_status.
    rewrite Hin, Hd. assert ((100 <=? p) = true) as -> by lia.
    destruct (truthy (StateEngine.next_stage d)) as [nxt|] eqn:Ht; simpl.
    + apply StateEngineProps.truthy_Some in Ht.
      eexists. split; [reflexivity |]. simpl.
      split; [by rewrite lookup_insert_eq |].
      split; [rewrite lookup_insert_ne by congruence;
              by rewrite lookup_insert_eq |].
      split; [done | by rewrite lookup_insert_eq].
    + eexists. split; [reflexivity |]. simpl.
      split; [by rewrite lookup_insert_eq |].
      split; [by rewrite lookup_insert_eq | done].
  - intros fs now stage_id p ids st Hin Hp.
    destruct (StateEngineEnhancedProps.update_below_100_enhanced fs now
                stage_id p ids st Hin) as (st' & Hu & Hc & Hs & Hpr); [lia |].
    exists st'. rewrite Hs, Hpr. split; [done |]. by map_lookup.
  - intros fs now stage_id p ids st d [p0 Hin] Hd Hv Hp.
    pose proof (StateEngineEnhancedProps.definition_of_next_enhanced _ _ Hd)
      as Hn.
    unfold StateEngineEnhanced.update_stage_progress,
      StateEngineEnhanced.update_status, StateEngineEnhanced.output_gate.
    rewrite Hin, Hv, Hd. assert ((100 <=? p) = true) as -> by lia.
    destruct (truthy (StateEngineEnhanced.next_stage d)) as [nxt|] eqn:Ht;
      simpl.
    + apply StateEngineProps.truthy_Some in Ht.
      eexists. split; [reflexivity |]. simpl.
      split; [by rewrite lookup_insert_eq |].
      split; [rewrite lookup_insert_ne by congruence;
              by rewrite lookup_insert_eq |].
      split; [done | by rewrite lookup_insert_eq].
    + eexists. split; [reflexivity |]. simpl.
      split; [by rewrite lookup_insert_eq |].
      split; [by rewrite lookup_insert_eq | done].
  - intros now stage_id p ids st Hnone.
    unfold StateEngine.update_stage_progress. rewrite Hnone. by eexists.
  - intros fs now stage_id p ids st Hnone.
    unfold StateEngineEnhanced.update_stage_progress. rewrite Hnone.
    by eexists.
Qed.

Lemma out_of_range_progress_stored_witness :
  (exists st',
      StateEngine.update_stage_progress "t1" "S3" (-5) None
        Samples.engine_state = Ok st' /\
      StateEngine.progress st' !! "S3" = Some (-5) /\
      StateEngine.stage_status st' !! "S3" = Some "in_progress" /\
      StateEngine.current_stage st' = "S3") /\
  (exists st',
      StateEngine.update_stage_progress "t1" "S3" 150 None
        Samples.engine_state = Ok st' /\
      StateEngine.progress st' !! "S3" = Some 150 /\
      StateEngine.stage_status st' !! "S3" = Some "completed" /\
      StateEngine.current_stage st' = "S4" /\
      StateEngine.stage_status st' !! "S4" = Some "in_progress") /\
  (exists msg,
      StateEngine.update_stage_progress "t1" "S9" 150 None
        Samples.engine_state = Raise (ValueError msg)).
Proof.
  destruct out_of_range_progress_stored as (Hneg & Hbig & _ & _ & Hnone & _).
  split; [| split].
  - apply Hneg; [| lia].
    apply (bool_decide_unpack (is_Some _)). vm_compute. exact I.
  - destruct (Hbig "t1" "S3" 150 None Samples.engine_state
                {| StateEngine.name := "测试用例设计";
                   StateEngine.next_stage := Some "S4" |})
      as (st' & Hu & Hp & Hs & Hadv); [| reflexivity | lia |].
    + apply (bool_decide_unpack (is_Some _)). vm_compute. exact I.
    + exists st'. split; [exact Hu |]. split; [exact Hp |].
      split; [exact Hs | exact Hadv].
  - apply Hnone. vm_compute. reflexivity.
Defined.

(** C7, counterexample: the updates (S3, 150) and (S3, -5) return normally
    and write the value, although it lies outside [0,100]. *)
Lemma out_of_range_progress_not_rejected :
  ~ (0 <= 150 <= 100) /\ ~ (0 <= -5 <= 100) /\
  (exists st',
      StateEngine.update_stage_progress "t1" "S3" 150 None
        Samples.engine_state = Ok st' /\
      StateEngine.progress st' !! "S3" = Some 150) /\
  (exists st',
      StateEngineEnhanced.update_stage_progress Samples.no_outputs "t1" "S3"
        (-5) None Samples.enhanced_state = Ok st' /\
      StateEngineEnhanced.progress st' !! "S3" = Some (-5)).
Proof.
  split; [lia |]. split; [lia |].
  split; eexists; (split; [reflexivity |]); vm_compute; reflexivity.
Qed.

(** C8 (as amended): [get_navigation_suggestion] computes its answer from
    the loaded state alone.  When the current stage has unresolved
    abnormalities it returns one suggestion of type [abnormality] for each
    of them, in order, and nothing else, whatever the progress value; when
    it has none, its progress is 100 or more and the stage has no
    successor, it returns the empty list.  Both engines agree. *)
Theorem navigation_suggestions_by_priority :
  (forall st : StateEngine.state,
      let abns := StateEngine.unresolved_for (StateEngine.current_stage st)
                    (StateEngine.abnormalities st) in
      (abns <> [] ->
       exists l,
         StateEngine.get_navigation_suggestion st = Ok l /\
         l = map StateEngine.abnormality_suggestion abns /\
         length l = length abns /\
         Forall (fun s => StateEngine.type s = "abnormality") l) /\
      (abns = [] ->
       100 <= default 0 (StateEngine.progress st
                         !! StateEngine.current_stage st) ->
       forall d,
         StateEngine.definition_of StateEngine.stage_definitions
           (StateEngine.current_stage st) = Some d ->
         truthy (StateEngine.next_stage d) = None ->
         StateEngine.get_navigation_suggestion st = Ok [])) /\
  (forall st : StateEngineEnhanced.state,
      let abns := StateEngineEnhanced.unresolved_for
                    (StateEngineEnhanced.current_stage st)
                    (StateEngineEnhanced.abnormalities st) in
      (abns <> [] ->
       exists l,
         StateEngineEnhanced.get_navigation_suggestion st = Ok l /\
         l = map StateEngineEnhanced.abnormality_suggestion abns /\
         length l = length abns /\
         Forall (fun s => StateEngineEnhanced.type s = "abnormality") l) /\
      (abns = [] ->
       100 <= default 0 (StateEngineEnhanced.progress st
                         !! StateEngineEnhanced.current_stage st) ->
       forall d,
         StateEngineEnhanced.definition_of
           StateEngineEnhanced.stage_definitions
           (StateEngineEnhanced.current_stage st) = Some d ->
         truthy (StateEngineEnhanced.next_stage d) = None ->
         StateEngineEnhanced.get_navigation_suggestion st = Ok [])).
Proof.
  split; intros st abns; split.
  - intros Hne. eexists. split; [by apply StateEngineProps.suggestions_abnormal |].
    split; [done |]. split; [apply length_map |].
    apply StateEngineProps.abnormality_suggestions_type.
  - intros Ha Hp d Hd Hn.
    by apply (StateEngineProps.suggestions_finished st d).
  - intros Hne. eexists.
    split; [by apply StateEngineEnhancedProps.suggestions_abnormal_enhanced |].
    split; [done |]. split; [apply length_map |].
    apply StateEngineEnhancedProps.abnormality_suggestions_type_enhanced.
  - intros Ha Hp d Hd Hn.
    by apply (StateEngineEnhancedProps.suggestions_finished_enhanced st d).
Qed.

Lemma navigation_suggestions_by_priority_witness :
  (exists l,
      StateEngine.get_navigation_suggestion Samples.abnormal_state = Ok l /\
      length l = 2%nat /\
      Forall (fun s => StateEngine.type s = "abnormality") l) /\
  StateEngine.get_navigation_suggestion
    (StateEngine.set_current_stage "S8"
       (StateEngine.set_progress "S8" 100 Samples.engine_state)) = Ok [].
Proof.
  split.
  - destruct (proj1 (proj1 navigation_suggestions_by_priority
                       Samples.abnormal_state))
      as (l & Hl & _ & Hlen & Hty); [vm_compute; discriminate |].
    exists l. split; [exact Hl |]. split; [| exact Hty].
    rewrite Hlen. vm_compute. reflexivity.
  - apply (proj2 (proj1 navigation_suggestions_by_priority
                    (StateEngine.set_current_stage "S8"
                       (StateEngine.set_progress "S8" 100
                          Samples.engine_state)))
             eq_refl) with (d := {| StateEngine.name := "进度汇总";
                                    StateEngine.next_stage := None |}).
    + vm_compute. discriminate.
    + reflexivity.
    + reflexivity.
Defined.

(** C8, counterexample: with two unresolved abnormalities on the current
    stage the list has two suggestions, not exactly one; and that stage has
    progress 100 and no successor, yet the list is not empty. *)
Lemma navigation_suggestions_not_single :
  StateEngine.progress Samples.abnormal_state !! "S8" = Some 100 /\
  (exists d,
      StateEngine.definition_of StateEngine.stage_definitions "S8" = Some d /\
      StateEngine.next_stage d = None) /\
  exists l,
    StateEngine.get_navigation_suggestion Samples.abnormal_state = Ok l /\
    length l = 2%nat.
Proof.
  split; [vm_compute; reflexivity |].
  split; [eexists; split; reflexivity |].
  eexists. split; [vm_compute; reflexivity | reflexivity].
Qed.

(** C10: for every stage that has a progress entry and every value below
    100, [update_stage_progress] of either engine succeeds, whatever the
    current stage, the statuses of the other stages and the file system: it
    makes the stage the current stage, sets it [in_progress] with the given
    progress, and leaves the status and progress of every other stage as
    they were.  No dependency is looked at on this path. *)
Theorem progress_update_retargets_current_stage :
  (forall (now stage_id : string) (p : Z) (ids : option (list string))
          (st : StateEngine.state),
      is_Some (StateEngine.progress st !! stage_id) -> p < 100 ->
      exists st',
        StateEngine.update_stage_progress now stage_id p ids st = Ok st' /\
        StateEngine.current_stage st' = stage_id /\
        StateEngine.stage_status st'
        = <[stage_id := "in_progress"]> (StateEngine.stage_status st) /\
        StateEngine.progress st'
        = <[stage_id := p]> (StateEngine.progress st)) /\
  (forall (fs : StateEngineEnhanced.filesystem) (now stage_id : string)
          (p : Z) (ids : option (list string))
          (st : StateEngineEnhanced.state),
      is_Some (StateEngineEnhanced.progress st !! stage_id) -> p < 100 ->
      exists st',
        StateEngineEnhanced.update_stage_progress fs now stage_id p ids st
        = Ok st' /\
        StateEngineEnhanced.current_stage st' = stage_id /\
        StateEngineEnhanced.stage_status st'
        = <[stage_id := "in_progress"]> (StateEngineEnhanced.stage_status st)
        /\ StateEngineEnhanced.progress st'
           = <[stage_id := p]> (StateEngineEnhanced.progress st)).
Proof.
  split.
  - apply StateEngineProps.update_below_100.
  - apply StateEngineEnhancedProps.update_below_100_enhanced.
Qed.

(** The witness starts from the initial state of the enhanced engine: S1
    is current, S5 depends on S4, which is not started, and
    [check_dependencies] answers [False] for S5. *)
Lemma progress_update_retargets_current_stage_witness :
  StateEngineEnhanced.current_stage (StateEngineEnhanced.initialize_state "t0")
  = "S1" /\
  StateEngineEnhanced.check_dependencies
    (StateEngineEnhanced.initialize_state "t0") "S5" = Ok false /\
  exists st',
    StateEngineEnhanced.update_stage_progress Samples.no_outputs "t1" "S5" 30
      None (StateEngineEnhanced.initialize_state "t0") = Ok st' /\
    StateEngineEnhanced.current_stage st' = "S5" /\
    StateEngineEnhanced.stage_status st' !! "S5" = Some "in_progress".
Proof.
  split; [reflexivity |]. split; [vm_compute; reflexivity |].
  destruct (proj2 progress_update_retargets_current_stage Samples.no_outputs
              "t1" "S5" 30 None (StateEngineEnhanced.initialize_state "t0"))
    as (st' & Hu & Hc & Hs & _).
  - eexists. vm_compute. reflexivity.
  - lia.
  - exists st'. split; [exact Hu |]. split; [exact Hc |].
    rewrite Hs. apply lookup_insert_eq.
Defined.

End EngineProps.

(** ** aceflow-stage.py: further properties of the commands *)

Module StageScriptMoreProps.
Import StageScript StageScriptSessions.

Lemma get_stage_order_NoDup (m : string) : NoDup (get_stage_order m).
Proof.
  unfold get_stage_order.
  repeat case_bool_decide;
    try (apply (bool_decide_unpack (NoDup _)); vm_compute; exact I).
Qed.

(** No stage of any mode is called [""] or ["initialized"]. *)
Lemma get_stage_order_names (m s : string) :
  s ∈ get_stage_order m -> s <> "" /\ s <> "initialized".
Proof.
  unfold get_stage_order.
  repeat case_bool_decide; intros Hs;
    repeat (apply elem_of_cons in Hs as [-> | Hs]; [done |]);
    by apply elem_of_nil in Hs.
Qed.

Lemma index_lookup_NoDup (l : list string) (i : nat) (x : string) :
  NoDup l -> l !! i = Some x -> index l x = Some i.
Proof.
  intros Hnd Hi.
  destruct (index_is_Some l x) as [j Hj];
    [apply list_elem_of_lookup; eauto |].
  destruct (index_Some_lookup _ _ _ Hj) as [Hlj _].
  by rewrite (NoDup_lookup l i j x Hnd Hi Hlj).
Qed.

Lemma compute_next_lookup (l : list string) (i : nat) (x : string) :
  NoDup l -> l !! i = Some x -> compute_next l x = l !! S i.
Proof.
  intros Hnd Hi. unfold compute_next, successor_at.
  rewrite (index_lookup_NoDup _ _ _ Hnd Hi).
  replace (i + 1)%nat with (S i) by lia.
  case_bool_decide as Hlt; [done |].
  symmetry. apply lookup_ge_None. lia.
Qed.

(** A comprehension that does not raise kept the completed stages that
    come before the target, and every completed stage was in the order. *)
Lemma keep_before_Ok (order : list string) (ti : nat) :
  forall completed kept,
    keep_before order ti completed = Ok kept ->
    kept = filter (fun s => s ∈ take ti order) completed /\
    forall s, s ∈ completed -> s ∈ order.
Proof.
  induction completed as [|s rest IH]; simpl; intros kept H.
  - inversion H. split; [done |]. intros s Hs. by apply elem_of_nil in Hs.
  - destruct (index order s) as [i|] eqn:Hi; [| done].
    destruct (keep_before order ti rest) as [kept'|]; simpl in H; [| done].
    destruct (IH kept' eq_refl) as [-> Hin]. inversion H; subst; clear H.
    split.
    + rewrite filter_cons.
      pose proof (index_lt_take order s i ti Hi) as Hlt.
      case_bool_decide; case_decide; tauto.
    + intros x Hx. apply elem_of_cons in Hx as [-> | Hx]; [| by apply Hin].
      apply index_Some_lookup in Hi as [Hl _].
      apply list_elem_of_lookup. eauto.
Qed.

Lemma mark_in_progress_other (t stage s : string) (pr : progress_doc) :
  s <> stage -> stages (mark_in_progress t stage pr) !! s = stages pr !! s.
Proof.
  intros Hne. unfold mark_in_progress.
  destruct (stages pr !! stage); simpl; [by map_lookup | done].
Qed.

(** X1: [goto_stage] moves the current stage and nothing else of the flow: the
    completed list and the percentage are as before, the successor is the
    stage after the target, and the progress entries of all other stages
    are untouched. *)
Theorem goto_stage_keeps_history
    (t_stage t_save : string) (force confirm : bool) (target : string)
    (st st' : state) (pr pr' : progress_doc) :
  goto_stage t_stage t_save force confirm target st pr = Saved st' pr' ->
  target ∈ get_stage_order (mode (st_project st)) /\
  current_stage (st_flow st) <> target /\
  current_stage (st_flow st') = target /\
  next_stage_of (st_flow st')
  = compute_next (get_stage_order (mode (st_project st))) target /\
  completed_stages (st_flow st') = completed_stages (st_flow st) /\
  progress_percentage (st_flow st') = progress_percentage (st_flow st) /\
  (forall s, s <> target -> stages pr' !! s = stages pr !! s).
Proof.
  unfold goto_stage, mem.
  case_bool_decide as Hin; simpl; [| done].
  case_bool_decide as Hcur; [done |].
  destruct (negb force && negb confirm); [done |].
  intros H; inversion H; subst; clear H. simpl.
  repeat split; try done.
  intros s Hs. by apply mark_in_progress_other.
Qed.

Lemma goto_stage_keeps_history_witness :
  exists st' pr',
    goto_stage "t1" "t2" true false "validation"
      Samples.minimal_state Samples.minimal_progress = Saved st' pr' /\
    current_stage (st_flow st') = "validation" /\
    completed_stages (st_flow st') = ["analysis"; "planning"] /\
    progress_percentage (st_flow st') = 50.
Proof.
  assert (match goto_stage "t1" "t2" true false "validation"
                  Samples.minimal_state Samples.minimal_progress with
          | Saved _ _ => true
          | _ => false
          end = true) as Hsaved by (vm_compute; reflexivity).
  destruct (goto_stage "t1" "t2" true false "validation"
              Samples.minimal_state Samples.minimal_progress)
    as [st' pr'| | |] eqn:E; try discriminate Hsaved.
  destruct (goto_stage_keeps_history "t1" "t2" true false "validation"
              Samples.minimal_state st' Samples.minimal_progress pr' E)
    as (_ & _ & Hc & _ & Hl & Hp & _).
  exists st', pr'. split; [reflexivity |]. split; [exact Hc |].
  split; [rewrite Hl; reflexivity | rewrite Hp; reflexivity].
Defined.

(** X2: No command appends a stage that the completed list already has: a
    list without duplicates stays without duplicates under [next_stage],
    [goto_stage], [complete_stage] and [reset_stage]. *)
Theorem completed_stages_stay_distinct
    (t_stage t_save : string) (force confirm : bool) (stage : string)
    (st st' : state) (pr pr' : progress_doc) :
  NoDup (completed_stages (st_flow st)) ->
  next_stage t_stage t_save force confirm st pr = Saved st' pr' \/
  goto_stage t_stage t_save force confirm stage st pr = Saved st' pr' \/
  complete_stage t_stage t_save force confirm stage st pr = Saved st' pr' \/
  reset_stage t_save force confirm stage st pr = Saved st' pr' ->
  NoDup (completed_stages (st_flow st')).
Proof.
  intros Hnd [H | [H | [H | H]]].
  - unfold next_stage in H.
    destruct (truthy _) as [nxt|]; [| done].
    destruct (next_stage_confirmed _ _ _ _) as [[|]|]; try done.
    destruct (percentage _ _) as [pct|]; [| done].
    inversion H; subst; clear H. simpl. unfold mem.
    case_bool_decide; simpl; [| done].
    case_bool_decide as Hin; simpl; [done |].
    apply NoDup_app. split; [done |]. split; [| apply NoDup_singleton].
    intros x Hx Hx'. apply list_elem_of_singleton in Hx'. by subst.
  - apply goto_stage_keeps_history in H as (_ & _ & _ & _ & -> & _). done.
  - unfold complete_stage in H.
    destruct (stages pr !! stage); [| done].
    destruct (negb force && negb confirm); [done |].
    destruct (percentage _ _) as [pct|]; [| done].
    inversion H; subst; clear H. simpl. unfold mem.
    case_bool_decide as Hin; simpl; [done |].
    apply NoDup_app. split; [done |]. split; [| apply NoDup_singleton].
    intros x Hx Hx'. apply list_elem_of_singleton in Hx'. by subst.
  - unfold reset_stage in H.
    destruct (index _ stage) as [ti|]; [| done].
    destruct (negb force && negb confirm); [done |].
    destruct (keep_before _ _ _) as [kept|] eqn:Hk; [| done].
    destruct (percentage _ _) as [pct|]; [| done].
    inversion H; subst; clear H. simpl.
    apply keep_before_Ok in Hk as [-> _]. by apply NoDup_filter.
Qed.

Lemma completed_stages_stay_distinct_witness :
  exists st' pr',
    complete_stage "t1" "t2" true false "planning"
      Samples.minimal_state Samples.minimal_progress = Saved st' pr' /\
    NoDup (completed_stages (st_flow st')).
Proof.
  assert (match complete_stage "t1" "t2" true false "planning"
                  Samples.minimal_state Samples.minimal_progress with
          | Saved _ _ => true
          | _ => false
          end = true) as Hsaved by (vm_compute; reflexivity).
  destruct (complete_stage "t1" "t2" true false "planning"
              Samples.minimal_state Samples.minimal_progress)
    as [st' pr'| | |] eqn:E; try discriminate Hsaved.
  exists st', pr'. split; [reflexivity |].
  apply (completed_stages_stay_distinct "t1" "t2" true false "planning"
           Samples.minimal_state st' Samples.minimal_progress pr').
  - apply (bool_decide_unpack (NoDup _)). vm_compute. exact I.
  - right; right; left. exact E.
Defined.

(** X3: [next_stage] walks the stage order: from a state that sits on stage
    [i] of the order with stage [i+1] recorded as successor, a forced
    [next_stage] writes stage [i+1] as current stage and stage [i+2] (or
    nothing, at the end of the order) as successor, and the stage that was
    left is in the completed list. *)
Theorem next_stage_walks_order
    (t_stage t_save : string) (confirm : bool) (st : state)
    (pr : progress_doc) (i : nat) (cur nxt : string) :
  get_stage_order (mode (st_project st)) !! i = Some cur ->
  get_stage_order (mode (st_project st)) !! S i = Some nxt ->
  current_stage (st_flow st) = cur ->
  next_stage_of (st_flow st) = Some nxt ->
  (forall info, stages pr !! cur = Some info -> is_Some (info !! "status")) ->
  len (completed_stages (st_flow st)) + 1 < count_bound ->
  exists st' pr',
    next_stage t_stage t_save true confirm st pr = Saved st' pr' /\
    current_stage (st_flow st') = nxt /\
    next_stage_of (st_flow st')
    = get_stage_order (mode (st_project st)) !! S (S i) /\
    cur ∈ completed_stages (st_flow st') /\
    (forall s, s ∈ completed_stages (st_flow st) ->
               s ∈ completed_stages (st_flow st')).
Proof.
  intros Hcur Hnxt Hc Hn Hstatus Hlen.
  set (order := get_stage_order (mode (st_project st))) in *.
  assert (cur ∈ order) as Hcin by (apply list_elem_of_lookup; eauto).
  assert (nxt ∈ order) as Hnin by (apply list_elem_of_lookup; eauto).
  destruct (get_stage_order_names _ _ Hcin) as [_ Hinit].
  destruct (get_stage_order_names _ _ Hnin) as [Hne _].
  pose proof (get_stage_order_NoDup (mode (st_project st))) as Hnd.
  fold order in Hnd.
  unfold next_stage. rewrite Hn, Hc.
  assert (truthy (Some nxt) = Some nxt) as -> by (by destruct nxt).
  assert (next_stage_confirmed true confirm cur pr = Ok true) as ->.
  { unfold next_stage_confirmed. rewrite bool_decide_eq_true_2 by done.
    destruct (stages pr !! cur) as [info|] eqn:Hinfo; [| done].
    destruct (Hstatus info eq_refl) as [v ->]. by rewrite andb_false_r. }
  fold order. rewrite (bool_decide_eq_true_2 _ Hinit). simpl.
  set (completed := if negb (mem cur (completed_stages (st_flow st)))
                    then completed_stages (st_flow st) ++ [cur]
                    else completed_stages (st_flow st)).
  assert (percentage (len completed) (len order)
          = Ok (100 * len completed / len order)) as ->.
  { destruct (StageScriptProps.get_stage_order_len (mode (st_project st)))
      as [H0 | Hl].
    - apply lookup_lt_Some in Hcur. fold order in H0. unfold len in H0. lia.
    - apply percentage_floor; [done |]. unfold completed, len in *.
      destruct (negb _); [rewrite length_app; simpl |]; lia. }
  eexists _, _. split; [reflexivity |]. simpl.
  split; [done |]. split; [by apply compute_next_lookup |].
  unfold completed, mem. split.
  - case_bool_decide as Hin; simpl; [done |].
    apply elem_of_app. right. left.
  - intros s Hs. destruct (negb _); [| done]. apply elem_of_app. by left.
Qed.

Lemma next_stage_walks_order_witness :
  exists st' pr',
    next_stage "t1" "t2" true false Samples.minimal_state
      Samples.minimal_progress = Saved st' pr' /\
    current_stage (st_flow st') = "validation" /\
    next_stage_of (st_flow st') = None /\
    "implementation" ∈ completed_stages (st_flow st').
Proof.
  destruct (next_stage_walks_order "t1" "t2" false Samples.minimal_state
              Samples.minimal_progress 2%nat "implementation" "validation"
              eq_refl eq_refl eq_refl eq_refl)
    as (st' & pr' & Hr & Hc & Hn & Hin & _).
  - intros info Hinfo.
    assert (from_option (fun i => bool_decide (is_Some (i !! "status"))) false
              (stages Samples.minimal_progress !! "implementation") = true)
      as Hb by (vm_compute; reflexivity).
    rewrite Hinfo in Hb. cbn [from_option] in Hb.
    exact (bool_decide_eq_true_1 _ Hb).
  - vm_compute. reflexivity.
  - exists st', pr'. split; [exact Hr |]. split; [exact Hc |].
    split; [exact Hn | exact Hin].
Defined.

(** The percentage of a full completed list is 100. *)
Lemma percentage_full (m : string) :
  get_stage_order m <> [] ->
  percentage (len (get_stage_order m)) (len (get_stage_order m)) = Ok 100.
Proof.
  intros Hne. destruct (StageScriptProps.get_stage_order_len m) as [H0 | Hl].
  - destruct (get_stage_order m); [done | unfold len in H0; simpl in H0; lia].
  - rewrite percentage_floor; [| done | unfold count_bound; lia].
    f_equal. destruct Hl as [-> | [-> | ->]]; reflexivity.
Qed.

Lemma complete_stage_saved (t_stage t_save stage : string) (st : state)
    (pr : progress_doc) (info : gmap string jval) :
  stages pr !! stage = Some info ->
  stage ∉ completed_stages (st_flow st) ->
  len (completed_stages (st_flow st)) + 1 < count_bound ->
  get_stage_order (mode (st_project st)) <> [] ->
  exists st' pr',
    complete_stage t_stage t_save true false stage st pr = Saved st' pr' /\
    mode (st_project st') = mode (st_project st) /\
    completed_stages (st_flow st') = completed_stages (st_flow st) ++ [stage]
    /\ percentage (len (completed_stages (st_flow st')))
                  (len (get_stage_order (mode (st_project st))))
       = Ok (progress_percentage (st_flow st')) /\
    (exists info', stages pr' !! stage = Some info' /\
                   info' !! "status" = Some (JStr "completed") /\
                   info' !! "progress" = Some (JInt 100)) /\
    (forall s, s <> stage -> stages pr' !! s = stages pr !! s).
Proof.
  intros Hinfo Hnin Hlen Hne. unfold complete_stage. rewrite Hinfo. simpl.
  unfold mem. rewrite (bool_decide_eq_false_2 _ Hnin). simpl.
  set (order := get_stage_order (mode (st_project st))) in *.
  assert (percentage (len (completed_stages (st_flow st) ++ [stage]))
            (len order)
          = Ok (100 * len (completed_stages (st_flow st) ++ [stage])
                / len order)) as Hp.
  { destruct (StageScriptProps.get_stage_order_len (mode (st_project st)))
      as [H0 | Hl].
    - fold order in H0. destruct order; [done |].
      unfold len in H0; simpl in H0; lia.
    - apply percentage_floor; [done |]. unfold len in *.
      rewrite length_app. simpl. lia. }
  rewrite Hp. eexists _, _. split; [reflexivity |]. simpl.
  repeat split; try done.
  - eexists. split; [by map_lookup |]. split; by map_lookup.
  - intros s Hs. by map_lookup.
Qed.

Lemma complete_in_turn_from (t_stage t_save : string) (order : list string) :
  forall (rest finished : list string) (st : state) (pr : progress_doc),
    get_stage_order (mode (st_project st)) = order ->
    finished ++ rest = order ->
    completed_stages (st_flow st) = finished ->
    (forall s, s ∈ rest -> is_Some (stages pr !! s)) ->
    exists st' pr',
      complete_in_turn t_stage t_save rest st pr = Some (st', pr') /\
      mode (st_project st') = mode (st_project st) /\
      completed_stages (st_flow st') = order /\
      (rest <> [] -> progress_percentage (st_flow st') = 100) /\
      (forall s, s ∈ rest ->
                 exists info, stages pr' !! s = Some info /\
                              info !! "status" = Some (JStr "completed") /\
                              info !! "progress" = Some (JInt 100)) /\
      (forall s, s ∉ rest -> stages pr' !! s = stages pr !! s).
Proof.
  induction rest as [|stage rest IH];
    intros finished st pr Hmode Happ Hdone Hin.
  - simpl. eexists _, _. split; [reflexivity |].
    rewrite app_nil_r in Happ. repeat split; try done; [congruence |].
    intros s Hs. by apply elem_of_nil in Hs.
  - pose proof (get_stage_order_NoDup (mode (st_project st))) as Hnd.
    rewrite Hmode, <- Happ in Hnd.
    apply NoDup_app in Hnd as (Hnd1 & Hdisj & Hnd2).
    apply NoDup_cons in Hnd2 as [Hnotrest Hnd2].
    destruct (Hin stage) as [info Hinfo]; [left |].
    destruct (complete_stage_saved t_stage t_save stage st pr info Hinfo)
      as (st1 & pr1 & Hc & Hm1 & Hl1 & Hp1 & (info1 & Hi1 & Hs1 & Hpr1) & Hf1).
    + rewrite Hdone. intros Hd. by apply (Hdisj stage Hd); left.
    + assert (length (completed_stages (st_flow st)) < length order)%nat.
      { rewrite Hdone, <- Happ, length_app. simpl. lia. }
      destruct (StageScriptProps.get_stage_order_len (mode (st_project st)))
        as [H0 | Hl];
        rewrite Hmode in *; unfold len, count_bound in *; lia.
    + rewrite Hmode, <- Happ. by destruct finished.
    + simpl. rewrite Hc.
      destruct (IH (finished ++ [stage]) st1 pr1) as
        (st' & pr' & Hr & Hm & Hl & Hp & Hs & Hf).
      * by rewrite Hm1.
      * by rewrite <- app_assoc.
      * by rewrite Hl1, Hdone.
      * intros s Hsr. rewrite Hf1; [apply Hin; by right |].
        intros ->. done.
      * exists st', pr'. split; [done |]. split; [congruence |].
        split; [done |]. split; [| split].
        -- intros _. destruct rest as [|r rest'].
           ++ simpl in Hr. injection Hr as <- <-.
              rewrite Hl1, Hdone, Happ, <- Hmode, percentage_full in Hp1
                by (rewrite Hmode, <- Happ; by destruct finished).
              by inversion Hp1.
           ++ by apply Hp.
        -- intros s Hsr. apply elem_of_cons in Hsr as [-> | Hsr];
             [| by apply Hs].
           exists info1. by rewrite (Hf stage Hnotrest).
        -- intros s Hsr. rewrite Hf, Hf1; [done | |].
           ++ intros ->. apply Hsr. left.
           ++ intros Hr'. apply Hsr. by right.
Qed.

(** X4: Completing every stage of the mode, in the mode's order, from a state
    with an empty completed list: every command writes, and at the end the
    completed list is the stage order, the percentage is 100 and every
    stage has status [completed] with progress 100. *)
Theorem complete_every_stage
    (t_stage t_save : string) (st : state) (pr : progress_doc) :
  get_stage_order (mode (st_project st)) <> [] ->
  completed_stages (st_flow st) = [] ->
  (forall s, s ∈ get_stage_order (mode (st_project st)) ->
             is_Some (stages pr !! s)) ->
  exists st' pr',
    complete_in_turn t_stage t_save (get_stage_order (mode (st_project st)))
      st pr = Some (st', pr') /\
    completed_stages (st_flow st') = get_stage_order (mode (st_project st)) /\
    progress_percentage (st_flow st') = 100 /\
    (forall s, s ∈ get_stage_order (mode (st_project st)) ->
               exists info, stages pr' !! s = Some info /\
                            info !! "status" = Some (JStr "completed") /\
                            info !! "progress" = Some (JInt 100)).
Proof.
  intros Hne Hempty Hin.
  destruct (complete_in_turn_from t_stage t_save
              (get_stage_order (mode (st_project st)))
              (get_stage_order (mode (st_project st))) [] st pr)
    as (st' & pr' & Hr & _ & Hl & Hp & Hs & _); try done.
  exists st', pr'. split; [done |]. split; [done |]. split; [by apply Hp |].
  done.
Qed.

Lemma complete_every_stage_witness :
  exists st' pr',
    complete_in_turn "t1" "t2"
      ["analysis"; "planning"; "implementation"; "validation"]
      (save_current_state "t0"
         {| st_project := st_project Samples.minimal_state;
            st_flow := {| current_stage := "analysis";
                          next_stage_of := Some "planning";
                          completed_stages := [];
                          progress_percentage := 0 |} |})
      Samples.minimal_progress = Some (st', pr') /\
    progress_percentage (st_flow st') = 100.
Proof.
  destruct (complete_every_stage "t1" "t2"
              (save_current_state "t0"
                 {| st_project := st_project Samples.minimal_state;
                    st_flow := {| current_stage := "analysis";
                                  next_stage_of := Some "planning";
                                  completed_stages := [];
                                  progress_percentage := 0 |} |})
              Samples.minimal_progress)
    as (st' & pr' & Hr & _ & Hp & _).
  - vm_compute. discriminate.
  - reflexivity.
  - apply Forall_forall. apply (bool_decide_unpack (Forall _ _)).
    vm_compute. exact I.
  - exists st', pr'. split; [exact Hr | exact Hp].
Defined.

(** X5: In a mode the script does not know the stage order is empty, and no
    command writes: [goto_stage] and [reset_stage] return [False],
    [next_stage] and [complete_stage] stop at the division by the number
    of stages (or earlier). *)
Theorem unknown_mode_never_writes
    (t_stage t_save : string) (force confirm : bool) (stage : string)
    (st : state) (pr : progress_doc) :
  get_stage_order (mode (st_project st)) = [] ->
  (forall st' pr',
      next_stage t_stage t_save force confirm st pr <> Saved st' pr' /\
      goto_stage t_stage t_save force confirm stage st pr <> Saved st' pr' /\
      complete_stage t_stage t_save force confirm stage st pr
      <> Saved st' pr' /\
      reset_stage t_save force confirm stage st pr <> Saved st' pr') /\
  goto_stage t_stage t_save force confirm stage st pr = Failed /\
  reset_stage t_save force confirm stage st pr = Failed /\
  (is_Some (stages pr !! stage) -> force || confirm = true ->
   complete_stage t_stage t_save force confirm stage st pr
   = Raised ZeroDivisionError).
Proof.
  intros Hempty.
  assert (goto_stage t_stage t_save force confirm stage st pr = Failed) as Hg.
  { unfold goto_stage, mem. rewrite Hempty.
    rewrite bool_decide_eq_false_2; [done | apply not_elem_of_nil]. }
  assert (reset_stage t_save force confirm stage st pr = Failed) as Hr
    by (unfold reset_stage; by rewrite Hempty).
  assert (forall c, percentage c (len (get_stage_order (mode (st_project st))))
                    = Raise ZeroDivisionError) as Hp
    by (intros c; by rewrite Hempty).
  split; [| split; [done | split; [done |]]].
  - intros st' pr'. rewrite Hg, Hr. repeat split; try done.
    + unfold next_stage. destruct (truthy _); [| done].
      destruct (next_stage_confirmed _ _ _ _) as [[|]|]; try done.
      by rewrite Hp.
    + unfold complete_stage. destruct (stages pr !! stage); [| done].
      destruct (negb force && negb confirm); [done |]. by rewrite Hp.
  - intros [info Hinfo] Hfc. unfold complete_stage. rewrite Hinfo.
    assert (negb force && negb confirm = false) as ->
      by (by destruct force, confirm).
    by rewrite Hp.
Qed.

Lemma unknown_mode_never_writes_witness :
  complete_stage "t1" "t2" true false "planning"
    {| st_project := {| name := "demo"; mode := "agile";
                        last_updated := "t0" |};
       st_flow := st_flow Samples.minimal_state |}
    Samples.minimal_progress = Raised ZeroDivisionError.
Proof.
  apply (unknown_mode_never_writes "t1" "t2" true false "planning"
           {| st_project := {| name := "demo"; mode := "agile";
                               last_updated := "t0" |};
              st_flow := st_flow Samples.minimal_state |}
           Samples.minimal_progress eq_refl).
  - apply (bool_decide_unpack (is_Some _)). vm_compute. exact I.
  - reflexivity.
Defined.

(** X6: [complete_stage] asks only that the stage has a progress entry.  Once
    it has completed a stage that is not in the mode's order, every
    confirmed [reset_stage] to a stage of the mode raises [ValueError]
    (from [stage_order.index]) and writes nothing. *)
Theorem completed_foreign_stage_blocks_reset
    (t1 t2 t3 : string) (force confirm force' confirm' : bool)
    (stage target : string) (st st1 : state) (pr pr1 : progress_doc) :
  stage ∉ get_stage_order (mode (st_project st)) ->
  complete_stage t1 t2 force confirm stage st pr = Saved st1 pr1 ->
  target ∈ get_stage_order (mode (st_project st)) ->
  force' || confirm' = true ->
  exists msg,
    reset_stage t3 force' confirm' target st1 pr1 = Raised (ValueError msg).
Proof.
  intros Hnot Hc Htarget Hfc.
  assert (mode (st_project st1) = mode (st_project st) /\
          stage ∈ completed_stages (st_flow st1)) as [Hm Hin].
  { unfold complete_stage in Hc.
    destruct (stages pr !! stage); [| done].
    destruct (negb force && negb confirm); [done |].
    destruct (percentage _ _); [| done].
    inversion Hc; subst; clear Hc. simpl. split; [done |]. unfold mem.
    case_bool_decide as Hs; simpl; [done |]. apply elem_of_app. right. left. }
  unfold reset_stage. rewrite Hm.
  destruct (index_is_Some _ _ Htarget) as [ti ->].
  assert (negb force' && negb confirm' = false) as ->
    by (by destruct force', confirm').
  assert (forall l, stage ∈ l ->
            exists msg,
              keep_before (get_stage_order (mode (st_project st))) ti l
              = Raise (ValueError msg)) as Hraise.
  { induction l as [|s l IH]; intros Hl; [by apply elem_of_nil in Hl |].
    simpl. destruct (index _ s) as [i|] eqn:Hi; [| by eexists].
    apply elem_of_cons in Hl as [-> | Hl].
    - exfalso. apply Hnot. apply index_Some_lookup in Hi as [Hl _].
      apply list_elem_of_lookup. eauto.
    - destruct (IH Hl) as [msg ->]. by eexists. }
  destruct (Hraise _ Hin) as [msg ->]. by eexists.
Qed.

Lemma completed_foreign_stage_blocks_reset_witness :
  exists msg,
    reset_stage "t3" true false "analysis"
      (save_current_state "t2"
         {| st_project := st_project Samples.minimal_state;
            st_flow := {| current_stage := "implementation";
                          next_stage_of := Some "validation";
                          completed_stages :=
                            ["analysis"; "planning"; "review"];
                          progress_percentage := 75 |} |})
      {| stages :=
           <["review" := <["last_updated" := JStr "t1"]>
                           (<["progress" := JInt 100]>
                              (<["status" := JStr "completed"]> ∅))]>
             (<["review" := ∅]> (stages Samples.minimal_progress)) |}
    = Raised (ValueError msg).
Proof.
  apply (completed_foreign_stage_blocks_reset "t1" "t2" "t3" true false true
           false "review" "analysis" Samples.minimal_state _
           {| stages := <["review" := ∅]> (stages Samples.minimal_progress) |}).
  - vm_compute. intros H.
    repeat (apply elem_of_cons in H as [H | H]; [discriminate |]).
    by apply elem_of_nil in H.
  - vm_compute. reflexivity.
  - left.
  - reflexivity.
Defined.

End StageScriptMoreProps.

(** ** state_engine.py: errors, memory ids, abnormalities, a full run *)

Module StateEngineMoreProps.
Import StateEngine StateEngineLog.

#[local] Arguments definition_of : simpl never.

(** X7: The ways [update_stage_progress] ends: [ValueError] exactly for a
    stage id without progress entry, [KeyError] exactly for a progress of
    100 or more on a stage that has an entry but no definition, and a
    written state in every other case. *)
Theorem update_stage_progress_outcomes
    (now stage_id : string) (p : Z) (ids : option (list string))
    (st : state) :
  ((exists msg,
       update_stage_progress now stage_id p ids st = Raise (ValueError msg))
   <-> progress st !! stage_id = None) /\
  (update_stage_progress now stage_id p ids st = Raise (KeyError stage_id)
   <-> is_Some (progress st !! stage_id) /\ 100 <= p /\
       definition_of stage_definitions stage_id = None) /\
  ((exists st', update_stage_progress now stage_id p ids st = Ok st')
   <-> is_Some (progress st !! stage_id) /\
       (p < 100 \/ is_Some (definition_of stage_definitions stage_id))).
Proof.
  unfold update_stage_progress, update_status.
  destruct (progress st !! stage_id) as [p0|] eqn:Hp.
  - destruct (100 <=? p) eqn:Hge.
    + apply Z.leb_le in Hge.
      destruct (definition_of stage_definitions stage_id) as [d|] eqn:Hd.
      * destruct (truthy (next_stage d)); simpl.
        -- split; [split; [by intros [? ?] | done] |].
           split; [split; [done | by intros (_ & _ & ?)] |].
           split; [intros _; split; [by eexists | right; by eexists] |].
           intros _. by eexists.
        -- split; [split; [by intros [? ?] | done] |].
           split; [split; [done | by intros (_ & _ & ?)] |].
           split; [intros _; split; [by eexists | right; by eexists] |].
           intros _. by eexists.
      * simpl. split; [split; [by intros [? ?] | done] |].
        split; [split; [intros _; split; [by eexists | done] | done] |].
        split; [by intros [? ?] |].
        intros (_ & [Hlt | [? ?]]); [lia | done].
    + apply Z.leb_gt in Hge. simpl.
      split; [split; [by intros [? ?] | done] |].
      split; [split; [done | intros (_ & ? & _); lia] |].
      split; [intros _; split; [by eexists | by left] |].
      intros _. by eexists.
  - split; [split; [done | intros _; by eexists] |].
    split; [split; [done | by intros ([? ?] & _)] |].
    split; [by intros [? ?] | by intros ([? ?] & _)].
Qed.

(** *** memory ids *)

Lemma add_memory_ids_prefix (ids : option (list string)) :
  forall recorded, exists added,
    add_memory_ids ids recorded = recorded ++ added.
Proof.
  destruct ids as [l|]; [| intros; exists []; by rewrite app_nil_r].
  unfold add_memory_ids. induction l as [|x l IH]; intros recorded; simpl.
  - exists []. by rewrite app_nil_r.
  - destruct (mem x recorded); [apply IH |].
    destruct (IH (recorded ++ [x])) as [added ->].
    exists (x :: added). by rewrite <- app_assoc.
Qed.

Lemma add_memory_ids_NoDup (ids : option (list string)) :
  forall recorded, NoDup recorded -> NoDup (add_memory_ids ids recorded).
Proof.
  destruct ids as [l|]; [| done].
  unfold add_memory_ids. induction l as [|x l IH]; intros recorded Hnd;
    simpl; [done |].
  unfold mem. case_bool_decide as Hin; apply IH; [done |].
  apply NoDup_app. split; [done |]. split; [| apply NoDup_singleton].
  intros y Hy Hy'. apply list_elem_of_singleton in Hy'. by subst.
Qed.

(** X8: An update keeps the memory ids that were recorded, in their order,
    appends the new ones that were missing, never stores an id twice, and
    does not touch the list of abnormalities. *)
Theorem update_stage_progress_memory_ids
    (now stage_id : string) (p : Z) (ids : option (list string))
    (st st' : state) :
  update_stage_progress now stage_id p ids st = Ok st' ->
  (exists added, memory_ids st' = memory_ids st ++ added) /\
  (forall new_ids x, ids = Some new_ids -> x ∈ new_ids ->
                     x ∈ memory_ids st') /\
  (NoDup (memory_ids st) -> NoDup (memory_ids st')) /\
  abnormalities st' = abnormalities st.
Proof.
  unfold update_stage_progress.
  destruct (progress st !! stage_id); [| done].
  destruct (update_status _ _ _) as [st1|] eqn:Hu; simpl; [| done].
  assert (memory_ids st1 = memory_ids st /\
          abnormalities st1 = abnormalities st) as [Hm Ha].
  { unfold update_status in Hu. destruct (100 <=? p).
    - destruct (definition_of _ _); [| done].
      destruct (truthy _); inversion Hu; by subst.
    - inversion Hu; by subst. }
  intros H; inversion H; subst; clear H. simpl. rewrite Hm, Ha.
  split; [apply add_memory_ids_prefix |].
  split; [| split; [apply add_memory_ids_NoDup | done]].
  intros new_ids x -> Hx. by apply StateEngineProps.add_memory_ids_all.
Qed.

Lemma update_stage_progress_memory_ids_witness :
  exists st',
    update_stage_progress "t1" "S3" 60 (Some ["m1"; "m2"; "m1"])
      (set_memory_ids ["m2"] Samples.engine_state) = Ok st' /\
    NoDup (memory_ids st') /\ "m1" ∈ memory_ids st'.
Proof.
  eexists. split; [reflexivity |].
  destruct (update_stage_progress_memory_ids "t1" "S3" 60
              (Some ["m1"; "m2"; "m1"])
              (set_memory_ids ["m2"] Samples.engine_state) _ eq_refl)
    as (_ & Hall & Hnd & _).
  split.
  - apply Hnd. simpl. apply NoDup_singleton.
  - apply (Hall ["m1"; "m2"; "m1"]); [reflexivity | left].
Defined.

(** *** abnormalities *)

Lemma resolve_first_spec (resolved_at abnormality_id : string) :
  forall l,
    match resolve_first resolved_at abnormality_id l with
    | Some l' =>
        exists pre abn post,
          l = pre ++ abn :: post /\
          (forall x, x ∈ pre -> abn_id x <> abnormality_id) /\
          abn_id abn = abnormality_id /\
          l' = pre ++ resolved resolved_at abn :: post
    | None => forall x, x ∈ l -> abn_id x <> abnormality_id
    end.
Proof.
  induction l as [|a l IH]; simpl.
  - intros x Hx. by apply elem_of_nil in Hx.
  - case_bool_decide as Ha.
    + exists [], a, l. repeat split; try done.
      intros x Hx. by apply elem_of_nil in Hx.
    + destruct (resolve_first resolved_at abnormality_id l) as [l'|]; simpl.
      * destruct IH as (pre & abn & post & -> & Hpre & Hid & ->).
        exists (a :: pre), abn, post. repeat split; try done.
        intros x Hx. apply elem_of_cons in Hx as [-> | Hx]; [done |].
        by apply Hpre.
      * intros x Hx. apply elem_of_cons in Hx as [-> | Hx]; [done |].
        by apply IH.
Qed.

Lemma resolve_first_fresh (resolved_at abnormality_id : string)
    (abn : abnormality) (post : list abnormality) :
  forall l,
    (forall x, x ∈ l -> abn_id x <> abnormality_id) ->
    abn_id abn = abnormality_id ->
    resolve_first resolved_at abnormality_id (l ++ abn :: post)
    = Some (l ++ resolved resolved_at abn :: post).
Proof.
  induction l as [|x l IH]; intros Hl Ha; simpl.
  - by rewrite bool_decide_eq_true_2.
  - rewrite bool_decide_eq_false_2 by (apply Hl; left).
    rewrite IH; [done | | done]. intros y Hy. apply Hl. by right.
Qed.

(** X9: [resolve_abnormality] marks the first entry that has the id, and only
    that one: the entries before it do not have the id, the entries after
    it are left as they were even when they have the same id, and the rest
    of the state is unchanged.  It returns [False] and writes nothing
    exactly when no entry has the id. *)
Theorem resolve_abnormality_first_match
    (resolved_at now abnormality_id : string) (st : state) :
  match resolve_abnormality resolved_at now abnormality_id st with
  | Some st' =>
      exists pre abn post,
        abnormalities st = pre ++ abn :: post /\
        (forall x, x ∈ pre -> abn_id x <> abnormality_id) /\
        abn_id abn = abnormality_id /\
        abnormalities st' = pre ++ resolved resolved_at abn :: post /\
        current_stage st' = current_stage st /\
        stage_status st' = stage_status st /\
        progress st' = progress st /\
        memory_ids st' = memory_ids st
  | None => forall x, x ∈ abnormalities st -> abn_id x <> abnormality_id
  end.
Proof.
  unfold resolve_abnormality.
  pose proof (resolve_first_spec resolved_at abnormality_id
                (abnormalities st)) as H.
  destruct (resolve_first _ _ _) as [l'|]; [| done].
  destruct H as (pre & abn & post & H1 & H2 & H3 & H4).
  exists pre, abn, post. by repeat split.
Qed.

(** X10: Two abnormalities recorded within the same second get the same id.
    Resolving by that id, any number of times, only ever reaches the first
    one: the second stays unresolved. *)
Theorem duplicate_abnormality_id_stays_unresolved
    (stamp d1 d2 n1 n2 r now : string) (stage_id i1 i2 s1 s2 : string)
    (st : state) (k : nat) :
  let st2 := fst (record_abnormality stamp d2 n2 stage_id i2 s2
                    (fst (record_abnormality stamp d1 n1 stage_id i1 s1 st)))
  in
  (forall x, x ∈ abnormalities st -> abn_id x <> String.append "ABN-" stamp) ->
  exists st',
    Nat.iter (S k)
      (fun o => o ≫= resolve_abnormality r now (String.append "ABN-" stamp))
      (Some st2) = Some st' /\
    snd (record_abnormality stamp d2 n2 stage_id i2 s2
           (fst (record_abnormality stamp d1 n1 stage_id i1 s1 st)))
    ∈ unresolved_for stage_id (abnormalities st').
Proof.
  intros st2 Hfresh.
  set (id := String.append "ABN-" stamp).
  set (a1 := snd (record_abnormality stamp d1 n1 stage_id i1 s1 st)).
  set (a2 := snd (record_abnormality stamp d2 n2 stage_id i2 s2
                    (fst (record_abnormality stamp d1 n1 stage_id i1 s1 st)))).
  assert (forall j (s : state) a,
            abnormalities s = abnormalities st ++ [a; a2] -> abn_id a = id ->
            exists s',
              Nat.iter j (fun o => o ≫= resolve_abnormality r now id) (Some s)
              = Some s' /\
              exists a', abnormalities s' = abnormalities st ++ [a'; a2]
                         /\ abn_id a' = id) as Hiter.
  { induction j as [|j IH]; intros s a Hs Ha; simpl.
    - exists s. split; [done |]. by exists a.
    - destruct (IH s a Hs Ha) as (s' & -> & a' & Hs' & Ha'). simpl.
      unfold resolve_abnormality.
      rewrite Hs', (resolve_first_fresh r id a' [a2] _ Hfresh Ha').
      eexists. split; [reflexivity |]. simpl. by exists (resolved r a'). }
  destruct (Hiter (S k) st2 a1) as (s' & Hs' & a' & Hl & _).
  - unfold st2. simpl. by rewrite <- app_assoc.
  - done.
  - exists s'. split; [exact Hs' |]. rewrite Hl. unfold unresolved_for.
    apply list_elem_of_filter. split; [done |].
    apply elem_of_app. right. right. left.
Qed.

Lemma duplicate_abnormality_id_stays_unresolved_witness :
  exists st',
    resolve_abnormality "t5" "t6" "ABN-20240101120000"
      (fst (record_abnormality "20240101120000" "t3" "t4" "S3" "second" "low"
              (fst (record_abnormality "20240101120000" "t1" "t2" "S3"
                      "first" "high" Samples.engine_state)))) = Some st' /\
    length (unresolved_for "S3" (abnormalities st')) = 1%nat.
Proof.
  destruct (duplicate_abnormality_id_stays_unresolved "20240101120000"
              "t1" "t3" "t2" "t4" "t5" "t6" "S3" "first" "second" "high" "low"
              Samples.engine_state 0%nat) as (st' & Hr & _).
  - intros x Hx. by apply elem_of_nil in Hx.
  - exists st'. split; [exact Hr |].
    simpl in Hr. injection Hr as <-. reflexivity.
Defined.

(** X11: Recording an abnormality under an id that is not in the log and
    resolving it again leaves the unresolved abnormalities of every stage,
    and with them the navigation suggestions, as they were before; in
    between, when it was recorded for the current stage, the suggestions
    are the abnormality suggestions only, the new one last. *)
Theorem record_then_resolve_abnormality
    (stamp detected_at now1 resolved_at now2 : string)
    (stage_id issue severity : string) (st : state) :
  (forall x, x ∈ abnormalities st -> abn_id x <> String.append "ABN-" stamp) ->
  let st1 := fst (record_abnormality stamp detected_at now1 stage_id issue
                    severity st) in
  let abn := snd (record_abnormality stamp detected_at now1 stage_id issue
                    severity st) in
  (stage_id = current_stage st ->
   get_navigation_suggestion st1
   = Ok (map abnormality_suggestion
           (unresolved_for stage_id (abnormalities st)
            ++ [abn]))) /\
  exists st2,
    resolve_abnormality resolved_at now2 (abn_id abn) st1 = Some st2 /\
    (forall s, unresolved_for s (abnormalities st2)
               = unresolved_for s (abnormalities st)) /\
    get_navigation_suggestion st2 = get_navigation_suggestion st.
Proof.
  intros Hfresh st1 abn. split.
  - intros ->. unfold get_navigation_suggestion. simpl.
    unfold unresolved_for. rewrite filter_app. simpl.
    rewrite filter_cons, decide_True by done. rewrite filter_nil.
    by destruct (filter _ (abnormalities st)).
  - unfold resolve_abnormality.
    assert (abnormalities st1 = abnormalities st ++ [abn]) as -> by done.
    rewrite (resolve_first_fresh resolved_at (abn_id abn) abn [] _ Hfresh
               eq_refl).
    eexists. split; [reflexivity |].
    assert (forall s,
              unresolved_for s (abnormalities st ++ [resolved resolved_at abn])
              = unresolved_for s (abnormalities st)) as Hu.
    { intros s. unfold unresolved_for. rewrite filter_app, filter_cons.
      rewrite decide_False by (simpl; intros [? _]; done).
      by rewrite filter_nil, app_nil_r. }
    split; [exact Hu |].
    unfold get_navigation_suggestion. simpl. by rewrite Hu.
Qed.

Lemma record_then_resolve_abnormality_witness :
  exists st2,
    resolve_abnormality "t3" "t4" "ABN-20240101120000"
      (fst (record_abnormality "20240101120000" "t1" "t2" "S3" "broken" "high"
              Samples.engine_state)) = Some st2 /\
    get_navigation_suggestion st2
    = get_navigation_suggestion Samples.engine_state.
Proof.
  destruct (record_then_resolve_abnormality "20240101120000" "t1" "t2" "t3"
              "t4" "S3" "broken" "high" Samples.engine_state)
    as (_ & st2 & Hr & _ & Hn).
  - intros x Hx. by apply elem_of_nil in Hx.
  - exists st2. split; [exact Hr | exact Hn].
Defined.

(** *** a full run *)

(** One completing update on a stage with a successor. *)
Lemma update_100_step (now stage_id nxt : string) (st : state)
    (d : stage_definition) :
  is_Some (progress st !! stage_id) ->
  definition_of stage_definitions stage_id = Some d ->
  truthy (next_stage d) = Some nxt ->
  exists st',
    update_stage_progress now stage_id 100 None st = Ok st' /\
    current_stage st' = nxt /\
    stage_status st'
    = <[nxt := "in_progress"]> (<[stage_id := "completed"]> (stage_status st))
    /\ progress st' = <[stage_id := 100]> (progress st) /\
    abnormalities st' = abnormalities st.
Proof.
  intros [p0 Hp] Hd Hn. unfold update_stage_progress, update_status.
  rewrite Hp. simpl. rewrite Hd, Hn. simpl.
  eexists. split; [reflexivity |]. done.
Qed.

(** The last completing update: no successor, the stage stays current. *)
Lemma update_100_last (now stage_id : string) (st : state)
    (d : stage_definition) :
  is_Some (progress st !! stage_id) ->
  definition_of stage_definitions stage_id = Some d ->
  truthy (next_stage d) = None ->
  exists st',
    update_stage_progress now stage_id 100 None st = Ok st' /\
    current_stage st' = stage_id /\
    stage_status st' = <[stage_id := "completed"]> (stage_status st) /\
    progress st' = <[stage_id := 100]> (progress st) /\
    abnormalities st' = abnormalities st.
Proof.
  intros [p0 Hp] Hd Hn. unfold update_stage_progress, update_status.
  rewrite Hp. simpl. rewrite Hd, Hn. simpl.
  eexists. split; [reflexivity |]. done.
Qed.

(** X12: Completing S1 to S8 in turn, from any state that has a progress entry
    for each of them: every update succeeds, all eight stages end with
    status [completed] and progress 100, S8 is the current stage, and
    unless an abnormality of S8 is unresolved there is nothing left to
    suggest. *)
Theorem complete_all_stages_in_turn (now : string) (st : state) :
  (forall s, s ∈ map fst stage_definitions -> is_Some (progress st !! s)) ->
  exists st',
    update_in_turn now (map fst stage_definitions) st = Ok st' /\
    current_stage st' = "S8" /\
    (forall s, s ∈ map fst stage_definitions ->
               stage_status st' !! s = Some "completed" /\
               progress st' !! s = Some 100) /\
    (unresolved_for "S8" (abnormalities st) = [] ->
     get_navigation_suggestion st' = Ok []).
Proof.
  intros Hin.
  assert (forall s, s ∈ ["S1"; "S2"; "S3"; "S4"; "S5"; "S6"; "S7"; "S8"] ->
                    is_Some (progress st !! s)) as Hin' by exact Hin.
  cbn [map fst stage_definitions update_in_turn].
  destruct (update_100_step now "S1" "S2" st _ ltac:(apply Hin'; set_solver)
              eq_refl eq_refl) as (s1 & -> & C1 & S1 & P1 & A1).
  cbn [bind].
  destruct (update_100_step now "S2" "S3" s1 _
              ltac:(rewrite P1; map_lookup; apply Hin'; set_solver)
              eq_refl eq_refl) as (s2 & -> & C2 & S2 & P2 & A2).
  cbn [bind].
  destruct (update_100_step now "S3" "S4" s2 _
              ltac:(rewrite P2, P1; map_lookup; apply Hin'; set_solver)
              eq_refl eq_refl) as (s3 & -> & C3 & S3 & P3 & A3).
  cbn [bind].
  destruct (update_100_step now "S4" "S5" s3 _
              ltac:(rewrite P3, P2, P1; map_lookup; apply Hin'; set_solver)
              eq_refl eq_refl) as (s4 & -> & C4 & S4 & P4 & A4).
  cbn [bind].
  destruct (update_100_step now "S5" "S6" s4 _
              ltac:(rewrite P4, P3, P2, P1; map_lookup; apply Hin';
                    set_solver)
              eq_refl eq_refl) as (s5 & -> & C5 & S5 & P5 & A5).
  cbn [bind].
  destruct (update_100_step now "S6" "S7" s5 _
              ltac:(rewrite P5, P4, P3, P2, P1; map_lookup; apply Hin';
                    set_solver)
              eq_refl eq_refl) as (s6 & -> & C6 & S6 & P6 & A6).
  cbn [bind].
  destruct (update_100_step now "S7" "S8" s6 _
              ltac:(rewrite P6, P5, P4, P3, P2, P1; map_lookup; apply Hin';
                    set_solver)
              eq_refl eq_refl) as (s7 & -> & C7 & S7 & P7 & A7).
  cbn [bind].
  destruct (update_100_last now "S8" s7 _
              ltac:(rewrite P7, P6, P5, P4, P3, P2, P1; map_lookup;
                    apply Hin'; set_solver)
              eq_refl eq_refl) as (s8 & -> & C8 & S8 & P8 & A8).
  cbn [bind].
  exists s8. split; [done |]. split; [done |].
  assert (forall s, s ∈ ["S1"; "S2"; "S3"; "S4"; "S5"; "S6"; "S7"; "S8"] ->
                    stage_status s8 !! s = Some "completed" /\
                    progress s8 !! s = Some 100) as Hall.
  { intros s Hs. rewrite S8, S7, S6, S5, S4, S3, S2, S1.
    rewrite P8, P7, P6, P5, P4, P3, P2, P1.
    repeat (apply elem_of_cons in Hs as [-> | Hs]; [by map_lookup |]).
    by apply elem_of_nil in Hs. }
  split; [exact Hall |].
  intros Hu.
  apply (StateEngineProps.suggestions_finished s8
           {| name := "进度汇总"; next_stage := None |}).
  - by rewrite C8, A8, A7, A6, A5, A4, A3, A2, A1.
  - rewrite C8. destruct (Hall "S8") as [_ ->]; [| done].
    repeat first [by left | right].
  - by rewrite C8.
  - done.
Qed.

Lemma complete_all_stages_in_turn_witness :
  exists st',
    update_in_turn "t1" ["S1"; "S2"; "S3"; "S4"; "S5"; "S6"; "S7"; "S8"]
      (initialize_state "t0") = Ok st' /\
    current_stage st' = "S8" /\
    get_navigation_suggestion st' = Ok [].
Proof.
  destruct (complete_all_stages_in_turn "t1" (initialize_state "t0"))
    as (st' & Hr & Hc & _ & Hn).
  - intros s Hs. cbn [map fst stage_definitions] in Hs.
    repeat (apply elem_of_cons in Hs as [-> | Hs];
            [eexists; vm_compute; reflexivity |]).
    by apply elem_of_nil in Hs.
  - exists st'. split; [exact Hr |]. split; [exact Hc |]. by apply Hn.
Defined.

End StateEngineMoreProps.

(** ** state_engine_enhanced.py: output gate, dependencies, outputs *)

Module StateEngineEnhancedMoreProps.
Import StateEngineEnhanced StateEngineEnhancedOutputs.

#[local] Arguments definition_of : simpl never.

(** X13: The enhanced engine completes a stage only over an output file: an
    update to 100 or more that writes the state found, in some iteration
    directory, the stage's required output with a size above 0.  When the
    directories hold no such file the update raises [ValueError], and when
    the iterations directory does not exist it raises
    [FileNotFoundError]; in both cases nothing is written. *)
Theorem completion_requires_output
    (fs : filesystem) (now stage_id : string) (p : Z)
    (ids : option (list string)) (st : state) (d : stage_definition) :
  100 <= p ->
  is_Some (progress st !! stage_id) ->
  definition_of stage_definitions stage_id = Some d ->
  match update_stage_progress fs now stage_id p ids st with
  | Ok st' =>
      exists dirs dir size,
        iteration_dirs fs = Some dirs /\ dir ∈ dirs /\
        dir !! required_output d = Some size /\ 0 < size /\
        stage_status st' !! stage_id = Some "completed"
  | Raise e =>
      match iteration_dirs fs with
      | None => e = FileNotFoundError
      | Some dirs =>
          (exists msg, e = ValueError msg) /\
          forall dir size,
            dir ∈ dirs -> dir !! required_output d = Some size -> size <= 0
      end
  end.
Proof.
  intros Hp [p0 Hin] Hd.
  assert ((100 <=? p) = true) as Hge by lia.
  pose proof (StateEngineEnhancedProps.definition_of_next_enhanced _ _ Hd)
    as Hn.
  unfold update_stage_progress, output_gate, validate_stage_output.
  rewrite Hin, Hge, Hd.
  destruct (iteration_dirs fs) as [dirs|]; [| done]. simpl.
  destruct (existsb _ dirs) eqn:Hex; simpl.
  - unfold update_status. rewrite Hge, Hd.
    apply existsb_exists in Hex as (dir & Hdir & Hsize).
    destruct (dir !! required_output d) as [size|] eqn:Hf; [| done].
    assert (dir ∈ dirs) by by apply list_elem_of_In.
    assert (0 < size) by lia.
    destruct (truthy (next_stage d)) as [nxt|] eqn:Ht; simpl.
    + apply StateEngineProps.truthy_Some in Ht.
      exists dirs, dir, size. repeat split; try done.
      rewrite lookup_insert_ne by congruence. by rewrite lookup_insert_eq.
    + exists dirs, dir, size. repeat split; try done.
      by rewrite lookup_insert_eq.
  - split; [by eexists |].
    intros dir size Hdir Hf.
    destruct (decide (size <= 0)) as [|Hpos]; [done |]. exfalso.
    assert (existsb (fun dir => match dir !! required_output d with
                                | Some size => 0 <? size
                                | None => false
                                end) dirs = true) as Habs.
    { apply existsb_exists. exists dir.
      split; [by apply list_elem_of_In |]. rewrite Hf. lia. }
    congruence.
Qed.

Lemma completion_requires_output_witness :
  exists msg,
    update_stage_progress Samples.no_outputs "t1" "S3" 100 None
      Samples.enhanced_state = Raise (ValueError msg).
Proof.
  pose proof (completion_requires_output Samples.no_outputs "t1" "S3" 100
                None Samples.enhanced_state
                {| name := "测试用例设计"; next_stage := Some "S4";
                   required_output := "s3_testcases.md";
                   dependencies := ["S2"] |}
                ltac:(lia) ltac:(eexists; vm_compute; reflexivity) eq_refl)
    as H.
  destruct (update_stage_progress _ _ _ _ _ _) as [st'|e].
  - destruct H as (dirs & dir & size & Hd & Hin & _).
    injection Hd as <-. by apply elem_of_nil in Hin.
  - destruct H as [[msg ->] _]. by exists msg.
Defined.

(** X14: [check_dependencies] reads the progress of a dependency from
    [state['iterations']['1']], which [update_stage_progress] never
    writes.  So without that record it answers [False] for every stage that
    has a dependency, also right after an update, and also when the
    dependency has status [completed]. *)
Theorem check_dependencies_needs_iteration_record
    (fs : filesystem) (now updated : string) (p : Z)
    (ids : option (list string)) (st st' : state)
    (stage_id : string) (d : stage_definition) :
  iterations st !! "1" = None ->
  update_stage_progress fs now updated p ids st = Ok st' ->
  definition_of stage_definitions stage_id = Some d ->
  dependencies d <> [] ->
  iterations st' = iterations st /\
  check_dependencies st' stage_id = Ok false.
Proof.
  intros Hit Hu Hd Hdeps.
  assert (iterations st' = iterations st) as Hsame.
  { unfold update_stage_progress in Hu.
    destruct (progress st !! updated); [| done].
    destruct (output_gate _ _ _); [| done]. simpl in Hu.
    unfold update_status in Hu. destruct (100 <=? p).
    - destruct (definition_of _ updated); [| done].
      destruct (truthy _); inversion Hu; by subst.
    - inversion Hu; by subst. }
  split; [done |].
  unfold check_dependencies. rewrite Hd, Hsame, Hit. f_equal.
  destruct (dependencies d) as [|dep deps]; [done |]. simpl.
  rewrite lookup_empty. simpl. by rewrite orb_true_r.
Qed.

Lemma check_dependencies_needs_iteration_record_witness :
  exists st',
    update_stage_progress
      {| iteration_dirs := Some [ <["s3_testcases.md" := 120]> ∅ ] |}
      "t1" "S3" 100 None Samples.enhanced_state = Ok st' /\
    stage_status st' !! "S3" = Some "completed" /\
    check_dependencies st' "S4" = Ok false.
Proof.
  eexists. split; [reflexivity |]. split; [vm_compute; reflexivity |].
  eapply (check_dependencies_needs_iteration_record
            {| iteration_dirs := Some [ <["s3_testcases.md" := 120]> ∅ ] |}
            "t1" "S3" 100 None Samples.enhanced_state).
  - reflexivity.
  - reflexivity.
  - reflexivity.
  - discriminate.
Defined.

(** X15: [associate_output_to_stage] keeps the list of a stage free of
    duplicates: a new path is appended and written, a path that is already
    there is not appended and nothing is written; the lists of the other
    stages are not touched. *)
Theorem associate_output_once
    (now stage_id output_path : string) (st : state)
    (outputs : list string) :
  associated_outputs st !! stage_id = Some outputs ->
  (output_path ∉ outputs ->
   exists st',
     associate_output_to_stage now stage_id output_path st = Ok (Some st') /\
     associated_outputs st' !! stage_id = Some (outputs ++ [output_path]) /\
     (forall s, s <> stage_id ->
                associated_outputs st' !! s = associated_outputs st !! s) /\
     (NoDup outputs -> NoDup (outputs ++ [output_path])) /\
     forall now', associate_output_to_stage now' stage_id output_path st'
                  = Ok None) /\
  (output_path ∈ outputs ->
   associate_output_to_stage now stage_id output_path st = Ok None).
Proof.
  intros Hout. unfold associate_output_to_stage, mem. rewrite Hout. split.
  - intros Hnin. rewrite bool_decide_eq_false_2 by done. simpl.
    eexists. split; [reflexivity |]. simpl.
    split; [by map_lookup |]. split; [intros s Hs; by map_lookup |].
    split.
    + intros Hnd. apply NoDup_app. split; [done |].
      split; [| apply NoDup_singleton].
      intros y Hy Hy'. apply list_elem_of_singleton in Hy'. by subst.
    + intros now'. rewrite lookup_insert_eq.
      rewrite bool_decide_eq_true_2; [done |].
      apply elem_of_app. right. left.
  - intros Hin. by rewrite bool_decide_eq_true_2.
Qed.

Lemma associate_output_once_witness :
  exists st',
    associate_output_to_stage "t1" "S1" "docs/story.md"
      (initialize_state "t0") = Ok (Some st') /\
    associated_outputs st' !! "S1" = Some ["docs/story.md"] /\
    associate_output_to_stage "t2" "S1" "docs/story.md" st' = Ok None.
Proof.
  destruct (associate_output_once "t1" "S1" "docs/story.md"
              (initialize_state "t0") []
              ltac:(vm_compute; reflexivity)) as [Hnew _].
  destruct Hnew as (st' & Hr & Hl & _ & _ & Hagain);
    [apply not_elem_of_nil |].
  exists st'. split; [exact Hr |]. split; [exact Hl | apply Hagain].
Defined.

(** X16: Reverting to the same stage a second time changes nothing but the
    time stamp. *)
Theorem revert_to_stage_twice (now1 now2 target : string) (st st1 : state) :
  revert_to_stage now1 target st = Ok st1 ->
  revert_to_stage now2 target st1 = Ok (save_state now2 st1).
Proof.
  unfold revert_to_stage.
  destruct (definition_of stage_definitions target) as [d|]; [| done].
  destruct (index stage_ids target) as [i|] eqn:Hi; [| done].
  intros H; injection H as <-. f_equal.
  set (l := drop (i + 1) stage_ids).
  set (x := set_stage_status target "in_progress"
              (set_current_stage target st)).
  assert (target ∉ l) as Hnot.
  { apply index_Some_lookup in Hi as [Hl _].
    unfold l. replace (i + 1)%nat with (S i) by lia.
    by apply (StateEngineEnhancedProps.NoDup_not_in_drop _ _ _
                StateEngineEnhancedProps.stage_ids_NoDup). }
  set (y := set_stage_status target "in_progress"
              (set_current_stage target
                 (save_state now1 (foldl revert_one x l)))).
  pose proof (StateEngineEnhancedProps.foldl_revert_lookup l x) as Hx.
  pose proof (StateEngineEnhancedProps.foldl_revert_lookup l y) as Hy.
  assert (forall st0,
            memory_ids (foldl revert_one st0 l) = memory_ids st0 /\
            abnormalities (foldl revert_one st0 l) = abnormalities st0 /\
            associated_outputs (foldl revert_one st0 l)
            = associated_outputs st0 /\
            review_status (foldl revert_one st0 l) = review_status st0 /\
            iterations (foldl revert_one st0 l) = iterations st0) as Hframe.
  { clear. induction l as [|a l IH]; intros st0; simpl; [done |].
    destruct (IH (revert_one st0 a)) as (-> & -> & -> & -> & ->). done. }
  destruct (Hframe x) as (Fx1 & Fx2 & Fx3 & Fx4 & Fx5).
  destruct (Hframe y) as (Fy1 & Fy2 & Fy3 & Fy4 & Fy5).
  apply StateEngineEnhancedProps.state_eq_enhanced;
    unfold save_state; cbn [current_stage stage_status progress memory_ids
                            last_updated abnormalities associated_outputs
                            review_status iterations];
    try done.
  - destruct (Hx target) as (-> & _). by destruct (Hy target) as (-> & _).
  - apply map_eq. intros s.
    destruct (Hy s) as (_ & -> & _). destruct (Hx s) as (_ & -> & _).
    destruct (decide (s ∈ l)) as [Hs | Hs].
    + by rewrite !bool_decide_eq_true_2.
    + rewrite !bool_decide_eq_false_2 by done.
      unfold y, set_stage_status, set_current_stage, save_state;
        cbn [stage_status].
      destruct (decide (s = target)) as [-> | Hne].
      * rewrite lookup_insert_eq.
        unfold x, set_stage_status; cbn [stage_status]. by map_lookup.
      * rewrite lookup_insert_ne by done.
        destruct (Hx s) as (_ & -> & _).
        by rewrite bool_decide_eq_false_2.
  - apply map_eq. intros s.
    destruct (Hy s) as (_ & _ & ->). destruct (Hx s) as (_ & _ & ->).
    destruct (decide (s ∈ l)) as [Hs | Hs].
    + by rewrite !bool_decide_eq_true_2.
    + rewrite !bool_decide_eq_false_2 by done.
      unfold y, set_stage_status, set_current_stage, save_state;
        cbn [progress].
      destruct (Hx s) as (_ & _ & ->). by rewrite bool_decide_eq_false_2.
Qed.

Lemma revert_to_stage_twice_witness :
  exists st1,
    revert_to_stage "t1" "S2" Samples.enhanced_state = Ok st1 /\
    revert_to_stage "t2" "S2" st1 = Ok (save_state "t2" st1).
Proof.
  eexists. split; [reflexivity |].
  apply (revert_to_stage_twice "t1" "t2" "S2" Samples.enhanced_state).
  reflexivity.
Defined.

Lemma update_stage_progress_reads (fs : filesystem) (now stage_id : string)
    (p : Z) (ids : option (list string)) (st st' : state) :
  progress st' = progress st ->
  stage_status st' = stage_status st ->
  match update_stage_progress fs now stage_id p ids st,
        update_stage_progress fs now stage_id p ids st' with
  | Ok a, Ok b =>
      current_stage b = current_stage a /\
      stage_status b = stage_status a /\ progress b = progress a
  | Raise x, Raise y => x = y
  | _, _ => False
  end.
Proof.
  intros Hp Hs. unfold update_stage_progress. rewrite Hp.
  destruct (progress st !! stage_id); [| done].
  destruct (output_gate fs stage_id p); [| done]. simpl.
  unfold update_status.
  destruct (100 <=? p); simpl; [| by rewrite Hp, Hs].
  destruct (definition_of stage_definitions stage_id) as [d|]; [| done].
  destruct (truthy (next_stage d)); simpl; by rewrite Hp, Hs.
Qed.

(** X17: Neither the outputs associated with a stage nor its review result are
    read when the progress is updated: after [associate_output_to_stage]
    or [record_stage_review], [update_stage_progress] raises exactly as
    before, and where it goes through it leaves the same current stage,
    statuses and progress.  In particular an associated output does not
    open the output gate. *)
Theorem outputs_and_reviews_do_not_gate
    (now0 stage0 value : string) (st st' : state)
    (fs : filesystem) (now stage_id : string) (p : Z)
    (ids : option (list string)) :
  associate_output_to_stage now0 stage0 value st = Ok (Some st') \/
  record_stage_review now0 stage0 value st = Ok st' ->
  match update_stage_progress fs now stage_id p ids st,
        update_stage_progress fs now stage_id p ids st' with
  | Ok a, Ok b =>
      current_stage b = current_stage a /\
      stage_status b = stage_status a /\ progress b = progress a
  | Raise x, Raise y => x = y
  | _, _ => False
  end.
Proof.
  intros [H | H]; apply update_stage_progress_reads.
  - unfold associate_output_to_stage in H.
    destruct (associated_outputs st !! stage0); [| done].
    destruct (negb _); [| done]. by injection H as <-.
  - unfold associate_output_to_stage in H.
    destruct (associated_outputs st !! stage0); [| done].
    destruct (negb _); [| done]. by injection H as <-.
  - unfold record_stage_review in H.
    destruct (review_status st !! stage0); [| done]. by injection H as <-.
  - unfold record_stage_review in H.
    destruct (review_status st !! stage0); [| done]. by injection H as <-.
Qed.

Lemma outputs_and_reviews_do_not_gate_witness :
  exists st' msg,
    associate_output_to_stage "t1" "S1" "s1_user_story.md"
      (initialize_state "t0") = Ok (Some st') /\
    update_stage_progress Samples.no_outputs "t2" "S1" 100 None st'
    = Raise (ValueError msg).
Proof.
  eexists _, _. split; [reflexivity |].
  pose proof (outputs_and_reviews_do_not_gate "t1" "S1" "s1_user_story.md"
                (initialize_state "t0") _ Samples.no_outputs "t2" "S1" 100
                None (or_introl eq_refl)) as H.
  destruct (update_stage_progress Samples.no_outputs "t2" "S1" 100 None
              (initialize_state "t0")) as [a|x] eqn:E;
    [vm_compute in E; discriminate E |].
  vm_compute in E. injection E as <-.
  destruct (update_stage_progress _ _ _ _ _ _) as [b|y]; [done |].
  rewrite <- H. reflexivity.
Defined.

End StateEngineEnhancedMoreProps.

(** ** multi_mode_state_engine.py: completion, deliverables, summaries *)

Module MultiModeActionsProps.
Import MultiMode MultiModeActions.

Lemma _save_state_file (now : Z) (e : engine) :
  state_file (_save_state now e)
  = match metadata (state e) with
    | None => state_file e
    | Some _ => Some (state (_save_state now e))
    end.
Proof. unfold _save_state. by destruct (metadata (state e)). Qed.

Lemma _save_state_metadata (now : Z) (e : engine) :
  metadata (state (_save_state now e))
  = match metadata (state e) with
    | None => None
    | Some m => Some {| created_at := created_at m; last_updated := now;
                        version := version m |}
    end.
Proof. unfold _save_state. by destruct (metadata (state e)) eqn:E. Qed.

Lemma update_stage_state_modes (now : Z) (stage_id : string) (kw : kwargs)
    (e : engine) :
  flow_modes (update_stage_state now stage_id kw e) = flow_modes e /\
  current_mode (update_stage_state now stage_id kw e) = current_mode e.
Proof.
  unfold update_stage_state.
  match goal with
  | |- context [_save_state now ?x] =>
      destruct (MultiModeProps._save_state_fields now x) as (_ & _ & -> & ->)
  end.
  done.
Qed.

Lemma update_stage_state_file (now : Z) (stage_id : string) (kw : kwargs)
    (e : engine) :
  state_file (update_stage_state now stage_id kw e)
  = match metadata (state e) with
    | None => state_file e
    | Some _ => Some (state (update_stage_state now stage_id kw e))
    end.
Proof. unfold update_stage_state. by rewrite _save_state_file. Qed.

Lemma update_stage_state_metadata (now : Z) (stage_id : string) (kw : kwargs)
    (e : engine) :
  metadata (state (update_stage_state now stage_id kw e))
  = match metadata (state e) with
    | None => None
    | Some m => Some {| created_at := created_at m; last_updated := now;
                        version := version m |}
    end.
Proof. unfold update_stage_state. by rewrite _save_state_metadata. Qed.

Lemma stage_state_data_update (now : Z) (stage_id : string) (kw : kwargs)
    (e : engine) (s : string) :
  stage_state_data (update_stage_state now stage_id kw e) s
  = if bool_decide (s = stage_id)
    then auto_timestamps now kw (apply_kwargs kw (stage_state_data e stage_id))
    else stage_state_data e s.
Proof.
  destruct (MultiModeProps.update_stage_state_fields now stage_id kw e)
    as (_ & Hs).
  unfold stage_state_data at 1. rewrite Hs. simpl.
  case_bool_decide as Hd.
  - subst. by rewrite lookup_insert_eq.
  - by rewrite lookup_insert_ne.
Qed.

Lemma _get_stage_info_update (now : Z) (stage_id : string) (kw : kwargs)
    (e : engine) (s : string) :
  _get_stage_info_by_id (update_stage_state now stage_id kw e) s
  = _get_stage_info_by_id e s.
Proof.
  unfold _get_stage_info_by_id, get_stages_for_mode.
  by destruct (update_stage_state_modes now stage_id kw e) as (-> & ->).
Qed.

Lemma stage_state_data_set_current (now : Z) (v : option string)
    (e : engine) :
  stage_state_data (_save_state now (set_current_stage v e))
  = stage_state_data e.
Proof.
  unfold stage_state_data.
  by destruct (MultiModeProps._save_state_fields now (set_current_stage v e))
    as (_ & -> & _).
Qed.

Lemma get_stage_state_data (e e' : engine) (s : string) :
  stage_state_data e' s = stage_state_data e s ->
  get_stage_state e' s = get_stage_state e s.
Proof. unfold get_stage_state. by intros ->. Qed.

Lemma _get_stage_info_id (e : engine) (stage_id : string) (info : StageInfo) :
  _get_stage_info_by_id e stage_id = Some info ->
  id info = stage_id /\ info ∈ get_stages_for_mode e (current_mode e).
Proof.
  unfold _get_stage_info_by_id.
  destruct (list_find _ _) as [[i x]|] eqn:E; simpl; [| done].
  intros [= ->]. apply list_find_Some in E as (Hl & Hid & _).
  split; [done |]. by apply (list_elem_of_lookup_2 _ i).
Qed.

(** What [complete_stage] stores for a stage of the current mode. *)
Lemma complete_stage_known (now : Z) (stage_id : string)
    (new_notes : option (list string)) (e : engine) (info : StageInfo)
    (s : StageState) :
  _get_stage_info_by_id e stage_id = Some info ->
  get_stage_state e stage_id = Ok s ->
  exists e',
    complete_stage now stage_id new_notes e = (e', Ok true) /\
    current_stage (state e')
    = from_option Some (current_stage (state e)) (truthy (next_stage info)) /\
    (forall x, _get_stage_info_by_id e' x = _get_stage_info_by_id e x) /\
    (forall x, x <> stage_id ->
               stage_state_data e' x = stage_state_data e x) /\
    let d := stage_state_data e stage_id in
    stage_state_data e' stage_id
    = {| d_status := Some "completed"; d_progress := Some 100;
         d_start_time := d_start_time d; d_end_time := Some (Some now);
         d_assignee := d_assignee d;
         d_notes := match new_notes with
                    | Some ((_ :: _) as l) => Some (default [] (d_notes d) ++ l)
                    | _ => d_notes d
                    end;
         d_deliverables_status := d_deliverables_status d |}.
Proof.
  intros Hinfo Hs. unfold complete_stage, _check_deliverables.
  rewrite Hinfo, Hs. simpl.
  assert (exists kwn,
            completion_notes e stage_id new_notes = Ok kwn /\
            from_option Some (d_notes (stage_state_data e stage_id)) kwn
            = match new_notes with
              | Some ((_ :: _) as l) =>
                  Some (default [] (d_notes (stage_state_data e stage_id))
                        ++ l)
              | _ => d_notes (stage_state_data e stage_id)
              end) as (kwn & -> & Hn).
  { unfold completion_notes. destruct new_notes as [[|n l]|].
    - by exists None.
    - rewrite Hs. simpl. eexists. split; [reflexivity |]. simpl.
      unfold get_stage_state in Hs.
      destruct (StageStatus_of_value _); [| done].
      simpl in Hs. injection Hs as <-. done.
    - by exists None. }
  set (kw := {| kw_status := Some COMPLETED; kw_progress := Some 100;
                kw_start_time := None; kw_end_time := Some (Some now);
                kw_assignee := None; kw_notes := kwn;
                kw_deliverables_status := None |}).
  pose proof (stage_state_data_update now stage_id kw e) as Hd.
  pose proof (_get_stage_info_update now stage_id kw e) as Hi.
  destruct (MultiModeProps.update_stage_state_fields now stage_id kw e)
    as (Hc & _).
  assert (stage_state_data (update_stage_state now stage_id kw e) stage_id
          = {| d_status := Some "completed"; d_progress := Some 100;
               d_start_time := d_start_time (stage_state_data e stage_id);
               d_end_time := Some (Some now);
               d_assignee := d_assignee (stage_state_data e stage_id);
               d_notes :=
                 from_option Some (d_notes (stage_state_data e stage_id)) kwn;
               d_deliverables_status :=
                 d_deliverables_status (stage_state_data e stage_id) |})
    as Hown.
  { rewrite Hd, bool_decide_eq_true_2 by done. done. }
  destruct (truthy (next_stage info)) as [nxt|] eqn:Ht; simpl.
  - eexists. split; [reflexivity |].
    rewrite stage_state_data_set_current.
    destruct (MultiModeProps._save_state_fields now
                (set_current_stage (Some nxt)
                   (update_stage_state now stage_id kw e)))
      as (-> & _ & Hfm & Hcm).
    split; [done |]. split.
    { intros x. unfold _get_stage_info_by_id, get_stages_for_mode.
      rewrite Hfm, Hcm. apply Hi. }
    split.
    { intros x Hx. by rewrite Hd, bool_decide_eq_false_2. }
    by rewrite Hown, Hn.
  - eexists. split; [reflexivity |]. split; [done |].
    split; [done |]. split.
    { intros x Hx. by rewrite Hd, bool_decide_eq_false_2. }
    by rewrite Hown, Hn.
Qed.

Lemma _check_deliverables_known (e : engine) (stage_id : string)
    (info : StageInfo) (s : StageState) :
  _get_stage_info_by_id e stage_id = Some info ->
  get_stage_state e stage_id = Ok s ->
  _check_deliverables e stage_id
  = Ok (forallb (deliverable_done s) (deliverables info)).
Proof. intros Hi Hs. unfold _check_deliverables. by rewrite Hs, Hi. Qed.

Lemma get_stage_state_fields (e : engine) (stage_id : string)
    (s : StageState) :
  get_stage_state e stage_id = Ok s ->
  StageStatus_of_value
    (default "pending" (d_status (stage_state_data e stage_id)))
  = Ok (status s) /\
  progress s = default 0 (d_progress (stage_state_data e stage_id)) /\
  notes s = default [] (d_notes (stage_state_data e stage_id)) /\
  deliverables_status s
  = default ∅ (d_deliverables_status (stage_state_data e stage_id)).
Proof.
  unfold get_stage_state. simpl.
  destruct (StageStatus_of_value _) as [st|]; [| done]. simpl.
  by intros [= <-].
Qed.

Lemma get_stage_state_status (e : engine) (stage_id : string)
    (st : StageStatus) :
  d_status (stage_state_data e stage_id) = Some (StageStatus_value st) ->
  exists s, get_stage_state e stage_id = Ok s /\ status s = st /\
    progress s = default 0 (d_progress (stage_state_data e stage_id)) /\
    deliverables_status s
    = default ∅ (d_deliverables_status (stage_state_data e stage_id)).
Proof.
  intros H. unfold get_stage_state. rewrite H. simpl.
  assert (StageStatus_of_value (StageStatus_value st) = Ok st) as ->
    by by destruct st.
  simpl. eexists. split; [reflexivity |]. done.
Qed.

(** When every declared dependency is completed [start_stage] goes
    through. *)
Lemma start_stage_ready (now : Z) (stage_id : string)
    (assignee : option string) (e : engine) (info : StageInfo) :
  _get_stage_info_by_id e stage_id = Some info ->
  (forall dep, dep ∈ dependencies info ->
               d_status (stage_state_data e dep) = Some "completed") ->
  exists e',
    start_stage now stage_id assignee e = (e', Ok true) /\
    current_stage (state e') = Some stage_id /\
    d_status (stage_state_data e' stage_id) = Some "in_progress".
Proof.
  intros Hinfo Hall. unfold start_stage.
  rewrite (MultiModeProps._check_dependencies_deps _ _ _ Hinfo).
  rewrite (proj2 (MultiModeProps.all_dependencies_completed_true _ _) Hall).
  eexists. split; [reflexivity |].
  match goal with
  | |- context [update_stage_state now stage_id ?kw e] =>
      pose proof (stage_state_data_update now stage_id kw e stage_id) as Hd;
      set (e1 := update_stage_state now stage_id kw e) in *
  end.
  match goal with
  | |- context [_save_state now (set_state ?st ?e1)] =>
      destruct (MultiModeProps.start_stage_saved now st e1) as (-> & ->)
  end.
  split; [done |]. cbn [stage_states].
  fold (stage_state_data e1 stage_id). rewrite Hd.
  by rewrite bool_decide_eq_true_2.
Qed.

(** X18: [complete_stage] does not wait for the deliverables: for a stage of
    the current mode whose stored status is a legal status name it
    returns [True] and stores status [completed], progress 100 and the end
    time, whatever [_check_deliverables] answers; the current stage becomes
    the stage's successor when it has one.  The deliverable marks are left
    as they were, so a completed stage may still fail
    [_check_deliverables]. *)
Theorem complete_stage_despite_deliverables (now : Z) (stage_id : string)
    (new_notes : option (list string)) (e : engine) (info : StageInfo)
    (s : StageState) :
  _get_stage_info_by_id e stage_id = Some info ->
  get_stage_state e stage_id = Ok s ->
  exists e',
    complete_stage now stage_id new_notes e = (e', Ok true) /\
    d_status (stage_state_data e' stage_id) = Some "completed" /\
    d_progress (stage_state_data e' stage_id) = Some 100 /\
    d_end_time (stage_state_data e' stage_id) = Some (Some now) /\
    current_stage (state e')
    = from_option Some (current_stage (state e)) (truthy (next_stage info)) /\
    _check_deliverables e' stage_id = _check_deliverables e stage_id.
Proof.
  intros Hinfo Hs.
  destruct (complete_stage_known now stage_id new_notes e info s Hinfo Hs)
    as (e' & Hc & Hcur & Hi & _ & Hd).
  exists e'. split; [done |]. simpl in Hd. rewrite Hd. simpl.
  repeat split; try done.
  destruct (get_stage_state_status e' stage_id COMPLETED)
    as (s' & Hs' & _ & _ & Hds); [by rewrite Hd |].
  rewrite (_check_deliverables_known e' stage_id info s');
    [| by rewrite Hi | done].
  rewrite (_check_deliverables_known e stage_id info s Hinfo Hs).
  destruct (get_stage_state_fields _ _ _ Hs) as (_ & _ & _ & Hds0).
  unfold deliverable_done. rewrite Hds, Hds0, Hd. done.
Qed.

Lemma complete_stage_despite_deliverables_witness :
  _check_deliverables Deliveries.delivery_engine "design" = Ok false /\
  exists e',
    complete_stage 9 "design" (Some ["reviewed"]) Deliveries.delivery_engine
    = (e', Ok true) /\
    d_status (stage_state_data e' "design") = Some "completed" /\
    current_stage (state e') = Some "build" /\
    _check_deliverables e' "design" = Ok false.
Proof.
  split; [vm_compute; reflexivity |].
  destruct (complete_stage_despite_deliverables 9 "design"
              (Some ["reviewed"]) Deliveries.delivery_engine
              Deliveries.design
              {| stage_id := "design"; status := IN_PROGRESS; progress := 50;
                 start_time := Some 3; end_time := None;
                 assignee := Some "ann"; notes := ["kickoff"];
                 deliverables_status := <["spec.md" := true]> ∅ |}
              eq_refl eq_refl)
    as (e' & Hc & Hst & _ & _ & Hcur & Hchk).
  exists e'. split; [exact Hc |]. split; [exact Hst |].
  split; [exact Hcur |]. rewrite Hchk. vm_compute. reflexivity.
Defined.

(** X19: Completing the last open dependency of a stage opens the gate of
    [start_stage]: when all the other declared dependencies are completed,
    [complete_stage] on the remaining one followed by [start_stage] returns
    [True] twice and leaves the started stage current and in progress. *)
Theorem complete_stage_opens_dependency_gate (now now' : Z)
    (dep stage_id : string) (new_notes : option (list string))
    (assignee : option string) (e : engine) (dep_info info : StageInfo)
    (s : StageState) :
  _get_stage_info_by_id e dep = Some dep_info ->
  get_stage_state e dep = Ok s ->
  _get_stage_info_by_id e stage_id = Some info ->
  (forall x, x ∈ dependencies info -> x <> dep ->
             d_status (stage_state_data e x) = Some "completed") ->
  exists e1 e2,
    complete_stage now dep new_notes e = (e1, Ok true) /\
    start_stage now' stage_id assignee e1 = (e2, Ok true) /\
    current_stage (state e2) = Some stage_id /\
    d_status (stage_state_data e2 stage_id) = Some "in_progress".
Proof.
  intros Hdep Hs Hinfo Hothers.
  destruct (complete_stage_known now dep new_notes e dep_info s Hdep Hs)
    as (e1 & Hc & _ & Hi & Hframe & Hd).
  destruct (start_stage_ready now' stage_id assignee e1 info)
    as (e2 & Hst & Hcur & Hip).
  - by rewrite Hi.
  - intros x Hx. destruct (decide (x = dep)) as [-> | Hne].
    + simpl in Hd. by rewrite Hd.
    + rewrite Hframe by done. by apply Hothers.
  - by exists e1, e2.
Qed.

Lemma complete_stage_opens_dependency_gate_witness :
  snd (start_stage 8 "build" None Deliveries.delivery_engine) = Ok false /\
  exists e1 e2,
    complete_stage 9 "design" None Deliveries.delivery_engine
    = (e1, Ok true) /\
    start_stage 10 "build" None e1 = (e2, Ok true) /\
    current_stage (state e2) = Some "build".
Proof.
  split; [vm_compute; reflexivity |].
  destruct (complete_stage_opens_dependency_gate 9 10 "design" "build" None
              None Deliveries.delivery_engine Deliveries.design
              Deliveries.build
              {| stage_id := "design"; status := IN_PROGRESS; progress := 50;
                 start_time := Some 3; end_time := None;
                 assignee := Some "ann"; notes := ["kickoff"];
                 deliverables_status := <["spec.md" := true]> ∅ |}
              eq_refl eq_refl eq_refl)
    as (e1 & e2 & Hc & Hst & Hcur & _).
  - intros x Hx Hne. apply list_elem_of_singleton in Hx. done.
  - exists e1, e2. split; [exact Hc |]. split; [exact Hst | exact Hcur].
Defined.

Lemma _save_state_bare (now : Z) (e : engine) :
  metadata (state e) = None -> _save_state now e = e.
Proof. intros H. unfold _save_state. by rewrite H. Qed.

Lemma update_stage_state_bare (now : Z) (stage_id : string) (kw : kwargs)
    (e : engine) :
  metadata (state e) = None ->
  metadata (state (update_stage_state now stage_id kw e)) = None /\
  state_file (update_stage_state now stage_id kw e) = state_file e.
Proof.
  intros H. by rewrite update_stage_state_metadata, update_stage_state_file, H.
Qed.

(** X20: A state without the key [metadata] is never written: [start_stage],
    [complete_stage] and [update_deliverable_status] leave the state file
    as it was, whatever they return, because [_save_state] fails on the
    missing key before it opens the file and swallows the error. *)
Theorem state_without_metadata_not_written (now : Z)
    (stage_id deliverable : string) (assignee : option string)
    (new_notes : option (list string)) (completed : bool) (e : engine) :
  metadata (state e) = None ->
  state_file (fst (start_stage now stage_id assignee e)) = state_file e /\
  state_file (fst (complete_stage now stage_id new_notes e)) = state_file e /\
  state_file (fst (update_deliverable_status now stage_id deliverable
                     completed e)) = state_file e.
Proof.
  intros Hm. repeat split.
  - unfold start_stage.
    destruct (_check_dependencies e stage_id) as [[|]|]; [| done | done].
    match goal with
    | |- context [update_stage_state now stage_id ?kw e] =>
        destruct (update_stage_state_bare now stage_id kw e Hm) as (Hm1 & Hf)
    end.
    cbn [fst]. rewrite _save_state_file. cbn [state set_state metadata].
    by rewrite Hm1.
  - unfold complete_stage.
    destruct (_get_stage_info_by_id e stage_id) as [info|]; [| done].
    destruct (_check_deliverables e stage_id); [| done].
    destruct (completion_notes e stage_id new_notes) as [kwn|]; [| done].
    match goal with
    | |- context [update_stage_state now stage_id ?kw e] =>
        destruct (update_stage_state_bare now stage_id kw e Hm) as (Hm1 & Hf)
    end.
    destruct (truthy (next_stage info)); cbn [fst]; [| done].
    rewrite _save_state_file.
    unfold set_current_stage. cbn [state set_state metadata].
    by rewrite Hm1.
  - unfold update_deliverable_status.
    match goal with
    | |- context [update_stage_state now stage_id ?kw e] =>
        destruct (update_stage_state_bare now stage_id kw e Hm) as (Hm1 & Hf);
        set (e1 := update_stage_state now stage_id kw e) in *
    end.
    unfold _update_stage_progress.
    destruct (get_stage_state e1 stage_id); [| done].
    destruct (_get_stage_info_by_id e1 stage_id) as [info|]; [| done].
    destruct (deliverables info) as [|d ds]; [done |].
    destruct (percentage _ _); [| done]. cbn [fst].
    match goal with
    | |- context [update_stage_state now stage_id ?kw e1] =>
        by destruct (update_stage_state_bare now stage_id kw e1 Hm1)
          as (_ & ->)
    end.
Qed.

Lemma state_without_metadata_not_written_witness :
  state_file (fst (complete_stage 9 "design" None
                     Deliveries.delivery_engine_bare)) = None /\
  d_status (stage_state_data
              (fst (complete_stage 9 "design" None
                      Deliveries.delivery_engine_bare)) "design")
  = Some "completed".
Proof.
  split; [| vm_compute; reflexivity].
  apply (state_without_metadata_not_written 9 "design" "spec.md" None None
           true Deliveries.delivery_engine_bare).
  reflexivity.
Defined.

(** X21: With the key [metadata] in the state, a call of [start_stage],
    [complete_stage] or [update_deliverable_status] that succeeds leaves
    the state file equal to the state in memory, stamped with the time of
    the call. *)
Theorem successful_calls_are_written (now : Z)
    (stage_id deliverable : string) (assignee : option string)
    (new_notes : option (list string)) (completed : bool) (e e' : engine)
    (m : metadata_dict) :
  metadata (state e) = Some m ->
  start_stage now stage_id assignee e = (e', Ok true) \/
  complete_stage now stage_id new_notes e = (e', Ok true) \/
  update_deliverable_status now stage_id deliverable completed e
  = (e', Ok tt) ->
  state_file e' = Some (state e') /\
  metadata (state e')
  = Some {| created_at := created_at m; last_updated := now;
            version := version m |}.
Proof.
  intros Hm [H | [H | H]].
  - unfold start_stage in H.
    destruct (_check_dependencies e stage_id) as [[|]|]; [| done | done].
    injection H as <-.
    match goal with
    | |- context [update_stage_state now stage_id ?kw e] =>
        pose proof (update_stage_state_metadata now stage_id kw e) as Hm1;
        set (e1 := update_stage_state now stage_id kw e) in *
    end.
    rewrite Hm in Hm1.
    rewrite _save_state_file, _save_state_metadata.
    cbn [state set_state metadata]. by rewrite Hm1.
  - unfold complete_stage in H.
    destruct (_get_stage_info_by_id e stage_id) as [info|]; [| done].
    destruct (_check_deliverables e stage_id); [| done].
    destruct (completion_notes e stage_id new_notes) as [kwn|]; [| done].
    match type of H with
    | context [update_stage_state now stage_id ?kw e] =>
        pose proof (update_stage_state_metadata now stage_id kw e) as Hm1;
        pose proof (update_stage_state_file now stage_id kw e) as Hf1;
        set (e1 := update_stage_state now stage_id kw e) in *
    end.
    rewrite Hm in Hm1, Hf1.
    destruct (truthy (next_stage info)); injection H as <-.
    + rewrite _save_state_file, _save_state_metadata.
      unfold set_current_stage. cbn [state set_state metadata].
      by rewrite Hm1.
    + by rewrite Hm1, Hf1.
  - unfold update_deliverable_status in H.
    match type of H with
    | context [update_stage_state now stage_id ?kw e] =>
        pose proof (update_stage_state_metadata now stage_id kw e) as Hm1;
        pose proof (update_stage_state_file now stage_id kw e) as Hf1;
        set (e1 := update_stage_state now stage_id kw e) in *
    end.
    rewrite Hm in Hm1, Hf1.
    unfold _update_stage_progress in H.
    destruct (get_stage_state e1 stage_id); [| done].
    destruct (_get_stage_info_by_id e1 stage_id) as [info|];
      [| injection H as <-; by rewrite Hm1, Hf1].
    destruct (deliverables info) as [|d ds];
      [injection H as <-; by rewrite Hm1, Hf1 |].
    destruct (percentage _ _); [| done]. injection H as <-.
    rewrite update_stage_state_metadata, update_stage_state_file, Hm1.
    done.
Qed.

Lemma successful_calls_are_written_witness :
  exists e',
    complete_stage 9 "design" None Deliveries.delivery_engine
    = (e', Ok true) /\
    state_file e' = Some (state e').
Proof.
  eexists. split; [reflexivity |].
  eapply (successful_calls_are_written 9 "design" "spec.md" None None true
            Deliveries.delivery_engine).
  - reflexivity.
  - right. left. reflexivity.
Defined.

Lemma percentage_near_floor_from_sound (n : Z) (fuel : nat) :
  forall c0 c, percentage_near_floor_from n c0 fuel = true ->
    c0 <= c < c0 + Z.of_nat fuel ->
    exists r, percentage c n = Ok r /\ near_floor c n r = true.
Proof.
  induction fuel as [|fuel IH]; intros c0 c Hchk Hc; [lia |].
  simpl in Hchk. destruct (percentage c0 n) as [r|] eqn:E; [| done].
  apply andb_true_iff in Hchk as [Hr Hrest].
  destruct (decide (c = c0)) as [-> | Hne].
  - by exists r.
  - apply (IH (c0 + 1)); [done | lia].
Qed.

Lemma percentage_near_floor_upto_sound (fuel : nat) :
  forall n0 n c, percentage_near_floor_upto n0 fuel = true ->
    0 <= n0 -> n0 <= n < n0 + Z.of_nat fuel -> 0 <= c <= n ->
    exists r, percentage c n = Ok r /\ near_floor c n r = true.
Proof.
  induction fuel as [|fuel IH]; intros n0 n c Hchk H0 Hn Hc; [lia |].
  simpl in Hchk. apply andb_true_iff in Hchk as [Hrow Hrest].
  destruct (decide (n = n0)) as [-> | Hne].
  - apply (percentage_near_floor_from_sound n0 (Z.to_nat (n0 + 1)) 0);
      [done | lia].
  - apply (IH (n0 + 1)); [done | lia | lia | done].
Qed.

(** For a stage with up to [deliverable_bound] deliverables the binary64
    expression gives the integer floor or one below it, and 100 exactly
    for the full count. *)
Lemma percentage_deliverables (c n : Z) :
  0 < n <= deliverable_bound -> 0 <= c <= n ->
  exists r, percentage c n = Ok r /\
            100 * c / n - 1 <= r <= 100 * c / n /\
            (r = 100 <-> c = n).
Proof.
  intros Hn Hc.
  destruct (percentage_near_floor_upto_sound (Z.to_nat deliverable_bound) 1
              n c) as (r & Hr & Hnear);
    [vm_compute; reflexivity | lia | unfold deliverable_bound in *; lia
    | done |].
  exists r. split; [done |]. unfold near_floor in Hnear.
  destruct (c =? n) eqn:Hcn.
  - apply Z.eqb_eq in Hcn, Hnear. subst.
    rewrite Z.div_mul by lia. lia.
  - apply Z.eqb_neq in Hcn. apply andb_true_iff in Hnear as [Hlo Hhi].
    split; [lia |].
    assert (100 * c / n < 100)
      by (apply Z.div_lt_upper_bound; lia).
    lia.
Qed.

Lemma filter_length_forallb {A} (f : A -> bool) (l : list A) :
  length (List.filter f l) = length l <-> forallb f l = true.
Proof.
  induction l as [|a l IH]; simpl; [done |].
  pose proof (List.filter_length_le f l) as Hle.
  destruct (f a); simpl; [rewrite <- IH; lia |].
  split; [lia | done].
Qed.

Lemma filter_length_lt {A} (f : A -> bool) (l : list A) (x : A) :
  x ∈ l -> f x = false -> (length (List.filter f l) < length l)%nat.
Proof.
  intros Hin Hx. pose proof (List.filter_length_le f l) as Hle.
  destruct (decide (length (List.filter f l) = length l)) as [Heq|]; [| lia].
  apply filter_length_forallb in Heq.
  rewrite forallb_forall in Heq.
  apply list_elem_of_In in Hin. apply Heq in Hin. congruence.
Qed.

Lemma _update_stage_progress_known (now : Z) (stage_id : string)
    (e : engine) (info : StageInfo) (s : StageState) :
  _get_stage_info_by_id e stage_id = Some info ->
  deliverables info <> [] ->
  get_stage_state e stage_id = Ok s ->
  _update_stage_progress now stage_id e
  = match percentage
            (len (List.filter (deliverable_done s) (deliverables info)))
            (len (deliverables info)) with
    | Ok p => (update_stage_state now stage_id (progress_kwargs p) e, Ok tt)
    | Raise x => (e, Raise x)
    end.
Proof.
  intros Hi Hne Hs. unfold _update_stage_progress. rewrite Hi, Hs.
  by destruct (deliverables info).
Qed.

(** The two writes of [update_deliverable_status] for a stage of the
    current mode that has deliverables. *)
Lemma update_deliverable_status_known (now : Z)
    (stage_id deliverable : string) (completed : bool) (e : engine)
    (info : StageInfo) (s : StageState) :
  _get_stage_info_by_id e stage_id = Some info ->
  deliverables info <> [] ->
  len (deliverables info) <= deliverable_bound ->
  get_stage_state e stage_id = Ok s ->
  let marks := <[deliverable := completed]> (deliverables_status s) in
  let finished :=
    List.filter (fun x => default false (marks !! x)) (deliverables info) in
  let floor := 100 * len finished / len (deliverables info) in
  exists p,
    update_deliverable_status now stage_id deliverable completed e
    = (update_stage_state now stage_id (progress_kwargs p)
         (update_stage_state now stage_id (deliverables_kwargs marks) e),
       Ok tt) /\
    floor - 1 <= p <= floor /\
    (p = 100 <-> len finished = len (deliverables info)).
Proof.
  intros Hinfo Hne Hlen Hs marks finished floor.
  destruct (get_stage_state_fields _ _ _ Hs) as (Hst & _ & _ & Hds).
  unfold update_deliverable_status. rewrite <- Hds. fold marks.
  set (e1 := update_stage_state now stage_id (deliverables_kwargs marks) e).
  assert (stage_state_data e1 stage_id
          = apply_kwargs (deliverables_kwargs marks)
              (stage_state_data e stage_id)) as Hd1.
  { unfold e1. rewrite stage_state_data_update.
    by rewrite bool_decide_eq_true_2. }
  assert (_get_stage_info_by_id e1 stage_id = Some info) as Hi1
    by (unfold e1; by rewrite _get_stage_info_update).
  assert (exists s1, get_stage_state e1 stage_id = Ok s1 /\
                     deliverables_status s1 = marks) as (s1 & Hs1 & Hm1).
  { unfold get_stage_state. rewrite Hd1. simpl. rewrite Hst. simpl.
    eexists. split; [reflexivity | done]. }
  rewrite (_update_stage_progress_known now stage_id e1 info s1 Hi1 Hne Hs1).
  replace (List.filter (deliverable_done s1) (deliverables info))
    with finished by (unfold finished, deliverable_done; by rewrite Hm1).
  destruct (percentage_deliverables (len finished) (len (deliverables info)))
    as (p & -> & Hp & H100).
  - split; [| done]. unfold len.
    destruct (deliverables info); [done | simpl; lia].
  - unfold len. pose proof (List.filter_length_le
                              (fun x => default false (marks !! x))
                              (deliverables info)) as Hle.
    fold finished in Hle. lia.
  - by exists p.
Qed.

(** After both writes: the fields of the stage. *)
Lemma stage_state_data_deliverable (now : Z) (stage_id : string)
    (marks : gmap string bool) (p : Z) (e : engine) :
  let d := stage_state_data e stage_id in
  stage_state_data
    (update_stage_state now stage_id (progress_kwargs p)
       (update_stage_state now stage_id (deliverables_kwargs marks) e))
    stage_id
  = {| d_status := d_status d; d_progress := Some p;
       d_start_time := d_start_time d; d_end_time := d_end_time d;
       d_assignee := d_assignee d; d_notes := d_notes d;
       d_deliverables_status := Some marks |}.
Proof.
  simpl. rewrite !stage_state_data_update.
  by rewrite !bool_decide_eq_true_2.
Qed.

(** X22: [update_deliverable_status] on a stage of the current mode that has
    deliverables (at most [deliverable_bound]) records the mark and sets
    the progress from the marks alone: to the floor of the percentage of
    the deliverables marked done, or one below it, and to 100 exactly when
    [_check_deliverables] then answers [True].  The status of the stage is
    not changed. *)
Theorem deliverable_progress (now : Z) (stage_id deliverable : string)
    (completed : bool) (e : engine) (info : StageInfo) (s : StageState) :
  _get_stage_info_by_id e stage_id = Some info ->
  deliverables info <> [] ->
  len (deliverables info) <= deliverable_bound ->
  get_stage_state e stage_id = Ok s ->
  let marks := <[deliverable := completed]> (deliverables_status s) in
  let finished :=
    List.filter (fun x => default false (marks !! x)) (deliverables info) in
  let floor := 100 * len finished / len (deliverables info) in
  exists e' p,
    update_deliverable_status now stage_id deliverable completed e
    = (e', Ok tt) /\
    d_deliverables_status (stage_state_data e' stage_id) = Some marks /\
    d_progress (stage_state_data e' stage_id) = Some p /\
    floor - 1 <= p <= floor /\
    (p = 100 <-> _check_deliverables e' stage_id = Ok true) /\
    d_status (stage_state_data e' stage_id)
    = d_status (stage_state_data e stage_id).
Proof.
  intros Hinfo Hne Hlen Hs marks finished floor.
  destruct (update_deliverable_status_known now stage_id deliverable
              completed e info s Hinfo Hne Hlen Hs)
    as (p & Hu & Hp & H100).
  fold marks in Hu. fold marks finished in H100.
  eexists _, p. split; [exact Hu |].
  pose proof (stage_state_data_deliverable now stage_id marks p e) as Hd.
  simpl in Hd. rewrite Hd. simpl.
  split; [done |]. split; [done |]. split; [done |]. split; [| done].
  destruct (get_stage_state_fields _ _ _ Hs) as (Hst & _).
  match goal with
  | |- context [_check_deliverables ?e2 stage_id] => set (e' := e2) in *
  end.
  assert (exists s', get_stage_state e' stage_id = Ok s' /\
                     deliverables_status s' = marks) as (s' & Hs' & Hm').
  { unfold get_stage_state. rewrite Hd. simpl. rewrite Hst. simpl.
    eexists. split; [reflexivity | done]. }
  rewrite (_check_deliverables_known e' stage_id info s');
    [| unfold e'; by rewrite !_get_stage_info_update | done].
  rewrite H100. unfold len, finished.
  rewrite Nat2Z.inj_iff, filter_length_forallb.
  unfold deliverable_done. rewrite Hm'.
  split; [by intros -> | by intros [= ->]].
Qed.

Lemma deliverable_progress_witness :
  exists e',
    update_deliverable_status 9 "design" "plan.md" true
      Deliveries.delivery_engine = (e', Ok tt) /\
    d_progress (stage_state_data e' "design") = Some 100 /\
    _check_deliverables e' "design" = Ok true /\
    d_status (stage_state_data e' "design") = Some "in_progress".
Proof.
  destruct (deliverable_progress 9 "design" "plan.md" true
              Deliveries.delivery_engine Deliveries.design
              {| stage_id := "design"; status := IN_PROGRESS; progress := 50;
                 start_time := Some 3; end_time := None;
                 assignee := Some "ann"; notes := ["kickoff"];
                 deliverables_status := <["spec.md" := true]> ∅ |}
              eq_refl ltac:(discriminate) ltac:(vm_compute; discriminate)
              eq_refl)
    as (e' & p & Hu & _ & Hp & _ & H100 & Hst).
  assert (e' = fst (update_deliverable_status 9 "design" "plan.md" true
                      Deliveries.delivery_engine)) as He
    by (rewrite Hu; reflexivity).
  assert (_check_deliverables e' "design" = Ok true) as Hchk
    by (rewrite He; vm_compute; reflexivity).
  assert (p = 100) as -> by (apply H100; exact Hchk).
  exists e'. split; [exact Hu |]. split; [exact Hp |].
  split; [exact Hchk | exact Hst].
Defined.

(** X23: A completed stage does not keep its progress of 100: marking one of
    its deliverables as not done afterwards lowers the stored progress
    below 100 while the status stays [completed]. *)
Theorem completed_stage_progress_can_drop (now now' : Z)
    (stage_id deliverable : string) (new_notes : option (list string))
    (e : engine) (info : StageInfo) (s : StageState) :
  _get_stage_info_by_id e stage_id = Some info ->
  deliverable ∈ deliverables info ->
  len (deliverables info) <= deliverable_bound ->
  get_stage_state e stage_id = Ok s ->
  exists e1 e2 p,
    complete_stage now stage_id new_notes e = (e1, Ok true) /\
    d_progress (stage_state_data e1 stage_id) = Some 100 /\
    update_deliverable_status now' stage_id deliverable false e1
    = (e2, Ok tt) /\
    d_status (stage_state_data e2 stage_id) = Some "completed" /\
    d_progress (stage_state_data e2 stage_id) = Some p /\ p < 100.
Proof.
  intros Hinfo Hin Hlen Hs.
  destruct (complete_stage_known now stage_id new_notes e info s Hinfo Hs)
    as (e1 & Hc & _ & Hi & _ & Hd).
  simpl in Hd.
  destruct (get_stage_state_status e1 stage_id COMPLETED)
    as (s1 & Hs1 & _ & _ & Hds); [by rewrite Hd |].
  assert (deliverables info <> []) as Hne
    by (intros Heq; rewrite Heq in Hin; by apply elem_of_nil in Hin).
  destruct (update_deliverable_status_known now' stage_id deliverable false
              e1 info s1) as (p & Hu & Hp & H100);
    [by rewrite Hi | done | done | done |].
  pose proof (stage_state_data_deliverable now' stage_id
                (<[deliverable := false]> (deliverables_status s1)) p e1)
    as Hd2.
  simpl in Hd2.
  eexists e1, _, p. split; [exact Hc |].
  split; [by rewrite Hd |]. split; [exact Hu |].
  rewrite Hd2. simpl. split; [by rewrite Hd |]. split; [done |].
  set (f := fun x => default false
                       (<[deliverable := false]> (deliverables_status s1)
                          !! x)) in *.
  pose proof (filter_length_lt f (deliverables info) deliverable Hin) as Hlt.
  assert (f deliverable = false) as Hf
    by (unfold f; by rewrite lookup_insert_eq).
  specialize (Hlt Hf).
  assert (100 * len (List.filter f (deliverables info))
          / len (deliverables info) < 100).
  { apply Z.div_lt_upper_bound; unfold len; lia. }
  lia.
Qed.

Lemma completed_stage_progress_can_drop_witness :
  exists e1 e2 p,
    complete_stage 9 "design" None Deliveries.delivery_engine
    = (e1, Ok true) /\
    update_deliverable_status 10 "design" "spec.md" false e1
    = (e2, Ok tt) /\
    d_status (stage_state_data e2 "design") = Some "completed" /\
    d_progress (stage_state_data e2 "design") = Some p /\ p < 100.
Proof.
  destruct (completed_stage_progress_can_drop 9 10 "design" "spec.md" None
              Deliveries.delivery_engine Deliveries.design
              {| stage_id := "design"; status := IN_PROGRESS; progress := 50;
                 start_time := Some 3; end_time := None;
                 assignee := Some "ann"; notes := ["kickoff"];
                 deliverables_status := <["spec.md" := true]> ∅ |}
              eq_refl ltac:(left) ltac:(vm_compute; discriminate) eq_refl)
    as (e1 & e2 & p & Hc & _ & Hu & Hst & Hp & Hlt).
  exists e1, e2, p. split; [exact Hc |]. split; [exact Hu |].
  split; [exact Hst |]. split; [exact Hp | exact Hlt].
Defined.

Lemma forallb_filter_negb {A} (f : A -> bool) (l : list A) :
  forallb f l = (if List.filter (fun x => negb (f x)) l is [] then true
                 else false).
Proof.
  induction l as [|a l IH]; simpl; [done |].
  destruct (f a); simpl; [exact IH | done].
Qed.

(** X24: For a current stage that is in progress [get_next_actions] is never
    at a loss: it lists one [complete_deliverable] action for each
    deliverable not marked done, in the order of the stage, and when there
    is none it lists the single action [complete_stage]; the two kinds
    never come together. *)
Theorem next_actions_in_progress (e : engine) (current : string)
    (info : StageInfo) :
  truthy (current_stage (state e)) = Some current ->
  _get_stage_info_by_id e current = Some info ->
  d_status (stage_state_data e current) = Some "in_progress" ->
  let marks := default ∅ (d_deliverables_status (stage_state_data e current)) in
  let open :=
    List.filter (fun d => negb (default false (marks !! d)))
                (deliverables info) in
  get_next_actions e
  = Ok (match open with
        | [] => [complete_action info]
        | _ :: _ => map (deliverable_action info) open
        end).
Proof.
  intros Hcur Hinfo Hst marks open.
  destruct (get_stage_state_status e current IN_PROGRESS Hst)
    as (s & Hs & Hss & _ & Hds).
  unfold get_next_actions. rewrite Hcur, Hinfo, Hs. simpl. rewrite Hss.
  rewrite (_check_deliverables_known e current info s Hinfo Hs). simpl.
  rewrite forallb_filter_negb. unfold deliverable_done. rewrite Hds.
  fold marks. fold open. by destruct open.
Qed.

Lemma next_actions_in_progress_witness :
  get_next_actions Deliveries.delivery_engine
  = Ok [deliverable_action Deliveries.design "plan.md"].
Proof.
  apply (next_actions_in_progress Deliveries.delivery_engine "design"
           Deliveries.design); reflexivity.
Defined.

(** X25: After [complete_stage] the engine suggests to start the successor:
    when the completed stage has a successor in the current mode that was
    not worked on yet, [get_next_actions] answers with the single action
    [start_stage] for that successor. *)
Theorem next_action_after_completion (now : Z) (stage_id nxt : string)
    (new_notes : option (list string)) (e : engine)
    (info next_info : StageInfo) (s : StageState) :
  _get_stage_info_by_id e stage_id = Some info ->
  get_stage_state e stage_id = Ok s ->
  truthy (next_stage info) = Some nxt ->
  nxt <> stage_id ->
  _get_stage_info_by_id e nxt = Some next_info ->
  default "pending" (d_status (stage_state_data e nxt)) = "pending" ->
  exists e',
    complete_stage now stage_id new_notes e = (e', Ok true) /\
    current_stage (state e') = Some nxt /\
    get_next_actions e' = Ok [start_action next_info].
Proof.
  intros Hinfo Hs Hnxt Hne Hnext Hpending.
  destruct (complete_stage_known now stage_id new_notes e info s Hinfo Hs)
    as (e' & Hc & Hcur & Hi & Hframe & _).
  exists e'. split; [done |]. rewrite Hnxt in Hcur. simpl in Hcur.
  split; [done |].
  unfold get_next_actions. rewrite Hcur.
  assert (truthy (Some nxt) = Some nxt) as ->.
  { destruct (next_stage info) as [n|]; [| done].
    destruct n; simpl in Hnxt; [done |]. by injection Hnxt as <-. }
  rewrite Hi, Hnext.
  unfold get_stage_state. rewrite (Hframe nxt Hne).
  change (StageStatus_value PENDING) with "pending". by rewrite Hpending.
Qed.

Lemma next_action_after_completion_witness :
  exists e',
    complete_stage 9 "design" None Deliveries.delivery_engine
    = (e', Ok true) /\
    get_next_actions e' = Ok [start_action Deliveries.build].
Proof.
  destruct (next_action_after_completion 9 "design" "build" None
              Deliveries.delivery_engine Deliveries.design Deliveries.build
              {| stage_id := "design"; status := IN_PROGRESS; progress := 50;
                 start_time := Some 3; end_time := None;
                 assignee := Some "ann"; notes := ["kickoff"];
                 deliverables_status := <["spec.md" := true]> ∅ |}
              eq_refl eq_refl eq_refl ltac:(discriminate) eq_refl eq_refl)
    as (e' & Hc & _ & Ha).
  exists e'. split; [exact Hc | exact Ha].
Defined.

Lemma summary_loop_rows (e : engine) (l : list StageInfo) :
  forall rows total completed rows' total' completed',
    summary_loop e l rows total completed = Ok (rows', total', completed') ->
    exists new,
      rows' = rows ++ new /\
      map row_id new = map id l /\
      total' = total + foldr Z.add 0 (map row_progress new) /\
      completed'
      = completed
        + len (List.filter
                 (fun r => bool_decide (row_status r = "completed")) new).
Proof.
  induction l as [|stage l IH]; intros rows total completed rows' total'
    completed' H; simpl in H.
  - injection H as <- <- <-. exists []. rewrite app_nil_r. simpl.
    unfold len. simpl. repeat split; lia.
  - destruct (get_stage_state e (id stage)) as [s|]; [| done]. simpl in H.
    apply IH in H as (new & -> & Hids & -> & ->).
    eexists (_ :: new). rewrite <- app_assoc. simpl.
    split; [reflexivity |]. split; [by rewrite Hids |].
    cbn [row_progress row_status]. split; [lia |].
    unfold len.
    destruct (status s); cbn [StageStatus_value];
      repeat case_bool_decide; try done; simpl; lia.
Qed.

(** X26: The totals of [get_flow_summary] agree with the rows it lists: one row
    per stage of the current mode in order, [completed_stages] counts the
    rows with status [completed] and so never exceeds [total_stages], and
    [overall_progress] is the floor of the mean of the rows' progress, 0
    for a mode without stages; it lies between 0 and 100 when every row
    does. *)
Theorem flow_summary_agrees_with_rows (e : engine) (sm : flow_summary) :
  get_flow_summary e = Ok sm ->
  map row_id (stages sm) = map id (get_stages_for_mode e (current_mode e)) /\
  total_stages sm = len (stages sm) /\
  completed_stages sm
  = len (List.filter (fun r => bool_decide (row_status r = "completed"))
           (stages sm)) /\
  0 <= completed_stages sm <= total_stages sm /\
  overall_progress sm
  = (if stages sm is [] then 0
     else foldr Z.add 0 (map row_progress (stages sm)) / len (stages sm)) /\
  ((forall r, r ∈ stages sm -> 0 <= row_progress r <= 100) ->
   0 <= overall_progress sm <= 100).
Proof.
  unfold get_flow_summary. intros H.
  destruct (summary_loop e _ [] 0 0) as [[[rows total] completed]|] eqn:E;
    [| done].
  simpl in H. injection H as <-. simpl.
  apply summary_loop_rows in E as (new & -> & Hids & -> & ->). simpl.
  set (l := get_stages_for_mode e (current_mode e)) in *.
  assert (len l = len new) as Hlen.
  { unfold len. f_equal.
    by rewrite <- (length_map id l), <- Hids, length_map. }
  pose proof (List.filter_length_le
                (fun r => bool_decide (row_status r = "completed")) new)
    as Hle.
  assert (overall :
    (match l with
     | [] => 0
     | _ :: _ => (0 + foldr Z.add 0 (map row_progress new)) / len l
     end)
    = (if new is [] then 0
       else foldr Z.add 0 (map row_progress new) / len new)).
  { rewrite Hlen. destruct l, new; try done. }
  rewrite overall.
  split; [done |]. split; [done |]. split; [done |].
  split; [unfold len in *; lia |]. split; [done |].
  intros Hrows. destruct new as [|r new']; [lia |].
  set (rows := r :: new') in *.
  assert (0 <= foldr Z.add 0 (map row_progress rows) <= 100 * len rows)
    as Hsum.
  { clear -Hrows. induction rows as [|a rows IH]; [unfold len; simpl; lia |].
    unfold len in *. simpl.
    destruct IH as [IH1 IH2]; [intros x Hx; apply Hrows; by right |].
    pose proof (Hrows a ltac:(left)). lia. }
  assert (0 < len rows) by (unfold len, rows; simpl; lia).
  split.
  - apply Z.div_pos; lia.
  - apply Z.div_le_upper_bound; lia.
Qed.

Lemma flow_summary_agrees_with_rows_witness :
  exists sm,
    get_flow_summary Deliveries.delivery_engine = Ok sm /\
    map row_id (stages sm) = ["design"; "build"] /\
    completed_stages sm = 0 /\ overall_progress sm = 25.
Proof.
  eexists. split; [reflexivity |].
  destruct (flow_summary_agrees_with_rows Deliveries.delivery_engine _
              eq_refl) as (Hids & _ & Hc & _ & Ho & _).
  split; [exact Hids |]. split; [exact Hc | exact Ho].
Defined.

(** X27: A switch that resets the progress builds the fresh state before the
    mode is changed: with a section [flow] in the configuration,
    [switch_flow_mode(new_mode, preserve_progress=False)] to another mode
    returns [True], empties the stage states and writes state and
    configuration, but the current stage it stores is the first stage of
    the mode that is left.  When the new mode has no stage of that id,
    [get_next_actions] has nothing to suggest afterwards. *)
Theorem switch_reset_keeps_first_stage_of_old_mode
    (migrate : FlowMode -> FlowMode -> engine -> engine * bool) (now : Z)
    (new_mode : FlowMode) (c : configured) (flow : gmap string string) :
  new_mode <> current_mode (eng c) ->
  config_flow c = Some flow ->
  exists c',
    switch_flow_mode migrate now new_mode false c = (c', Ok true) /\
    current_mode (eng c') = new_mode /\
    flow_mode (state (eng c')) = FlowMode_value new_mode /\
    stage_states (state (eng c')) = Some ∅ /\
    current_stage (state (eng c'))
    = head (map id (get_stages_for_mode (eng c) (current_mode (eng c)))) /\
    state_file (eng c') = Some (state (eng c')) /\
    config_file_flow c' = Some (<["mode" := FlowMode_value new_mode]> flow) /\
    ((forall stage, stage ∈ get_stages_for_mode (eng c) new_mode ->
                    Some (id stage) <> current_stage (state (eng c'))) ->
     get_next_actions (eng c') = Ok []).
Proof.
  intros Hne Hflow. unfold switch_flow_mode.
  rewrite bool_decide_eq_false_2 by done. simpl. rewrite Hflow.
  eexists. split; [reflexivity |]. simpl.
  split; [done |]. split; [done |]. split; [done |].
  split; [by destruct (get_stages_for_mode _ _) |].
  split; [done |]. split; [done |].
  intros Hnone.
  match goal with
  | |- get_next_actions (_save_state now ?x) = _ =>
      destruct (MultiModeProps._save_state_fields now x)
        as (Hc & Hs & Hfm & Hcm);
      set (e' := _save_state now x) in *
  end.
  unfold get_next_actions.
  destruct (truthy (current_stage (state e'))) as [cur|] eqn:Ht; [| done].
  apply StateEngineProps.truthy_Some in Ht.
  assert (_get_stage_info_by_id e' cur = None) as ->.
  { destruct (_get_stage_info_by_id e' cur) as [info|] eqn:Hi; [| done].
    exfalso. apply _get_stage_info_id in Hi as [Hid Hin].
    unfold get_stages_for_mode in Hin. rewrite Hfm, Hcm in Hin.
    apply (Hnone info Hin). by rewrite Hid. }
  unfold get_stage_state, stage_state_data. rewrite Hs. simpl.
  by rewrite lookup_empty.
Qed.

Lemma switch_reset_keeps_first_stage_of_old_mode_witness :
  exists c',
    switch_flow_mode (fun _ _ e => (e, true)) 9 MINIMAL false
      Deliveries.delivery_configured = (c', Ok true) /\
    get_stages_for_mode (eng c') (current_mode (eng c')) = [Deliveries.build]
    /\ current_stage (state (eng c')) = Some "design" /\
    get_next_actions (eng c') = Ok [].
Proof.
  destruct (switch_reset_keeps_first_stage_of_old_mode
              (fun _ _ e => (e, true)) 9 MINIMAL
              Deliveries.delivery_configured (<["mode" := "standard"]> ∅)
              ltac:(discriminate) eq_refl)
    as (c' & Hs & Hm & _ & _ & Hcur & _ & _ & Hnone).
  assert (c' = fst (switch_flow_mode (fun _ _ e => (e, true)) 9 MINIMAL false
                      Deliveries.delivery_configured)) as He
    by (rewrite Hs; reflexivity).
  exists c'. split; [exact Hs |]. split; [rewrite He; reflexivity |].
  split; [exact Hcur |]. apply Hnone.
  intros stage Hin. rewrite Hcur.
  apply list_elem_of_singleton in Hin. rewrite Hin. discriminate.
Defined.

(** X28: Without a section [flow] in the configuration a resetting switch to
    another mode fails with [KeyError] only after it has replaced the
    state and the mode in memory; neither file is written.  A second call
    then finds the mode already set and returns [True], again without
    writing. *)
Theorem switch_without_flow_section
    (migrate : FlowMode -> FlowMode -> engine -> engine * bool)
    (now now' : Z) (new_mode : FlowMode) (preserve : bool) (c : configured) :
  new_mode <> current_mode (eng c) ->
  config_flow c = None ->
  exists c',
    switch_flow_mode migrate now new_mode false c
    = (c', Raise (KeyError "flow")) /\
    current_mode (eng c') = new_mode /\
    stage_states (state (eng c')) = Some ∅ /\
    state_file (eng c') = state_file (eng c) /\
    config_file_flow c' = config_file_flow c /\
    switch_flow_mode migrate now' new_mode preserve c' = (c', Ok true).
Proof.
  intros Hne Hflow. unfold switch_flow_mode.
  rewrite bool_decide_eq_false_2 by done. simpl. rewrite Hflow.
  eexists. split; [reflexivity |]. simpl.
  by rewrite bool_decide_eq_true_2.
Qed.

Lemma switch_without_flow_section_witness :
  exists c',
    switch_flow_mode (fun _ _ e => (e, true)) 9 MINIMAL false
      Deliveries.delivery_unconfigured = (c', Raise (KeyError "flow")) /\
    current_mode (eng c') = MINIMAL /\
    state_file (eng c') = None /\
    switch_flow_mode (fun _ _ e => (e, true)) 10 MINIMAL true c'
    = (c', Ok true).
Proof.
  destruct (switch_without_flow_section (fun _ _ e => (e, true)) 9 10
              MINIMAL true Deliveries.delivery_unconfigured
              ltac:(discriminate) eq_refl)
    as (c' & Hs & Hm & _ & Hf & _ & Hagain).
  exists c'. split; [exact Hs |]. split; [exact Hm |].
  split; [exact Hf | exact Hagain].
Defined.

End MultiModeActionsProps.
